(** * Multilevel Switch command class and interview stages of node-zwave-js

    A shallow embedding of
    - [packages/cc/src/cc/MultilevelSwitchCC.ts]: the payload codec of the
      Multilevel Switch commands, the table [switchTypeProperties] with the
      two dynamic value predicates, the methods of [MultilevelSwitchCCAPI]
      with its [SET_VALUE] and [POLL_VALUE] implementations, and the interview
      of the command class;
    - the [InterviewStage] enum of the declaration file of [ZWaveNode].

    Numbers are [Z]; a [Buffer] is a [list Z] whose elements are bytes; a
    thrown [ZWaveError] is the left summand of [Outcome]. *)

From Stdlib Require Import ZArith Lia Bool Ascii String.
From stdpp Require Import gmap strings list.

Local Open Scope Z_scope.

(** ** Errors and the exception monad *)

(** [property: string | number] *)
Inductive Property : Type :=
| PString (s : string)
| PNumber (n : Z).

#[global] Instance Property_eq_dec : EqDecision Property.
Proof. solve_decision. Defined.

#[global] Instance Property_countable : Countable Property.
Proof.
  refine (inj_countable'
            (fun p => match p with PString s => inl s | PNumber n => inr n end)
            (fun x => match x with inl s => PString s | inr n => PNumber n end)
            _).
  by intros [].
Defined.

(** The errors this file meets: the four it throws itself or through the
    helpers it calls ([MalformedCC] by [validatePayload], [CC_Invalid] by
    [Duration.serializeSet], [CC_NotSupported] by [assertSupportsCommand],
    [Argument_Invalid] by [@validateArgs()]), the two thrown by
    [throwWrongValueType] and [throwUnsupportedProperty], and [NodeTimeout]
    (spec section 7) for a transaction that failed. *)
Inductive ZWaveError : Type :=
| MalformedCC
| CC_Invalid
| CC_NotSupported
| Argument_Invalid
| NodeTimeout
| WrongValueType (property : Property) (expected actual : string)
| UnsupportedProperty (property : Property).

(** [inl e]: the call threw [e]; [inr a]: it returned [a]. *)
Definition Outcome (A : Type) : Type := ZWaveError + A.

Definition throw {A} (e : ZWaveError) : Outcome A := inl e.

#[global] Instance Outcome_ret : MRet Outcome := fun A a => inr a.
#[global] Instance Outcome_bind : MBind Outcome := fun A B f m =>
  match m with
  | inl e => inl e
  | inr a => f a
  end.

(** Modelled from the spec: [validatePayload] is imported from
    [@zwave-js/core/safe], whose source lies outside the sources covered
    here.  Section 4.3: a failed assertion yields [MalformedCC] and aborts
    decoding. *)
Definition validatePayload (condition : bool) : Outcome unit :=
  if condition then mret tt else throw MalformedCC.

(** ** What the command class imports from [@zwave-js/core/safe]

    The [Duration] class and the number parsers are used by the command
    class but defined outside the sources covered here, so the model is
    parametrised by them. *)

(** Modelled from the spec: the enum [SupervisionStatus] is declared in
    [@zwave-js/core].  The command class names [Success] and [Fail]
    (the spec: [SupervisionReport(status=Success)]); [NoSupport] and
    [Working] are the other two statuses of a supervision report. *)
Inductive SupervisionStatus : Type :=
| NoSupport
| Working
| Fail
| Success.

#[global] Instance SupervisionStatus_eq_dec : EqDecision SupervisionStatus.
Proof. solve_decision. Defined.

(** [SupervisionResult]: only [status] is read by this file. *)
Record SupervisionResult : Type := { status : SupervisionStatus }.

(** [isSupervisionResult(result)] for a [SupervisionResult | undefined] *)
Definition isSupervisionResult (result : option SupervisionResult) : bool :=
  bool_decide (is_Some result).

(** Modelled from the spec: [supervisedCommandSucceeded(result)] is imported
    from [@zwave-js/core/safe], outside the sources covered here.  Section 9
    sets a transaction that is supervised and succeeded apart from the rest.
    A supervision result counts as succeeded with status [Success], and also
    with status [Working]: the node accepted the command and reports the
    final status later as a status update, which is what [SET_VALUE]
    registers its [onUpdate] handler for. *)
Definition supervisedCommandSucceeded (result : option SupervisionResult)
  : bool :=
  match result with
  | Some r =>
      bool_decide (status r = Success) || bool_decide (status r = Working)
  | None => false
  end.

Class CoreSafe : Type := {
  Duration : Type;
  (** [Duration.parseReport(byte)], [Duration.parseSet(byte)] *)
  Duration_parseReport : Z -> option Duration;
  Duration_parseSet : Z -> option Duration;
  (** [duration.serializeSet()], which may throw *)
  Duration_serializeSet : Duration -> Outcome Z;
  (** [Maybe<number> | undefined] and its parser *)
  MaybeNumber : Type;
  parseMaybeNumber : Z -> MaybeNumber;
  parseNumber : Z -> option Z;
}.

(** [Buffer.from(array)] stores every element modulo 256. *)
Definition Buffer_from (bytes : list Z) : list Z :=
  (fun b => Z.land b 255) <$> bytes.

Definition is_byte (b : Z) : Prop := 0 <= b < 256.

(** ** Command identifiers and instances *)

Inductive MultilevelSwitchCommand : Type :=
| Cmd_Set
| Cmd_Get
| Cmd_Report
| Cmd_StartLevelChange
| Cmd_StopLevelChange
| Cmd_SupportedGet
| Cmd_SupportedReport.

(** [keyof typeof LevelChangeDirection] *)
Inductive LevelChangeDirection : Type := up | down.

#[global] Instance LevelChangeDirection_eq_dec : EqDecision LevelChangeDirection.
Proof. solve_decision. Defined.

(** Modelled from the spec: the numeric values of the enum
    [LevelChangeDirection] are declared in [lib/_Types], outside the sources
    covered here; the Z-Wave encoding is 0 for up and 1 for down, the one
    the deserialising constructor reads back from bit 6. *)
Definition LevelChangeDirection_value (d : LevelChangeDirection) : Z :=
  match d with
  | up => 0
  | down => 1
  end.

Section Codec.
Context `{CoreSafe}.

(** One constructor per command class of the file, with the fields the class
    declares.  The classes without a [serialize] of their own (the two
    reports, [Get], [StopLevelChange] and [SupportedGet]) keep the payload
    the inherited constructor stored, which is what the inherited
    [serialize] writes: the received payload for a received command, the
    empty one for a command the API creates. *)
Inductive MultilevelSwitchCC : Type :=
| MultilevelSwitchCCSet (targetValue : Z) (duration : option Duration)
| MultilevelSwitchCCGet (payload : list Z)
| MultilevelSwitchCCReport (payload : list Z) (currentValue : MaybeNumber)
    (targetValue : option Z) (duration : option Duration)
| MultilevelSwitchCCStartLevelChange (duration : option Duration)
    (startLevel : Z) (ignoreStartLevel : bool)
    (direction : LevelChangeDirection)
| MultilevelSwitchCCStopLevelChange (payload : list Z)
| MultilevelSwitchCCSupportedGet (payload : list Z)
| MultilevelSwitchCCSupportedReport (payload : list Z) (switchType : Z).

Definition ccCommand (cc : MultilevelSwitchCC) : MultilevelSwitchCommand :=
  match cc with
  | MultilevelSwitchCCSet _ _ => Cmd_Set
  | MultilevelSwitchCCGet _ => Cmd_Get
  | MultilevelSwitchCCReport _ _ _ _ => Cmd_Report
  | MultilevelSwitchCCStartLevelChange _ _ _ _ => Cmd_StartLevelChange
  | MultilevelSwitchCCStopLevelChange _ => Cmd_StopLevelChange
  | MultilevelSwitchCCSupportedGet _ => Cmd_SupportedGet
  | MultilevelSwitchCCSupportedReport _ _ => Cmd_SupportedReport
  end.

Definition payload_length (payload : list Z) : Z := Z.of_nat (length payload).

(** ** Deserialising constructors *)

Definition MultilevelSwitchCCSet_from (payload : list Z)
  : Outcome MultilevelSwitchCC :=
  validatePayload (1 <=? payload_length payload);;
  let targetValue := payload !!! 0%nat in
  let duration :=
    if 2 <=? payload_length payload
    then Duration_parseReport (payload !!! 1%nat)
    else None in
  mret (MultilevelSwitchCCSet targetValue duration).

Definition MultilevelSwitchCCReport_from (version : Z) (payload : list Z)
  : Outcome MultilevelSwitchCC :=
  validatePayload (1 <=? payload_length payload);;
  let currentValue := parseMaybeNumber (payload !!! 0%nat) in
  if (4 <=? version) && (3 <=? payload_length payload)
  then mret (MultilevelSwitchCCReport payload currentValue
               (parseNumber (payload !!! 1%nat))
               (Duration_parseReport (payload !!! 2%nat)))
  else mret (MultilevelSwitchCCReport payload currentValue None None).

Definition MultilevelSwitchCCStartLevelChange_from (payload : list Z)
  : Outcome MultilevelSwitchCC :=
  validatePayload (2 <=? payload_length payload);;
  let ignoreStartLevel := Z.shiftr (Z.land (payload !!! 0%nat) 32) 5 in
  let direction := Z.shiftr (Z.land (payload !!! 0%nat) 64) 6 in
  let startLevel := payload !!! 1%nat in
  let duration :=
    if 3 <=? payload_length payload
    then Duration_parseSet (payload !!! 2%nat)
    else None in
  mret (MultilevelSwitchCCStartLevelChange duration startLevel
          (negb (ignoreStartLevel =? 0))
          (if direction =? 0 then up else down)).

Definition MultilevelSwitchCCSupportedReport_from (payload : list Z)
  : Outcome MultilevelSwitchCC :=
  validatePayload (1 <=? payload_length payload);;
  mret (MultilevelSwitchCCSupportedReport payload
          (Z.land (payload !!! 0%nat) 31)).

(** The constructor chosen for a received command.  [Get],
    [StopLevelChange] and [SupportedGet] declare no constructor and no
    field: the inherited constructor stores the payload and nothing of it is
    read. *)
Definition deserialize (cmd : MultilevelSwitchCommand) (version : Z)
    (payload : list Z) : Outcome MultilevelSwitchCC :=
  match cmd with
  | Cmd_Set => MultilevelSwitchCCSet_from payload
  | Cmd_Get => mret (MultilevelSwitchCCGet payload)
  | Cmd_Report => MultilevelSwitchCCReport_from version payload
  | Cmd_StartLevelChange => MultilevelSwitchCCStartLevelChange_from payload
  | Cmd_StopLevelChange => mret (MultilevelSwitchCCStopLevelChange payload)
  | Cmd_SupportedGet => mret (MultilevelSwitchCCSupportedGet payload)
  | Cmd_SupportedReport => MultilevelSwitchCCSupportedReport_from payload
  end.

(** ** Serialisation: the payload each class writes *)

(** [if (this.version >= 2 && this.duration) payload.push(this.duration.serializeSet())] *)
Definition durationBytes (version : Z) (duration : option Duration)
  : Outcome (list Z) :=
  match duration with
  | Some d =>
      if 2 <=? version
      then b ← Duration_serializeSet d; mret [b]
      else mret []
  | None => mret []
  end.

Definition controlByte (direction : LevelChangeDirection)
    (ignoreStartLevel : bool) : Z :=
  Z.lor (Z.shiftl (LevelChangeDirection_value direction) 6)
        (if ignoreStartLevel then 32 else 0).

Definition serialize (version : Z) (cc : MultilevelSwitchCC)
  : Outcome (list Z) :=
  match cc with
  | MultilevelSwitchCCSet targetValue duration =>
      tail ← durationBytes version duration;
      mret (Buffer_from ([targetValue] ++ tail))
  | MultilevelSwitchCCStartLevelChange duration startLevel ignoreStartLevel
      direction =>
      tail ← durationBytes version duration;
      mret (Buffer_from
              ([controlByte direction ignoreStartLevel; startLevel] ++ tail))
  | MultilevelSwitchCCReport payload _ _ _
  | MultilevelSwitchCCSupportedReport payload _
  | MultilevelSwitchCCGet payload
  | MultilevelSwitchCCStopLevelChange payload
  | MultilevelSwitchCCSupportedGet payload => mret payload
  end.

End Codec.

(** ** A concrete [Duration] *)

(** Modelled from the spec: the [Duration] class ([values/Duration], exported
    by [packages/core/src/index.ts]) lies outside the sources covered here,
    and the spec only names it as a value type.  This instance follows the
    Z-Wave duration byte (0..127 seconds, bit 7 set for 1..127 minutes, 0xFF
    the default duration in a Set, 0xFE unknown and 0xFF reserved in a
    Report).  The theorems hold for every [CoreSafe]; this instance serves to
    run the model on concrete inputs. *)
Module ZWaveDuration.

Inductive DurationUnit : Type :=
| Unit_seconds
| Unit_minutes
| Unit_unknown
| Unit_default.

Record t : Type := Build { value : Z; unit : DurationUnit }.

Definition clamp (v lo hi : Z) : Z := Z.min (Z.max v lo) hi.

(** [new Duration(value, unit)] *)
Definition make (value : Z) (unit : DurationUnit) : t :=
  match unit with
  | Unit_minutes =>
      if value =? 0 then Build 0 Unit_seconds
      else Build (clamp value 0 127) Unit_minutes
  | Unit_seconds => Build (clamp value 0 127) Unit_seconds
  | Unit_unknown => Build 0 Unit_unknown
  | Unit_default => Build 0 Unit_default
  end.

Definition parseTime (payload : Z) : t :=
  let isMinutes := Z.testbit payload 7 in
  let value := Z.land payload 127 + (if isMinutes then 1 else 0) in
  make value (if isMinutes then Unit_minutes else Unit_seconds).

Definition parseReport (payload : Z) : option t :=
  if payload =? 255 then None
  else if payload =? 254 then Some (make 0 Unit_unknown)
  else Some (parseTime payload).

Definition parseSet (payload : Z) : option t :=
  if payload =? 255 then Some (make 0 Unit_default)
  else Some (parseTime payload).

Definition serializeSet (d : t) : Outcome Z :=
  match unit d with
  | Unit_default => mret 255
  | Unit_unknown => throw CC_Invalid
  | Unit_minutes => mret (128 + Z.land (value d - 1) 127)
  | Unit_seconds => mret (Z.land (value d) 127)
  end.

(** [parseMaybeNumber]: 0xFE is the string "unknown", kept apart from a
    number; [parseNumber]: 0..99 as is, 0xFF as 99, anything else undefined. *)
Inductive maybeNumber : Type :=
| Known (n : Z)
| Unknown
| Undefined.

Definition parseNumber (val : Z) : option Z :=
  if val <=? 99 then Some val
  else if val =? 255 then Some 99
  else None.

Definition parseMaybeNumber (val : Z) : maybeNumber :=
  if val =? 254 then Unknown
  else match parseNumber val with
       | Some n => Known n
       | None => Undefined
       end.

Definition core : CoreSafe :=
  Build_CoreSafe t parseReport parseSet serializeSet
    maybeNumber parseMaybeNumber parseNumber.

End ZWaveDuration.

(** ** Strings and arrays the way the file uses them *)

(** [s.indexOf(c)] for a one-character needle: first position or -1. *)
Fixpoint String_indexOf (c : ascii) (s : string) : Z :=
  match s with
  | EmptyString => -1
  | String a rest =>
      if Ascii.eqb a c then 0
      else let i := String_indexOf c rest in
           if i =? -1 then -1 else i + 1
  end.

(** [s.includes(c)] *)
Definition String_includes (c : ascii) (s : string) : bool :=
  negb (String_indexOf c s =? -1).

(** [s.split(c)]: the pieces between the occurrences of [c]. *)
Fixpoint String_split (c : ascii) (s : string) : list string :=
  match s with
  | EmptyString => [EmptyString]
  | String a rest =>
      if Ascii.eqb a c then EmptyString :: String_split c rest
      else match String_split c rest with
           | piece :: pieces => String a piece :: pieces
           | [] => [String a EmptyString]
           end
  end.

(** [s.split(c, limit)] *)
Definition String_split_limit (c : ascii) (limit : nat) (s : string)
  : list string :=
  take limit (String_split c s).

(** [array.indexOf(x)]: first position or -1. *)
Fixpoint Array_indexOf (x : string) (l : list string) : Z :=
  match l with
  | [] => -1
  | y :: rest =>
      if String.eqb y x then 0
      else let i := Array_indexOf x rest in
           if i =? -1 then -1 else i + 1
  end.

(** [array.includes(x)] *)
Definition Array_includes (x : string) (l : list string) : bool :=
  negb (Array_indexOf x l =? -1).

(** ** [switchTypeProperties] *)

(** The enum [SwitchType] is declared in [lib/_Types], outside the sources
    covered here.  The command class uses [Object.keys(SwitchType)] and
    [SwitchType[0x02]]; both are parameters. *)
Class SwitchTypeEnum : Type := {
  SwitchType_keys : list string;
  SwitchType_0x02 : string;
}.

Section SwitchTypes.
Context `{SwitchTypeEnum}.

Definition switchTypeToActions (switchType : string) : list string :=
  let switchType :=
    if negb (String_includes "/" switchType) then SwitchType_0x02
    else switchType in
  String_split_limit "/" 2 switchType.

Definition switchTypeProperties : list string :=
  foldl (fun acc cur => acc ++ cur) []
    (switchTypeToActions <$>
       filter (fun key => -1 < String_indexOf "/" key) SwitchType_keys).

End SwitchTypes.

(** Modelled from the spec: the members of [SwitchType] lie outside the
    sources covered here (the spec gives "up/down" and "open/close" as
    examples); this is the Z-Wave table of switch types (the command class
    documents entry 0x02 as Down/Up), with the keys in the order
    [Object.keys] lists them for a numeric enum: the reverse-mapping keys
    first, then the member names in declaration order. *)
Definition ZWaveSwitchType : SwitchTypeEnum := {|
  SwitchType_keys :=
    ["0"; "1"; "2"; "3"; "4"; "5"; "6"; "7";
     "not supported"; "Off/On"; "Down/Up"; "Close/Open"; "CCW/CW";
     "Left/Right"; "Reverse/Forward"; "Pull/Push"]%string;
  SwitchType_0x02 := "Down/Up"%string;
|}.

(** ** Value ids and values *)

Record ValueID : Type := {
  commandClass : Z;
  endpoint : Z;
  property : Property;
  propertyKey : option Property;
}.

#[global] Instance ValueID_eq_dec : EqDecision ValueID.
Proof. solve_decision. Defined.

#[global] Instance ValueID_countable : Countable ValueID.
Proof.
  refine (inj_countable'
            (fun v => (commandClass v, endpoint v, property v, propertyKey v))
            (fun '(c, e, p, k) => Build_ValueID c e p k) _).
  by intros [].
Defined.

(** The values a caller may pass to [setValue] or store in the value DB. *)
Inductive JSValue : Type :=
| VNumber (n : Z)
| VBoolean (b : bool)
| VString (s : string)
| VUndefined.

#[global] Instance JSValue_eq_dec : EqDecision JSValue.
Proof. solve_decision. Defined.

Definition typeof (v : JSValue) : string :=
  match v with
  | VNumber _ => "number"
  | VBoolean _ => "boolean"
  | VString _ => "string"
  | VUndefined => "undefined"
  end.

(** [CommandClasses["Multilevel Switch"]], the command class id 0x26 *)
Definition CommandClasses_Multilevel_Switch : Z := 38.

(** [MultilevelSwitchCCValues.currentValue.endpoint(index)] *)
Definition currentValue_endpoint (index : Z) : ValueID := {|
  commandClass := CommandClasses_Multilevel_Switch;
  endpoint := index;
  property := PString "currentValue";
  propertyKey := None;
|}.

(** The [is] predicates of the dynamic values [levelChangeUp] and
    [levelChangeDown]; [%] is the remainder with the sign of the dividend. *)
Section DynamicValues.
Context `{SwitchTypeEnum}.

Definition levelChangeUp_is (id : ValueID) : bool :=
  match property id with
  | PString property =>
      Z.rem (Array_indexOf property switchTypeProperties) 2 =? 1
  | PNumber _ => false
  end.

Definition levelChangeDown_is (id : ValueID) : bool :=
  match property id with
  | PString property =>
      Z.rem (Array_indexOf property switchTypeProperties) 2 =? 0
  | PNumber _ => false
  end.

End DynamicValues.

(** ** The value DB *)

(** Modelled from the spec: the [ValueDB] class ([values/ValueDB], exported
    by [packages/core/src/index.ts]) lies outside the sources covered here.
    Section 4.6: it exposes get/set/has/remove by value id and emits change
    events; setting a value with an unchanged payload does not emit.
    Section 6: an event carries the value id and the new and previous
    value. *)
Module ValueDB.

Inductive Event : Type :=
| ValueUpdated (id : ValueID) (prevValue : option JSValue) (newValue : JSValue)
| ValueRemoved (id : ValueID) (prevValue : JSValue).

Abbreviation t := (gmap ValueID JSValue).

Definition get (db : t) (id : ValueID) : option JSValue := db !! id.

Definition has (db : t) (id : ValueID) : bool := bool_decide (is_Some (db !! id)).

(** Modelled from the spec: [set(valueId, value)] (section 4.6), giving the
    DB after the call and the events the call emitted; a set with an
    unchanged payload emits nothing. *)
Definition set (db : t) (id : ValueID) (value : JSValue) : t * list Event :=
  if decide (db !! id = Some value) then (db, [])
  else (<[id := value]> db, [ValueUpdated id (db !! id) value]).

Definition remove (db : t) (id : ValueID) : t * list Event :=
  match db !! id with
  | Some prev => (delete id db, [ValueRemoved id prev])
  | None => (db, [])
  end.

End ValueDB.

(** ** The application host as the API sees it *)

Section API.
Context `{CoreSafe} `{SwitchTypeEnum}.

(** The status-update handler passed to [withOptions]: the closure
    [onUpdate] captures [currentValueValueId] and [value]. *)
Record StatusUpdateHandler : Type := {
  handler_valueId : ValueID;
  handler_value : Z;
}.

(** A command handed to [applHost.sendCommand], with the options
    [requestStatusUpdates]/[onUpdate] when they were given. *)
Record SentCommand : Type := {
  sent_cc : MultilevelSwitchCC;
  sent_onUpdate : option StatusUpdateHandler;
}.

(** A call of [schedulePoll({ property }, expectedValue, { duration })]. *)
Record ScheduledPoll : Type := {
  poll_property : Property;
  poll_expectedValue : option Z;
  poll_duration : option Duration;
}.

(** What the API instance is bound to. *)
Record Env : Type := {
  (** [this.endpoint.nodeId], [this.endpoint.index] *)
  env_nodeId : Z;
  env_endpointIndex : Z;
  env_isSinglecast : bool;
  env_isMulticast : bool;
  (** [this.endpoint.node.physicalNodes]: the id of each node, and whether
      its endpoint supports the CC *)
  env_physicalNodes : list (Z * bool);
  (** [applHost.options.disableOptimisticValueUpdate] *)
  env_disableOptimisticValueUpdate : bool;
  (** how the transaction of a command ends once the command is
      serialised: it fails and the promise of [applHost.sendCommand] is
      rejected (spec sections 4.5 and 7), or the promise resolves to the
      supervision result, undefined for an unsupervised command *)
  env_sendCommand : SentCommand -> Outcome (option SupervisionResult);
}.

(** The mutable world: the value DB of each node for which
    [tryGetValueDB] returns one, the events emitted so far, the commands
    handed to [applHost.sendCommand] and the polls scheduled, oldest
    first. *)
Record Host : Type := {
  valueDBs : gmap Z ValueDB.t;
  emitted : list (Z * ValueDB.Event);
  sent : list SentCommand;
  polls : list ScheduledPoll;
}.

Definition API (A : Type) : Type := Host -> Outcome A * Host.

#[global] Instance API_ret : MRet API := fun A a h => (inr a, h).
#[global] Instance API_bind : MBind API := fun A B f m h =>
  match m h with
  | (inl e, h') => (inl e, h')
  | (inr a, h') => f a h'
  end.

Definition API_throw {A} (e : ZWaveError) : API A := fun h => (inl e, h).

(** [await p.catch(() => {})], with the result dropped *)
Definition API_catch {A} (m : API A) : API unit := fun h =>
  match m h with
  | (_, h') => (inr tt, h')
  end.

Definition when (b : bool) (m : API unit) : API unit :=
  if b then m else mret tt.

(** [applHost.tryGetValueDB(nodeId)?.setValue(id, value)] *)
Definition applHost_tryGetValueDB_setValue (nodeId : Z) (id : ValueID)
    (value : JSValue) : API unit := fun h =>
  match valueDBs h !! nodeId with
  | Some db =>
      let '(db', events) := ValueDB.set db id value in
      (inr tt, {| valueDBs := <[nodeId := db']> (valueDBs h);
                  emitted := emitted h ++ ((fun e => (nodeId, e)) <$> events);
                  sent := sent h;
                  polls := polls h |})
  | None => (inr tt, h)
  end.

(** [this.tryGetValueDB()?.setValue(id, value)].  [tryGetValueDB] of the API
    base class ([lib/API], outside the sources covered here) gives the value
    DB of [this.endpoint.nodeId] on a singlecast endpoint and undefined on
    any other ("Singlecast only", as [SET_VALUE] notes where it reads the
    start level). *)
Definition tryGetValueDB_setValue (env : Env) (id : ValueID)
    (value : JSValue) : API unit :=
  if env_isSinglecast env
  then applHost_tryGetValueDB_setValue (env_nodeId env) id value
  else mret tt.

(** What [this.tryGetValueDB()?.getValue(id)] reads in a host. *)
Definition stored_value (env : Env) (h : Host) (id : ValueID)
  : option JSValue :=
  if env_isSinglecast env
  then valueDBs h !! env_nodeId env ≫= fun db => ValueDB.get db id
  else None.

(** [this.tryGetValueDB()?.getValue(id)] *)
Definition tryGetValueDB_getValue (env : Env) (id : ValueID)
  : API (option JSValue) := fun h =>
  (inr (stored_value env h id), h).

(** The host after one more command was handed to [applHost.sendCommand]. *)
Definition host_sent (h : Host) (cmd : SentCommand) : Host :=
  {| valueDBs := valueDBs h; emitted := emitted h;
     sent := sent h ++ [cmd]; polls := polls h |}.

(** What the promise of [applHost.sendCommand] settles to for a command: the
    driver serialises the command, and [serialize] may throw; then the
    transaction fails or resolves. *)
Definition send_outcome (env : Env) (version : Z) (cmd : SentCommand)
  : Outcome (option SupervisionResult) :=
  serialize version (sent_cc cmd);;
  env_sendCommand env cmd.

(** [await applHost.sendCommand(cc, options)]: the command is handed over
    whatever becomes of it.  [version] is [this.version], the version of the
    command class that the node implements, for the API and for the
    commands it creates. *)
Definition sendCommand (env : Env) (version : Z) (cc : MultilevelSwitchCC)
    (onUpdate : option StatusUpdateHandler) : API (option SupervisionResult) :=
  fun h =>
    let cmd := {| sent_cc := cc; sent_onUpdate := onUpdate |} in
    (send_outcome env version cmd, host_sent h cmd).

Definition schedulePoll (property : Property) (expectedValue : option Z)
    (duration : option Duration) : API unit := fun h =>
  (inr tt,
   {| valueDBs := valueDBs h; emitted := emitted h; sent := sent h;
      polls := polls h ++ [{| poll_property := property;
                              poll_expectedValue := expectedValue;
                              poll_duration := duration |}] |}).

(** [supportsCommand]: [None] where the file defers to the base class. *)
Definition supportsCommand (env : Env) (version : Z)
    (cmd : MultilevelSwitchCommand) : option bool :=
  match cmd with
  | Cmd_Get => Some (env_isSinglecast env)
  | Cmd_Set | Cmd_StartLevelChange | Cmd_StopLevelChange => Some true
  | Cmd_SupportedGet => Some ((3 <=? version) && env_isSinglecast env)
  | Cmd_Report | Cmd_SupportedReport => None
  end.

Definition assertSupportsCommand (env : Env) (version : Z)
    (cmd : MultilevelSwitchCommand) : API unit :=
  match supportsCommand env version cmd with
  | Some true => mret tt
  | _ => API_throw CC_NotSupported
  end.

(** [get()], with the report dropped, as the status-update handler calls
    it. *)
Definition get (env : Env) (version : Z) : API unit :=
  assertSupportsCommand env version Cmd_Get;;
  sendCommand env version (MultilevelSwitchCCGet []) None;;
  mret tt.

(** [withOptions(options).set(targetValue, duration)].  The arguments
    checked by [@validateArgs()] are a number and a duration here, so the
    check passes. *)
Definition set (env : Env) (version : Z)
    (onUpdate : option StatusUpdateHandler) (targetValue : Z)
    (duration : option Duration) : API (option SupervisionResult) :=
  assertSupportsCommand env version Cmd_Set;;
  sendCommand env version (MultilevelSwitchCCSet targetValue duration)
    onUpdate.

(** [@validateArgs()] on [startLevelChange].  The decorator comes from
    [@zwave-js/transformers], outside the sources covered here: before the
    method body runs it checks the arguments against the declared parameter
    types and throws [Argument_Invalid] when they do not fit.  Of
    [MultilevelSwitchCCStartLevelChangeOptions] the caller in this file can
    only miss [startLevel], declared [startLevel?: number] with
    [ignoreStartLevel: true] and [startLevel: number] with
    [ignoreStartLevel: false]: it passes what the value DB holds. *)
Definition validateArgs_startLevelChange (ignoreStartLevel : bool)
    (startLevel : option JSValue) : API (option Z) :=
  match startLevel with
  | Some (VNumber n) => mret (Some n)
  | None | Some VUndefined =>
      if ignoreStartLevel then mret None else API_throw Argument_Invalid
  | Some (VBoolean _) | Some (VString _) => API_throw Argument_Invalid
  end.

(** [startLevelChange(options)]: the constructor stores
    [options.startLevel ?? 0]. *)
Definition startLevelChange (env : Env) (version : Z)
    (direction : LevelChangeDirection) (ignoreStartLevel : bool)
    (startLevel : option JSValue) (duration : option Duration)
  : API (option SupervisionResult) :=
  startLevel ← validateArgs_startLevelChange ignoreStartLevel startLevel;
  assertSupportsCommand env version Cmd_StartLevelChange;;
  sendCommand env version
    (MultilevelSwitchCCStartLevelChange duration (default 0 startLevel)
       ignoreStartLevel direction) None.

Definition stopLevelChange (env : Env) (version : Z)
  : API (option SupervisionResult) :=
  assertSupportsCommand env version Cmd_StopLevelChange;;
  sendCommand env version (MultilevelSwitchCCStopLevelChange []) None.

(** The closure [onUpdate] of [SET_VALUE], run by the driver for a status
    update that arrives after a [Working] result. *)
Definition onUpdate (env : Env) (version : Z) (handler : StatusUpdateHandler)
    (update : SupervisionResult) : API unit :=
  if decide (status update = Success) then
    tryGetValueDB_setValue env (handler_valueId handler)
      (VNumber (handler_value handler))
  else if decide (status update = Fail) then
    API_catch (get env version)
  else mret tt.

(** [MultilevelSwitchCCAPI[SET_VALUE]]; [duration] is
    [Duration.from(options?.transitionDuration)]. *)
Definition setValue (env : Env) (version : Z) (property : Property)
    (value : JSValue) (duration : option Duration)
  : API (option SupervisionResult) :=
  let '(property, value) :=
    if decide (property = PString "restorePrevious")
    then (PString "targetValue", VNumber 255)
    else (property, value) in
  if decide (property = PString "targetValue") then
    match value with
    | VNumber value =>
        let currentValueValueId :=
          currentValue_endpoint (env_endpointIndex env) in
        result ← set env version
          (if negb (value =? 255)
           then Some {| handler_valueId := currentValueValueId;
                        handler_value := value |}
           else None)
          value duration;
        let shouldUpdateOptimistically :=
          (negb (env_disableOptimisticValueUpdate env)
             && bool_decide (result = None))
          || (isSupervisionResult result
                && bool_decide (status <$> result = Some Success)) in
        (if env_isSinglecast env then
           when (shouldUpdateOptimistically && (0 <=? value) && (value <=? 99))
             (tryGetValueDB_setValue env currentValueValueId (VNumber value));;
           when (negb (supervisedCommandSucceeded result) || (value =? 255))
             (schedulePoll (PString "currentValue")
                (if value =? 255 then None else Some value) duration)
         else if env_isMulticast env then
           if shouldUpdateOptimistically && (0 <=? value) && (value <=? 99)
           then
             let affectedNodes :=
               filter (fun node => snd node = true) (env_physicalNodes env) in
             foldr (fun node rest =>
                      applHost_tryGetValueDB_setValue (fst node)
                        (currentValue_endpoint (env_endpointIndex env))
                        (VNumber value);;
                      rest)
                   (mret tt) affectedNodes
           else
             when (value =? 255)
               (schedulePoll (PString "currentValue") None duration)
         else mret tt);;
        mret result
    | _ => API_throw (WrongValueType property "number" (typeof value))
    end
  else
    match property with
    | PString name =>
        if Array_includes name switchTypeProperties then
          match value with
          | VBoolean value =>
              if value then
                let direction :=
                  if Z.rem (Array_indexOf name switchTypeProperties) 2 =? 0
                  then down else up in
                startLevel ← tryGetValueDB_getValue env
                  (currentValue_endpoint (env_endpointIndex env));
                startLevelChange env version direction true startLevel
                  duration
              else stopLevelChange env version
          | _ => API_throw (WrongValueType property "number" (typeof value))
          end
        else API_throw (UnsupportedProperty property)
    | PNumber _ => API_throw (UnsupportedProperty property)
    end.

End API.

(** ** Interview stages *)

Module InterviewStage.

Inductive t : Type :=
| None
| ProtocolInfo
| Probe
| WakeUp
| ManufacturerSpecific1
| NodeInfo
| NodePlusInfo
| SecurityReport
| ManufacturerSpecific2
| Versions
| Instances
| Static
| CacheLoad
| Associations
| Neighbors
| Session
| Dynamic
| Configuration
| Complete.

End InterviewStage.

#[global] Instance InterviewStage_eq_dec : EqDecision InterviewStage.t.
Proof. solve_decision. Defined.

(** The numeric value of each member. *)
Definition InterviewStage_value (s : InterviewStage.t) : Z :=
  match s with
  | InterviewStage.None => 0
  | InterviewStage.ProtocolInfo => 1
  | InterviewStage.Probe => 2
  | InterviewStage.WakeUp => 3
  | InterviewStage.ManufacturerSpecific1 => 4
  | InterviewStage.NodeInfo => 5
  | InterviewStage.NodePlusInfo => 6
  | InterviewStage.SecurityReport => 7
  | InterviewStage.ManufacturerSpecific2 => 8
  | InterviewStage.Versions => 9
  | InterviewStage.Instances => 10
  | InterviewStage.Static => 11
  | InterviewStage.CacheLoad => 12
  | InterviewStage.Associations => 13
  | InterviewStage.Neighbors => 14
  | InterviewStage.Session => 15
  | InterviewStage.Dynamic => 16
  | InterviewStage.Configuration => 17
  | InterviewStage.Complete => 18
  end.

(** The name of each member. *)
Definition InterviewStage_name (s : InterviewStage.t) : string :=
  match s with
  | InterviewStage.None => "None"
  | InterviewStage.ProtocolInfo => "ProtocolInfo"
  | InterviewStage.Probe => "Probe"
  | InterviewStage.WakeUp => "WakeUp"
  | InterviewStage.ManufacturerSpecific1 => "ManufacturerSpecific1"
  | InterviewStage.NodeInfo => "NodeInfo"
  | InterviewStage.NodePlusInfo => "NodePlusInfo"
  | InterviewStage.SecurityReport => "SecurityReport"
  | InterviewStage.ManufacturerSpecific2 => "ManufacturerSpecific2"
  | InterviewStage.Versions => "Versions"
  | InterviewStage.Instances => "Instances"
  | InterviewStage.Static => "Static"
  | InterviewStage.CacheLoad => "CacheLoad"
  | InterviewStage.Associations => "Associations"
  | InterviewStage.Neighbors => "Neighbors"
  | InterviewStage.Session => "Session"
  | InterviewStage.Dynamic => "Dynamic"
  | InterviewStage.Configuration => "Configuration"
  | InterviewStage.Complete => "Complete"
  end.

(** The members in declaration order. *)
Definition InterviewStage_members : list InterviewStage.t :=
  [InterviewStage.None; InterviewStage.ProtocolInfo; InterviewStage.Probe;
   InterviewStage.WakeUp; InterviewStage.ManufacturerSpecific1;
   InterviewStage.NodeInfo; InterviewStage.NodePlusInfo;
   InterviewStage.SecurityReport; InterviewStage.ManufacturerSpecific2;
   InterviewStage.Versions; InterviewStage.Instances; InterviewStage.Static;
   InterviewStage.CacheLoad; InterviewStage.Associations;
   InterviewStage.Neighbors; InterviewStage.Session; InterviewStage.Dynamic;
   InterviewStage.Configuration; InterviewStage.Complete].

(** [InterviewStage[name]]: the member of that name, if the enum has one. *)
Definition InterviewStage_member (name : string) : option InterviewStage.t :=
  List.find (fun s => String.eqb (InterviewStage_name s) name)
    InterviewStage_members.

(** A list of numbers that strictly increases from each element to the next. *)
Fixpoint strictly_increasing (l : list Z) : bool :=
  match l with
  | [] => true
  | x :: rest =>
      match rest with
      | [] => true
      | y :: _ => (x <? y) && strictly_increasing rest
      end
  end.

(** ** Notions used to state the codec properties *)

Section CodecStatements.
Context `{CoreSafe}.

(** The length check of a deserialising constructor that demands [n] bytes:
    it throws [MalformedCC] below [n] and returns an instance from [n] on. *)
Definition length_checked (n : Z) (payload : list Z)
    (o : Outcome MultilevelSwitchCC) : Prop :=
  (payload_length payload < n -> o = throw MalformedCC)
  /\ (n <= payload_length payload -> exists cc, o = inr cc).

(** [parse(serialize(m)) = m] at [version]: serialising returns a payload,
    and the constructor for [m]'s command builds [m] again from it. *)
Definition roundtrips (version : Z) (m : MultilevelSwitchCC) : Prop :=
  exists payload,
    serialize version m = inr payload
    /\ deserialize (ccCommand m) version payload = inr m.

(** An unset duration, or one that is written (version 2 and later) as a
    byte that [parse] reads back as the same duration. *)
Definition duration_kept (version : Z) (parse : Z -> option Duration)
    (duration : option Duration) : Prop :=
  match duration with
  | None => True
  | Some d =>
      2 <= version
      /\ exists b, Duration_serializeSet d = inr b
                   /\ parse (Z.land b 255) = Some d
  end.

(** Which instances a serialise/parse round trip gives back. *)
Definition roundtrip_condition (version : Z) (m : MultilevelSwitchCC) : Prop :=
  match m with
  | MultilevelSwitchCCSet targetValue duration =>
      is_byte targetValue
      /\ duration_kept version Duration_parseReport duration
  | MultilevelSwitchCCStartLevelChange duration startLevel _ _ =>
      is_byte startLevel
      /\ duration_kept version Duration_parseSet duration
  | MultilevelSwitchCCReport payload _ _ _ =>
      deserialize Cmd_Report version payload = inr m
  | MultilevelSwitchCCSupportedReport payload _ =>
      deserialize Cmd_SupportedReport version payload = inr m
  | MultilevelSwitchCCGet _
  | MultilevelSwitchCCStopLevelChange _
  | MultilevelSwitchCCSupportedGet _ => True
  end.

(** The payload [m] is serialised to: [head], followed by one duration byte
    when the version is 2 or later and [duration] is set. *)
Definition written_payload (version : Z) (m : MultilevelSwitchCC)
    (head : list Z) (duration : option Duration) : Prop :=
  match duration with
  | Some d =>
      if 2 <=? version
      then forall b, Duration_serializeSet d = inr b ->
             serialize version m = inr (head ++ [Z.land b 255])
      else serialize version m = inr head
  | None => serialize version m = inr head
  end.

End CodecStatements.

(** ** Notions used to state the enumeration properties *)

(** Every name is a member of [InterviewStage], and the values of these
    members strictly increase in the order given. *)
Definition ordered_members (names : list string) : Prop :=
  exists stages,
    mapM InterviewStage_member names = Some stages
    /\ strictly_increasing (InterviewStage_value <$> stages) = true.

(** ** Notions used to state the properties of [switchTypeProperties] *)

Section SwitchTypeStatements.
Context `{SwitchTypeEnum}.

(** The keys that pass the filter of [switchTypeProperties]. *)
Definition switchTypeKeys : list string :=
  filter (fun key => -1 < String_indexOf "/" key) SwitchType_keys.

(** [name] is the down (the up) action derived from some enum key. *)
Definition is_down_action (name : string) : Prop :=
  exists key up, key ∈ switchTypeKeys
                 /\ switchTypeToActions key = [name; up].

Definition is_up_action (name : string) : Prop :=
  exists key down, key ∈ switchTypeKeys
                   /\ switchTypeToActions key = [down; name].

End SwitchTypeStatements.

(** ** Notions used to state the properties of [SET_VALUE] *)

Section SetValueStatements.
Context `{CoreSafe} `{SwitchTypeEnum}.

(** The Set that [setValue("targetValue", n)] hands over: with the
    status-update handler unless [n] is 255. *)
Definition Set_command (id : ValueID) (n : Z) (duration : option Duration)
  : SentCommand :=
  {| sent_cc := MultilevelSwitchCCSet n duration;
     sent_onUpdate :=
       if negb (n =? 255)
       then Some {| handler_valueId := id; handler_value := n |}
       else None |}.

(** "If the command is not supervised-and-successful, or the value is 255,
    a verification poll is scheduled": whenever [setValue("targetValue", n)]
    returns a result that is not a supervision result of status Success, or
    [n] is 255, it has scheduled a poll. *)
Definition polls_unless_supervised_success (env : Env) (version n : Z)
    (duration : option Duration) (h : Host) : Prop :=
  let run := setValue env version (PString "targetValue") (VNumber n)
               duration h in
  forall result,
    run.1 = inr result ->
    status <$> result ≠ Some Success \/ n = 255 ->
    exists poll, polls run.2 = polls h ++ [poll].

End SetValueStatements.

(** ** Concrete inputs

    A duration of five seconds and an unknown duration; singlecast endpoints
    of node 5 whose sends are answered with a supervision result of status
    Success, or of status Working, or fail with a node timeout; a host that
    has an empty value DB for that node, and one whose value DB holds the
    string "unknown" as current value. *)

Section ConcreteInputs.
#[local] Existing Instance ZWaveDuration.core.
#[local] Existing Instance ZWaveSwitchType.

Definition five_seconds : Duration :=
  ZWaveDuration.make 5 ZWaveDuration.Unit_seconds.

Definition unknown_duration : Duration :=
  ZWaveDuration.make 0 ZWaveDuration.Unit_unknown.

Definition supervised_env : Env := {|
  env_nodeId := 5;
  env_endpointIndex := 0;
  env_isSinglecast := true;
  env_isMulticast := false;
  env_physicalNodes := [];
  env_disableOptimisticValueUpdate := false;
  env_sendCommand := fun _ => inr (Some {| status := Success |});
|}.

Definition working_env : Env := {|
  env_nodeId := 5;
  env_endpointIndex := 0;
  env_isSinglecast := true;
  env_isMulticast := false;
  env_physicalNodes := [];
  env_disableOptimisticValueUpdate := false;
  env_sendCommand := fun _ => inr (Some {| status := Working |});
|}.

Definition unreachable_env : Env := {|
  env_nodeId := 5;
  env_endpointIndex := 0;
  env_isSinglecast := true;
  env_isMulticast := false;
  env_physicalNodes := [];
  env_disableOptimisticValueUpdate := false;
  env_sendCommand := fun _ => inl NodeTimeout;
|}.

Definition fresh_host : Host := {|
  valueDBs := {[ 5 := ∅ ]};
  emitted := [];
  sent := [];
  polls := [];
|}.

Definition unknown_level_host : Host := {|
  valueDBs := {[ 5 := {[ currentValue_endpoint 0 := VString "unknown" ]} ]};
  emitted := [];
  sent := [];
  polls := [];
|}.

End ConcreteInputs.

(** * Further parts of the command class *)

(** ** Notions used to state further properties of the API *)

Section APIStatements.
Context `{CoreSafe} `{SwitchTypeEnum}.

(** From [dbs] to [dbs'] no value DB appeared or disappeared, and no entry
    other than [own] changed. *)
Definition db_frame (own : ValueID) (dbs dbs' : gmap Z ValueDB.t) : Prop :=
  forall nodeId : Z,
    (is_Some (dbs' !! nodeId) <-> is_Some (dbs !! nodeId))
    /\ forall id : ValueID,
         id ≠ own ->
         (dbs' !! nodeId ≫= fun db => ValueDB.get db id)
         = (dbs !! nodeId ≫= fun db => ValueDB.get db id).

(** What a call that started in [h] and ended as [run] may have done:
    handed over at most one command, scheduled at most one poll, and that
    one of currentValue, emitted events, written no value DB entry other
    than currentValue of its endpoint and, on a singlecast endpoint, no
    value DB of another node; and if it threw, neither written a value DB
    nor emitted an event nor scheduled a poll. *)
Definition within_frame {A} (env : Env) (h : Host) (run : Outcome A * Host)
  : Prop :=
  (exists cmds, sent run.2 = sent h ++ cmds /\ (length cmds <= 1)%nat)
  /\ (exists ps,
        polls run.2 = polls h ++ ps /\ (length ps <= 1)%nat
        /\ Forall (fun p => poll_property p = PString "currentValue") ps)
  /\ (exists events, emitted run.2 = emitted h ++ events)
  /\ db_frame (currentValue_endpoint (env_endpointIndex env))
       (valueDBs h) (valueDBs run.2)
  /\ (env_isSinglecast env = true ->
      forall nodeId, nodeId ≠ env_nodeId env ->
        valueDBs run.2 !! nodeId = valueDBs h !! nodeId)
  /\ (forall e,
        run.1 = inl e ->
        valueDBs run.2 = valueDBs h /\ emitted run.2 = emitted h
        /\ polls run.2 = polls h).

End APIStatements.

(** ** Further concrete inputs

    A multicast endpoint addressing the nodes 2, 3 and 4, of which 3 does not
    support the command class, whose sends are unsupervised; a host with
    value DBs for the nodes 2 and 3 only; and a singlecast endpoint with
    optimistic updates disabled whose sends are unsupervised. *)

Section ConcreteInputs2.
#[local] Existing Instance ZWaveDuration.core.
#[local] Existing Instance ZWaveSwitchType.

Definition multicast_env : Env := {|
  env_nodeId := 0;
  env_endpointIndex := 0;
  env_isSinglecast := false;
  env_isMulticast := true;
  env_physicalNodes := [(2, true); (3, false); (4, true)];
  env_disableOptimisticValueUpdate := false;
  env_sendCommand := fun _ => inr None;
|}.

Definition two_node_host : Host := {|
  valueDBs := {[ 2 := ∅; 3 := ∅ ]};
  emitted := [];
  sent := [];
  polls := [];
|}.

Definition cautious_env : Env := {|
  env_nodeId := 5;
  env_endpointIndex := 0;
  env_isSinglecast := true;
  env_isMulticast := false;
  env_physicalNodes := [];
  env_disableOptimisticValueUpdate := true;
  env_sendCommand := fun _ => inr None;
|}.

End ConcreteInputs2.

(** ** The dynamic values [levelChangeUp] and [levelChangeDown]

    [getEnumMemberName(SwitchType, switchType)] is imported from
    [@zwave-js/shared], outside the sources covered here: it is a
    parameter, the name of a switch type. *)

Section DynamicValueNames.
Context `{SwitchTypeEnum}.
Variable getEnumMemberName : Z -> string.

(** The property name of [levelChangeUp(switchType)]: [const [, up] =
    switchTypeToActions(switchTypeName)], so the second action, undefined
    when there is none. *)
Definition levelChangeUp_property (switchType : Z) : option string :=
  switchTypeToActions (getEnumMemberName switchType) !! 1%nat.

(** The property name of [levelChangeDown(switchType)]: the first action. *)
Definition levelChangeDown_property (switchType : Z) : option string :=
  switchTypeToActions (getEnumMemberName switchType) !! 0%nat.

(** The value id of a dynamic value at an endpoint, when its property name
    is defined. *)
Definition dynamic_endpoint (name : option string) (index : Z)
  : option ValueID :=
  (fun name => {| commandClass := CommandClasses_Multilevel_Switch;
                  endpoint := index;
                  property := PString name;
                  propertyKey := None |}) <$> name.

(** [MultilevelSwitchCCValues.levelChangeUp(switchType).endpoint(index)] *)
Definition levelChangeUp_endpoint (switchType index : Z) : option ValueID :=
  dynamic_endpoint (levelChangeUp_property switchType) index.

(** [MultilevelSwitchCCValues.levelChangeDown(switchType).endpoint(index)] *)
Definition levelChangeDown_endpoint (switchType index : Z) : option ValueID :=
  dynamic_endpoint (levelChangeDown_property switchType) index.

End DynamicValueNames.

(** Modelled from the spec: [getEnumMemberName] on the Z-Wave switch types
    (section 9: property names are derived at runtime from the reported
    SwitchType); a value that is no member gets a label for unknown values,
    here without the number the real label carries. *)
Definition ZWave_getEnumMemberName (switchType : Z) : string :=
  if switchType =? 0 then "not supported"
  else if switchType =? 1 then "Off/On"
  else if switchType =? 2 then "Down/Up"
  else if switchType =? 3 then "Close/Open"
  else if switchType =? 4 then "CCW/CW"
  else if switchType =? 5 then "Left/Right"
  else if switchType =? 6 then "Reverse/Forward"
  else if switchType =? 7 then "Pull/Push"
  else "unknown".

(** ** The API methods that await a report *)

Section APIReports.
Context `{CoreSafe} `{SwitchTypeEnum}.

(** What [get()] picks from the report: [currentValue], [targetValue] and
    [duration]. *)
Record ReportValues : Type := {
  report_currentValue : MaybeNumber;
  report_targetValue : option Z;
  report_duration : option Duration;
}.

(** [get()], given the report the send resolves to, if any. *)
Definition get_values (env : Env) (version : Z)
    (response : option ReportValues) : API (option ReportValues) :=
  assertSupportsCommand env version Cmd_Get;;
  sendCommand env version (MultilevelSwitchCCGet []) None;;
  mret response.

(** [getSupported()], given the switch type of the report the send resolves
    to, if any. *)
Definition getSupported (env : Env) (version : Z) (response : option Z)
  : API (option Z) :=
  assertSupportsCommand env version Cmd_SupportedGet;;
  sendCommand env version (MultilevelSwitchCCSupportedGet []) None;;
  mret response.

(** A polled value: the field of the report that was asked for. *)
Inductive PolledValue : Type :=
| Polled_currentValue (value : MaybeNumber)
| Polled_targetValue (value : option Z)
| Polled_duration (value : option Duration).

(** [MultilevelSwitchCCAPI[POLL_VALUE]]: [(await this.get())?.[property]],
    undefined without a report. *)
Definition pollValue (env : Env) (version : Z) (property : Property)
    (response : option ReportValues) : API (option PolledValue) :=
  if decide (property = PString "currentValue") then
    r ← get_values env version response;
    mret ((fun r => Polled_currentValue (report_currentValue r)) <$> r)
  else if decide (property = PString "targetValue") then
    r ← get_values env version response;
    mret ((fun r => Polled_targetValue (report_targetValue r)) <$> r)
  else if decide (property = PString "duration") then
    r ← get_values env version response;
    mret ((fun r => Polled_duration (report_duration r)) <$> r)
  else API_throw (UnsupportedProperty property).

End APIReports.

(** ** The interview of the command class

    [ensureMetadata], [setInterviewComplete] and [persistValues] are
    inherited from [CommandClass] ([lib/CommandClass], outside the sources
    covered here).  They are parameters: an inherited method is some action
    on the host, which may change it in any way and may throw. *)

Section CCInterview.
Context `{CoreSafe} `{SwitchTypeEnum}.
Variable getEnumMemberName : Z -> string.
(** [this.ensureMetadata(applHost, ccValue)], given the value id of
    [ccValue] at the endpoint (undefined when its property name is) *)
Variable ensureMetadata : option ValueID -> API unit.
(** [this.setInterviewComplete(applHost, complete)] *)
Variable setInterviewComplete : bool -> API unit.
(** [super.persistValues(applHost)] of a SupportedReport *)
Variable super_persistValues : API bool.

(** [SwitchType["Down/Up"]], documented in the file as 0x02 *)
Definition SwitchType_Down_Up : Z := 2.

Definition createMetadataForLevelChangeActions (env : Env) (switchType : Z)
  : API unit :=
  ensureMetadata
    (levelChangeUp_endpoint getEnumMemberName switchType
       (env_endpointIndex env));;
  ensureMetadata
    (levelChangeDown_endpoint getEnumMemberName switchType
       (env_endpointIndex env)).

(** [refreshValues]: [await api.get()] *)
Definition refreshValues (env : Env) (version : Z)
    (report : option ReportValues) : API unit :=
  get_values env version report;;
  mret tt.

(** [interview]; [supported] and [report] are what the two sends resolve
    to.  Logging is left out. *)
Definition CC_interview (env : Env) (version : Z) (supported : option Z)
    (report : option ReportValues) : API unit :=
  (if 3 <=? version then
     getSupported env version supported;;
     mret tt
   else
     createMetadataForLevelChangeActions env SwitchType_Down_Up);;
  refreshValues env version report;;
  setInterviewComplete true.

(** [MultilevelSwitchCCSupportedReport.persistValues] *)
Definition SupportedReport_persistValues (env : Env) (switchType : Z)
  : API bool :=
  persisted ← super_persistValues;
  if negb persisted then mret false
  else
    createMetadataForLevelChangeActions env switchType;;
    mret true.

End CCInterview.

(** Stand-ins for the inherited methods, to run the interview on concrete
    inputs: they return and leave the host as it is, and [persistValues]
    succeeds. *)
Section InheritedStandIns.
#[local] Existing Instance ZWaveDuration.core.

Definition ensureMetadata_skip (id : option ValueID) : API unit := mret tt.

Definition setInterviewComplete_skip (complete : bool) : API unit := mret tt.

Definition super_persistValues_skip : API bool := mret true.

End InheritedStandIns.
(** * Properties *)

(** ** The payload codec *)

Section CodecFacts.
Context `{CoreSafe}.

Lemma land_255_byte (b : Z) : Z.land b 255 = b <-> is_byte b.
Proof.
  unfold is_byte. change 255 with (Z.ones 8). rewrite Z.land_ones by lia.
  split.
  - intros <-. apply Z.mod_pos_bound. lia.
  - intros Hb. apply Z.mod_small. lia.
Qed.

Lemma validatePayload_true (A : Type) (k : Outcome A) :
  (validatePayload true;; k) = k.
Proof. reflexivity. Qed.

Lemma validatePayload_false (A : Type) (k : Outcome A) :
  (validatePayload false;; k) = throw MalformedCC.
Proof. reflexivity. Qed.

Lemma payload_length_cons (b : Z) (p : list Z) :
  payload_length (b :: p) = 1 + payload_length p.
Proof. unfold payload_length. cbn [length]. lia. Qed.

Lemma payload_length_nonneg (p : list Z) : 0 <= payload_length p.
Proof. unfold payload_length. lia. Qed.

Lemma validated_length_checked (n : Z) (payload : list Z)
    (k : Outcome MultilevelSwitchCC) :
  (exists cc, k = inr cc) ->
  length_checked n payload (validatePayload (n <=? payload_length payload);; k).
Proof.
  intros Hk. split; intros Hlen.
  - replace (n <=? payload_length payload) with false by (symmetry; lia).
    reflexivity.
  - replace (n <=? payload_length payload) with true by (symmetry; lia).
    exact Hk.
Qed.

End CodecFacts.

Ltac run_outcome :=
  unfold mbind, mret, Outcome_bind, Outcome_ret, throw in *; cbn beta iota.

Section CodecTheorems.
Context `{CoreSafe}.

Lemma SupportedReport_from_cons (b : Z) (rest : list Z) :
  MultilevelSwitchCCSupportedReport_from (b :: rest)
  = inr (MultilevelSwitchCCSupportedReport (b :: rest) (b mod 32)).
Proof.
  unfold MultilevelSwitchCCSupportedReport_from.
  rewrite payload_length_cons.
  replace (1 <=? 1 + payload_length rest) with true
    by (pose proof (payload_length_nonneg rest); symmetry; lia).
  rewrite validatePayload_true. cbn [lookup_total list_lookup_total].
  change 31 with (Z.ones 5). rewrite Z.land_ones by lia. reflexivity.
Qed.

(** C10: deserialising a SupportedReport keeps only the low five bits of the
    first payload byte: the switch type is that byte modulo 32, it lies in
    0..31, and adding any multiple of 32 to the byte (changing only its
    upper three bits) gives the same switch type. *)
Theorem SupportedReport_switchType_low_bits (version b : Z) (rest : list Z) :
  deserialize Cmd_SupportedReport version (b :: rest)
  = inr (MultilevelSwitchCCSupportedReport (b :: rest) (b mod 32))
  /\ 0 <= b mod 32 < 32
  /\ forall upper : Z,
       deserialize Cmd_SupportedReport version (b + 32 * upper :: rest)
       = inr (MultilevelSwitchCCSupportedReport (b + 32 * upper :: rest)
                (b mod 32)).
Proof.
  split; [| split].
  - cbn [deserialize]. apply SupportedReport_from_cons.
  - apply Z.mod_pos_bound. lia.
  - intros upper. cbn [deserialize]. rewrite SupportedReport_from_cons.
    do 2 f_equal. rewrite (Z.mul_comm 32 upper). apply Z.mod_add. lia.
Qed.

(** C3: each deserialising constructor checks the payload length first.
    Below the minimum (1 byte for Set, Report and SupportedReport, 2 for
    StartLevelChange) it throws MalformedCC, so no instance exists; from the
    minimum on it returns an instance. *)
Theorem deserialize_checks_length (version : Z) (payload : list Z) :
  length_checked 1 payload (deserialize Cmd_Set version payload)
  /\ length_checked 1 payload (deserialize Cmd_Report version payload)
  /\ length_checked 2 payload
       (deserialize Cmd_StartLevelChange version payload)
  /\ length_checked 1 payload
       (deserialize Cmd_SupportedReport version payload).
Proof.
  split; [| split; [| split]]; cbn [deserialize].
  - apply validated_length_checked. eexists; reflexivity.
  - apply validated_length_checked.
    destruct ((4 <=? version) && (3 <=? payload_length payload));
      eexists; reflexivity.
  - apply validated_length_checked. eexists; reflexivity.
  - apply validated_length_checked. eexists; reflexivity.
Qed.

(** *** The payloads written *)

Lemma durationBytes_cases (version : Z) (duration : option Duration) :
  match duration with
  | Some d =>
      if 2 <=? version
      then match Duration_serializeSet d with
           | inr b => durationBytes version duration = inr [b]
           | inl e => durationBytes version duration = inl e
           end
      else durationBytes version duration = inr []
  | None => durationBytes version duration = inr []
  end.
Proof.
  destruct duration as [d|]; cbn [durationBytes]; [| reflexivity].
  destruct (2 <=? version); [| reflexivity].
  destruct (Duration_serializeSet d); reflexivity.
Qed.

Lemma controlByte_bits (direction : LevelChangeDirection)
    (ignoreStartLevel : bool) :
  Z.testbit (controlByte direction ignoreStartLevel) 6
  = bool_decide (direction = down)
  /\ Z.testbit (controlByte direction ignoreStartLevel) 5 = ignoreStartLevel
  /\ Z.land (controlByte direction ignoreStartLevel) 159 = 0.
Proof. destruct direction, ignoreStartLevel; repeat split. Qed.

Lemma controlByte_read (direction : LevelChangeDirection)
    (ignoreStartLevel : bool) :
  let b := Z.land (controlByte direction ignoreStartLevel) 255 in
  negb (Z.shiftr (Z.land b 32) 5 =? 0) = ignoreStartLevel
  /\ (if Z.shiftr (Z.land b 64) 6 =? 0 then up else down) = direction.
Proof. destruct direction, ignoreStartLevel; split; reflexivity. Qed.

(** *** Round trips *)

Lemma Set_from_one (b : Z) :
  MultilevelSwitchCCSet_from [b] = inr (MultilevelSwitchCCSet b None).
Proof. reflexivity. Qed.

Lemma Set_from_two (b d : Z) :
  MultilevelSwitchCCSet_from [b; d]
  = inr (MultilevelSwitchCCSet b (Duration_parseReport d)).
Proof. reflexivity. Qed.

Lemma StartLevelChange_from_two (c s : Z) :
  MultilevelSwitchCCStartLevelChange_from [c; s]
  = inr (MultilevelSwitchCCStartLevelChange None s
           (negb (Z.shiftr (Z.land c 32) 5 =? 0))
           (if Z.shiftr (Z.land c 64) 6 =? 0 then up else down)).
Proof. reflexivity. Qed.

Lemma StartLevelChange_from_three (c s d : Z) :
  MultilevelSwitchCCStartLevelChange_from [c; s; d]
  = inr (MultilevelSwitchCCStartLevelChange (Duration_parseSet d) s
           (negb (Z.shiftr (Z.land c 32) 5 =? 0))
           (if Z.shiftr (Z.land c 64) 6 =? 0 then up else down)).
Proof. reflexivity. Qed.

Lemma Set_roundtrips (version targetValue : Z) (duration : option Duration) :
  roundtrips version (MultilevelSwitchCCSet targetValue duration)
  <-> is_byte targetValue
      /\ duration_kept version Duration_parseReport duration.
Proof.
  unfold roundtrips. cbn [serialize ccCommand deserialize].
  pose proof (durationBytes_cases version duration) as Hd.
  rewrite <- land_255_byte.
  destruct duration as [d|]; cbn [duration_kept].
  - destruct (Z.leb_spec 2 version) as [Hv|Hv].
    + destruct (Duration_serializeSet d) as [e|b] eqn:Hs; rewrite Hd;
        run_outcome.
      * split; [intros (p & [=] & _) | intros (_ & _ & b & [=] & _)].
      * cbn [Buffer_from fmap list_fmap app]. split.
        -- intros (p & [= <-] & Hp). rewrite Set_from_two in Hp.
           injection Hp as Htv Hdur. eauto 6.
        -- intros (Htv & _ & b' & [= <-] & Hdur).
           eexists; split; [reflexivity|].
           rewrite Set_from_two, Htv, Hdur. reflexivity.
    + rewrite Hd. run_outcome. cbn [Buffer_from fmap list_fmap app]. split.
      * intros (p & [= <-] & Hp). rewrite Set_from_one in Hp. discriminate.
      * intros (_ & Hv' & _). lia.
  - rewrite Hd. run_outcome. cbn [Buffer_from fmap list_fmap app]. split.
    + intros (p & [= <-] & Hp). rewrite Set_from_one in Hp.
      injection Hp as Htv. auto.
    + intros (Htv & _). eexists; split; [reflexivity|].
      rewrite Set_from_one, Htv. reflexivity.
Qed.

Lemma StartLevelChange_roundtrips (version startLevel : Z)
    (duration : option Duration) (ignoreStartLevel : bool)
    (direction : LevelChangeDirection) :
  roundtrips version
    (MultilevelSwitchCCStartLevelChange duration startLevel ignoreStartLevel
       direction)
  <-> is_byte startLevel
      /\ duration_kept version Duration_parseSet duration.
Proof.
  unfold roundtrips. cbn [serialize ccCommand deserialize].
  pose proof (durationBytes_cases version duration) as Hd.
  destruct (controlByte_read direction ignoreStartLevel) as [Hig Hdir].
  cbv zeta in Hig, Hdir.
  rewrite <- land_255_byte.
  destruct duration as [d|]; cbn [duration_kept].
  - destruct (Z.leb_spec 2 version) as [Hv|Hv].
    + destruct (Duration_serializeSet d) as [e|b] eqn:Hs; rewrite Hd;
        run_outcome.
      * split; [intros (p & [=] & _) | intros (_ & _ & b & [=] & _)].
      * cbn [Buffer_from fmap list_fmap app]. split.
        -- intros (p & [= <-] & Hp). rewrite StartLevelChange_from_three in Hp.
           injection Hp as Hdur Hsl _ _. eauto 6.
        -- intros (Hsl & _ & b' & [= <-] & Hdur).
           eexists; split; [reflexivity|].
           rewrite StartLevelChange_from_three, Hsl, Hdur, Hig, Hdir.
           reflexivity.
    + rewrite Hd. run_outcome. cbn [Buffer_from fmap list_fmap app]. split.
      * intros (p & [= <-] & Hp). rewrite StartLevelChange_from_two in Hp.
        discriminate.
      * intros (_ & Hv' & _). lia.
  - rewrite Hd. run_outcome. cbn [Buffer_from fmap list_fmap app]. split.
    + intros (p & [= <-] & Hp). rewrite StartLevelChange_from_two in Hp.
      injection Hp as Hsl _ _. auto.
    + intros (Hsl & _). eexists; split; [reflexivity|].
      rewrite StartLevelChange_from_two, Hsl, Hig, Hdir. reflexivity.
Qed.

Lemma roundtrips_iff_condition (version : Z) (m : MultilevelSwitchCC) :
  roundtrips version m <-> roundtrip_condition version m.
Proof.
  destruct m as [tv d|p|p cv tv d|d sl ig dir|p|p|p st];
    cbn [roundtrip_condition].
  - apply Set_roundtrips.
  - split; [trivial|]. intros _. exists p. split; reflexivity.
  - unfold roundtrips. cbn [serialize ccCommand]. run_outcome. split.
    + intros (p' & [= <-] & Hp). exact Hp.
    + intros Hp. exists p. split; [reflexivity | exact Hp].
  - apply StartLevelChange_roundtrips.
  - split; [trivial|]. intros _. exists p. split; reflexivity.
  - split; [trivial|]. intros _. exists p. split; reflexivity.
  - unfold roundtrips. cbn [serialize ccCommand]. run_outcome. split.
    + intros (p' & [= <-] & Hp). exact Hp.
    + intros Hp. exists p. split; [reflexivity | exact Hp].
Qed.

Lemma Set_payload (version targetValue : Z) (duration : option Duration) :
  written_payload version (MultilevelSwitchCCSet targetValue duration)
    [Z.land targetValue 255] duration.
Proof.
  pose proof (durationBytes_cases version duration) as Hd.
  unfold written_payload. cbn [serialize]. destruct duration as [d|].
  - destruct (2 <=? version).
    + intros b Hb. rewrite Hb in Hd. rewrite Hd. reflexivity.
    + rewrite Hd. reflexivity.
  - rewrite Hd. reflexivity.
Qed.

Lemma controlByte_is_byte (direction : LevelChangeDirection)
    (ignoreStartLevel : bool) :
  Z.land (controlByte direction ignoreStartLevel) 255
  = controlByte direction ignoreStartLevel.
Proof. destruct direction, ignoreStartLevel; reflexivity. Qed.

Lemma StartLevelChange_payload (version startLevel : Z)
    (duration : option Duration) (ignoreStartLevel : bool)
    (direction : LevelChangeDirection) :
  written_payload version
    (MultilevelSwitchCCStartLevelChange duration startLevel ignoreStartLevel
       direction)
    [controlByte direction ignoreStartLevel; Z.land startLevel 255] duration.
Proof.
  pose proof (durationBytes_cases version duration) as Hd.
  pose proof (controlByte_is_byte direction ignoreStartLevel) as Hc.
  unfold written_payload. cbn [serialize]. destruct duration as [d|].
  - destruct (2 <=? version).
    + intros b Hb. rewrite Hb in Hd. rewrite Hd. run_outcome.
      cbn [Buffer_from fmap list_fmap app]. rewrite Hc. reflexivity.
    + rewrite Hd. run_outcome.
      cbn [Buffer_from fmap list_fmap app]. rewrite Hc. reflexivity.
  - rewrite Hd. run_outcome.
    cbn [Buffer_from fmap list_fmap app]. rewrite Hc. reflexivity.
Qed.

(** C1 (amended): at every version, serialising a command instance and
    parsing the payload gives the instance back exactly when its
    [roundtrip_condition] holds: the numeric fields are bytes, and the
    duration is unset, or the version is at least 2 and the byte that
    [serializeSet] writes is read back as the same duration by the parser of
    the class ([parseReport] for Set, [parseSet] for StartLevelChange); a
    report gives back the instance built from its payload.  The payload of a
    Set is [targetValue] and that of a StartLevelChange is
    [controlByte, startLevel], each followed by one duration byte when the
    version is at least 2 and a duration is set; the control byte has the
    direction in bit 6, ignoreStartLevel in bit 5 and no other bit set. *)
Theorem MultilevelSwitchCC_roundtrip (version : Z) (m : MultilevelSwitchCC) :
  (roundtrips version m <-> roundtrip_condition version m)
  /\ (forall targetValue duration,
        written_payload version (MultilevelSwitchCCSet targetValue duration)
          [Z.land targetValue 255] duration)
  /\ (forall duration startLevel ignoreStartLevel direction,
        written_payload version
          (MultilevelSwitchCCStartLevelChange duration startLevel
             ignoreStartLevel direction)
          [controlByte direction ignoreStartLevel; Z.land startLevel 255]
          duration
        /\ Z.testbit (controlByte direction ignoreStartLevel) 6
           = bool_decide (direction = down)
        /\ Z.testbit (controlByte direction ignoreStartLevel) 5
           = ignoreStartLevel
        /\ Z.land (controlByte direction ignoreStartLevel) 159 = 0).
Proof.
  split; [apply roundtrips_iff_condition | split].
  - intros targetValue duration. apply Set_payload.
  - intros duration startLevel ignoreStartLevel direction.
    split; [apply StartLevelChange_payload | apply controlByte_bits].
Qed.

End CodecTheorems.

(** ** The codec on concrete inputs *)

Section CodecExamples.
#[local] Existing Instance ZWaveDuration.core.

(** C1 as stated fails: at version 1 the duration of a Set is not written,
    so it comes back undefined; and a target value outside 0..255 comes back
    reduced modulo 256. *)
Lemma Set_roundtrip_fails :
  let m := MultilevelSwitchCCSet 80 (Some five_seconds) in
  let m' := MultilevelSwitchCCSet 300 None in
  (serialize 1 m = inr [80]
   /\ deserialize (ccCommand m) 1 [80] = inr (MultilevelSwitchCCSet 80 None)
   /\ ~ roundtrips 1 m)
  /\ (serialize 4 m' = inr [44]
      /\ deserialize (ccCommand m') 4 [44]
         = inr (MultilevelSwitchCCSet 44 None)
      /\ ~ roundtrips 4 m').
Proof.
  cbv zeta. split; (split; [reflexivity | split; [reflexivity |]]).
  - intros (p & Hs & Hp). cbv in Hs. injection Hs as <-. discriminate Hp.
  - intros (p & Hs & Hp). cbv in Hs. injection Hs as <-. discriminate Hp.
Qed.

Example Set_roundtrip_v2 :
  serialize 2 (MultilevelSwitchCCSet 80 (Some five_seconds)) = inr [80; 5]
  /\ deserialize Cmd_Set 2 [80; 5]
     = inr (MultilevelSwitchCCSet 80 (Some five_seconds)).
Proof. split; reflexivity. Qed.

Example StartLevelChange_roundtrip_v2 :
  serialize 2
    (MultilevelSwitchCCStartLevelChange (Some five_seconds) 17 true down)
  = inr [96; 17; 5]
  /\ deserialize Cmd_StartLevelChange 2 [96; 17; 5]
     = inr (MultilevelSwitchCCStartLevelChange (Some five_seconds) 17 true
              down).
Proof. split; reflexivity. Qed.

(** On the modelled [Duration], the default duration of a Set is written as
    0xFF, which the Set constructor reads with [parseReport] as no duration;
    StartLevelChange reads it with [parseSet] and keeps it. *)
Example default_duration_Set_vs_StartLevelChange :
  let d := ZWaveDuration.make 0 ZWaveDuration.Unit_default in
  serialize 4 (MultilevelSwitchCCSet 80 (Some d)) = inr [80; 255]
  /\ deserialize Cmd_Set 4 [80; 255] = inr (MultilevelSwitchCCSet 80 None)
  /\ roundtrips 4 (MultilevelSwitchCCStartLevelChange (Some d) 0 true up).
Proof.
  cbv zeta. split; [reflexivity | split; [reflexivity |]].
  exists [32; 0; 255]. split; reflexivity.
Qed.

Example deserialize_too_short :
  deserialize Cmd_Set 4 [] = throw MalformedCC
  /\ deserialize Cmd_Report 4 [] = throw MalformedCC
  /\ deserialize Cmd_StartLevelChange 4 [96] = throw MalformedCC
  /\ deserialize Cmd_SupportedReport 4 [] = throw MalformedCC.
Proof. repeat split. Qed.

Example deserialize_SupportedReport_0xE2 :
  deserialize Cmd_SupportedReport 3 [226]
  = inr (MultilevelSwitchCCSupportedReport [226] 2).
Proof. reflexivity. Qed.

End CodecExamples.

(** ** The interview stages *)

Lemma InterviewStage_members_complete (s : InterviewStage.t) :
  s ∈ InterviewStage_members.
Proof. destruct s; unfold InterviewStage_members; set_solver. Qed.

Lemma InterviewStage_value_inj (s t : InterviewStage.t) :
  InterviewStage_value s = InterviewStage_value t -> s = t.
Proof. destruct s, t; cbn; intros Hv; first [reflexivity | discriminate Hv]. Qed.

Lemma InterviewStage_value_range (s : InterviewStage.t) :
  0 <= InterviewStage_value s <= 18.
Proof. destruct s; cbn; lia. Qed.

Lemma InterviewStage_member_name (s : InterviewStage.t) :
  InterviewStage_member (InterviewStage_name s) = Some s.
Proof. destruct s; reflexivity. Qed.

(** C2 as stated fails: the enum has no member named CommandClasses (nor
    Endpoints, nor Cache), so the nine names of the claim are not all
    stages. *)
Lemma InterviewStage_has_no_CommandClasses :
  InterviewStage_member "CommandClasses" = None
  /\ ~ ordered_members
         ["None"; "ProtocolInfo"; "NodeInfo"; "CommandClasses"; "Endpoints";
          "Static"; "Cache"; "Dynamic"; "Complete"]%string.
Proof.
  split; [reflexivity|].
  intros (stages & Hstages & _). vm_compute in Hstages. discriminate Hstages.
Qed.

(** C2 (amended): InterviewStage has nineteen members, valued 0 to 18 in
    declaration order, and distinct members have distinct values, so the
    enum is totally ordered by value.  Of the nine names of the claim,
    None, ProtocolInfo, NodeInfo, Static, Dynamic and Complete are members
    and their values strictly increase in this order; CommandClasses,
    Endpoints and Cache are not members. *)
Theorem InterviewStage_order :
  InterviewStage_value <$> InterviewStage_members = seqZ 0 19
  /\ (forall s, s ∈ InterviewStage_members)
  /\ (forall s t, InterviewStage_value s = InterviewStage_value t -> s = t)
  /\ ordered_members
       ["None"; "ProtocolInfo"; "NodeInfo"; "Static"; "Dynamic";
        "Complete"]%string
  /\ InterviewStage_member "CommandClasses" = None
  /\ InterviewStage_member "Endpoints" = None
  /\ InterviewStage_member "Cache" = None.
Proof.
  split; [reflexivity|].
  split; [exact InterviewStage_members_complete|].
  split; [exact InterviewStage_value_inj|].
  split; [| repeat split].
  exists [InterviewStage.None; InterviewStage.ProtocolInfo;
          InterviewStage.NodeInfo; InterviewStage.Static;
          InterviewStage.Dynamic; InterviewStage.Complete].
  split; reflexivity.
Qed.

(** ** The value DB *)

Section ValueDBTheorems.
Implicit Types (db : ValueDB.t) (id : ValueID) (value : JSValue).

Lemma ValueDB_set_unchanged db id value :
  db !! id = Some value -> ValueDB.set db id value = (db, []).
Proof. intros Hv. unfold ValueDB.set. rewrite decide_True; done. Qed.

Lemma ValueDB_set_changed db id value :
  db !! id ≠ Some value ->
  ValueDB.set db id value
  = (<[id := value]> db, [ValueDB.ValueUpdated id (db !! id) value]).
Proof. intros Hv. unfold ValueDB.set. rewrite decide_False; done. Qed.

Lemma ValueDB_set_stored db id value :
  (ValueDB.set db id value).1 !! id = Some value.
Proof.
  unfold ValueDB.set. destruct (decide (db !! id = Some value)) as [Hv|Hv].
  - exact Hv.
  - cbn. apply lookup_insert_eq.
Qed.

Lemma ValueDB_set_result db id value :
  (ValueDB.set db id value).1 = <[id := value]> db.
Proof.
  unfold ValueDB.set. destruct (decide (db !! id = Some value)) as [Hv|Hv].
  - cbn. symmetry. apply insert_id, Hv.
  - reflexivity.
Qed.

End ValueDBTheorems.

(** ** [SET_VALUE] *)

Ltac run_api :=
  unfold mbind, mret, API_bind, API_ret, API_throw, when in *; cbn beta iota.

Section SetValueTheorems.
Context `{CoreSafe} `{SwitchTypeEnum}.
Implicit Types (env : Env) (h : Host) (duration : option Duration).

Lemma applHost_tryGetValueDB_setValue_returns (nodeId : Z) id value h :
  (applHost_tryGetValueDB_setValue nodeId id value h).1 = inr tt.
Proof.
  unfold applHost_tryGetValueDB_setValue.
  destruct (valueDBs h !! nodeId) as [db|]; [| reflexivity].
  destruct (ValueDB.set db id value). reflexivity.
Qed.

(** The host after [setValue("targetValue", n)] on a singlecast endpoint:
    the Set is handed over; if the send fails, that is all; otherwise the
    value DB is updated or not, then the poll is scheduled or not. *)
Lemma setValue_targetValue_singlecast env version (n : Z) duration h :
  env_isSinglecast env = true ->
  let id := currentValue_endpoint (env_endpointIndex env) in
  let cmd := Set_command id n duration in
  let h1 := host_sent h cmd in
  setValue env version (PString "targetValue") (VNumber n) duration h
  = match send_outcome env version cmd with
    | inl e => (inl e, h1)
    | inr result =>
        let shouldUpdateOptimistically :=
          (negb (env_disableOptimisticValueUpdate env)
             && bool_decide (result = None))
          || (isSupervisionResult result
                && bool_decide (status <$> result = Some Success)) in
        let h2 :=
          if shouldUpdateOptimistically && (0 <=? n) && (n <=? 99)
          then (applHost_tryGetValueDB_setValue (env_nodeId env) id
                  (VNumber n) h1).2
          else h1 in
        let h3 :=
          if negb (supervisedCommandSucceeded result) || (n =? 255)
          then (schedulePoll (PString "currentValue")
                  (if n =? 255 then None else Some n) duration h2).2
          else h2 in
        (inr result, h3)
    end.
Proof.
  intros Hsingle. cbv zeta. unfold setValue.
  rewrite decide_False by discriminate.
  rewrite decide_True by reflexivity.
  rewrite Hsingle.
  unfold set, assertSupportsCommand, supportsCommand, tryGetValueDB_setValue.
  rewrite Hsingle. run_api. unfold sendCommand at 1.
  fold (Set_command (currentValue_endpoint (env_endpointIndex env)) n
          duration).
  set (cmd := Set_command _ n duration).
  destruct (send_outcome env version cmd) as [e|result]; [reflexivity|].
  set (h1 := host_sent h cmd).
  set (should := (_ || _)).
  destruct (should && (0 <=? n) && (n <=? 99)).
  - pose proof (applHost_tryGetValueDB_setValue_returns (env_nodeId env)
                  (currentValue_endpoint (env_endpointIndex env))
                  (VNumber n) h1) as Hr.
    destruct (applHost_tryGetValueDB_setValue _ _ _ h1) as [r h2].
    cbn in Hr. subst r. cbn [snd].
    destruct (negb (supervisedCommandSucceeded result) || (n =? 255));
      reflexivity.
  - destruct (negb (supervisedCommandSucceeded result) || (n =? 255));
      reflexivity.
Qed.

Lemma applHost_tryGetValueDB_setValue_found (nodeId : Z) id value h db :
  valueDBs h !! nodeId = Some db ->
  applHost_tryGetValueDB_setValue nodeId id value h
  = (inr tt,
     {| valueDBs := <[nodeId := <[id := value]> db]> (valueDBs h);
        emitted := emitted h
                   ++ ((fun e => (nodeId, e)) <$> (ValueDB.set db id value).2);
        sent := sent h;
        polls := polls h |}).
Proof.
  intros Hdb. unfold applHost_tryGetValueDB_setValue. rewrite Hdb.
  pose proof (ValueDB_set_result db id value) as Hres.
  destruct (ValueDB.set db id value) as [db' events]. cbn in Hres. subst db'.
  reflexivity.
Qed.

Lemma applHost_tryGetValueDB_setValue_missing (nodeId : Z) id value h :
  valueDBs h !! nodeId = None ->
  applHost_tryGetValueDB_setValue nodeId id value h = (inr tt, h).
Proof.
  intros Hdb. unfold applHost_tryGetValueDB_setValue. by rewrite Hdb.
Qed.

Lemma ValueDB_set_events_length (db : ValueDB.t) id value :
  (length (ValueDB.set db id value).2 <= 1)%nat.
Proof.
  unfold ValueDB.set. destruct (decide (db !! id = Some value)); cbn; lia.
Qed.

(** One [applHost.tryGetValueDB(nodeId)?.setValue(id, value)]: it returns,
    leaves the commands handed over and the polls alone, only adds events,
    and stores [value] under [id] in the DB of [nodeId] when there is
    one. *)
Lemma applHost_tryGetValueDB_setValue_spec (nodeId : Z) id value h :
  let run := applHost_tryGetValueDB_setValue nodeId id value h in
  run.1 = inr tt
  /\ sent run.2 = sent h
  /\ polls run.2 = polls h
  /\ (exists events, emitted run.2 = emitted h ++ events)
  /\ forall k : Z,
       valueDBs run.2 !! k
       = if decide (k = nodeId) then <[id := value]> <$> valueDBs h !! k
         else valueDBs h !! k.
Proof.
  cbv zeta. destruct (valueDBs h !! nodeId) as [db|] eqn:Hdb.
  - rewrite (applHost_tryGetValueDB_setValue_found nodeId id value h db Hdb).
    cbn [fst snd sent polls emitted valueDBs].
    do 3 (split; [reflexivity|]). split; [eauto|].
    intros k. destruct (decide (k = nodeId)) as [->|Hk].
    + by rewrite lookup_insert_eq, Hdb.
    + by rewrite lookup_insert_ne.
  - rewrite (applHost_tryGetValueDB_setValue_missing nodeId id value h Hdb).
    cbn [fst snd]. do 3 (split; [reflexivity|]).
    split; [exists []; by rewrite app_nil_r|].
    intros k. destruct (decide (k = nodeId)) as [->|Hk]; [by rewrite Hdb|done].
Qed.

(** The facts about a supervision status that the branches of [SET_VALUE]
    turn on. *)
Lemma shouldUpdateOptimistically_Success (disabled : bool)
    (result : option SupervisionResult) :
  status <$> result = Some Success ->
  (negb disabled && bool_decide (result = None))
  || (isSupervisionResult result
        && bool_decide (status <$> result = Some Success)) = true.
Proof.
  intros Hstatus. destruct result as [r|]; [| discriminate Hstatus].
  unfold isSupervisionResult.
  rewrite (bool_decide_eq_true_2 (is_Some (Some r))) by eauto.
  rewrite (bool_decide_eq_true_2 _ Hstatus). apply orb_true_r.
Qed.

Lemma shouldUpdateOptimistically_other (disabled : bool)
    (r : SupervisionResult) :
  status r ≠ Success ->
  (negb disabled && bool_decide (Some r = None))
  || (isSupervisionResult (Some r)
        && bool_decide (status <$> Some r = Some Success)) = false.
Proof.
  intros Hstatus.
  rewrite (bool_decide_eq_false_2 (Some r = None)) by discriminate.
  cbn [fmap option_fmap option_map].
  rewrite (bool_decide_eq_false_2 (Some (status r) = Some Success))
    by congruence.
  by rewrite !andb_false_r.
Qed.

Lemma supervisedCommandSucceeded_status (result : option SupervisionResult) :
  supervisedCommandSucceeded result
  = bool_decide (status <$> result = Some Success
                 \/ status <$> result = Some Working).
Proof.
  destruct result as [[[]]|]; reflexivity.
Qed.

Lemma level_out_of_range (n : Z) :
  ~ 0 <= n <= 99 -> ((0 <=? n) && (n <=? 99)) = false.
Proof.
  intros Hn. destruct (Z.leb_spec 0 n), (Z.leb_spec n 99);
    try reflexivity. lia.
Qed.

(** C4 (amended): on a singlecast endpoint [setValue("targetValue", n)]
    hands over one Set and ends the way the send did.  When it returns a
    supervision result of status Success and [n] is a level (0..99, so also
    80), the value DB entry for currentValue becomes [n] through one
    [setValue] call of the DB, which emits at most one change event, and no
    poll is scheduled.  When the status is Working, the call neither writes
    the value DB nor, unless [n] is 255, schedules a poll.  When the command
    was unsupervised or the status is Fail or NoSupport, or [n] is 255, one
    verification poll of currentValue is scheduled (expecting [n], or
    nothing for 255).  When the send failed, nothing was written or
    scheduled. *)
Theorem setValue_supervised_success_or_poll env version (n : Z) duration h :
  env_isSinglecast env = true ->
  let id := {| commandClass := 38; endpoint := env_endpointIndex env;
               property := PString "currentValue"; propertyKey := None |} in
  let cmd :=
    {| sent_cc := MultilevelSwitchCCSet n duration;
       sent_onUpdate :=
         if negb (n =? 255)
         then Some {| handler_valueId := id; handler_value := n |}
         else None |} in
  let poll :=
    {| poll_property := PString "currentValue";
       poll_expectedValue := if n =? 255 then None else Some n;
       poll_duration := duration |} in
  let run := setValue env version (PString "targetValue") (VNumber n)
               duration h in
  sent run.2 = sent h ++ [cmd]
  /\ run.1 = send_outcome env version cmd
  /\ (forall result,
        run.1 = inr result ->
        (forall db,
           status <$> result = Some Success ->
           0 <= n <= 99 ->
           valueDBs h !! env_nodeId env = Some db ->
           valueDBs run.2
           = <[env_nodeId env := <[id := VNumber n]> db]> (valueDBs h)
           /\ emitted run.2
              = emitted h ++ ((fun e => (env_nodeId env, e))
                                <$> (ValueDB.set db id (VNumber n)).2)
           /\ (length (emitted run.2) <= length (emitted h) + 1)%nat
           /\ polls run.2 = polls h)
        /\ (status <$> result = Some Working ->
            valueDBs run.2 = valueDBs h
            /\ emitted run.2 = emitted h
            /\ polls run.2 = polls h ++ (if n =? 255 then [poll] else []))
        /\ (result = None \/ status <$> result = Some Fail
            \/ status <$> result = Some NoSupport \/ n = 255 ->
            polls run.2 = polls h ++ [poll])
        /\ (status <$> result = Some Success -> n <> 255 ->
            polls run.2 = polls h))
  /\ (forall e,
        run.1 = inl e ->
        valueDBs run.2 = valueDBs h /\ emitted run.2 = emitted h
        /\ polls run.2 = polls h).
Proof.
  intros Hsingle. cbv zeta.
  rewrite (setValue_targetValue_singlecast env version n duration h Hsingle).
  cbv zeta. unfold Set_command, currentValue_endpoint,
    CommandClasses_Multilevel_Switch.
  set (id := {| commandClass := 38; endpoint := _; property := _;
                propertyKey := _ |}).
  set (cmd := {| sent_cc := _; sent_onUpdate := _ |}).
  destruct (send_outcome env version cmd) as [e|result] eqn:Hsend;
    cbn [fst snd].
  { split; [reflexivity|]. split; [reflexivity|].
    split; [intros result [=] | intros e' _; repeat split]. }
  set (h1 := host_sent h cmd).
  set (should := (negb (env_disableOptimisticValueUpdate env) && _ || _)).
  set (h2 := if should && (0 <=? n) && (n <=? 99) then _ else h1).
  assert (sent h2 = sent h ++ [cmd] /\ polls h2 = polls h) as [Hsent2 Hpolls2].
  { subst h2. destruct (should && (0 <=? n) && (n <=? 99)); [| done].
    destruct (applHost_tryGetValueDB_setValue_spec (env_nodeId env) id
                (VNumber n) h1) as (_ & Hs & Hp & _).
    split; [exact Hs | exact Hp]. }
  rewrite supervisedCommandSucceeded_status.
  split; [| split; [reflexivity | split; [| intros e [=]]]].
  { destruct (negb _ || (n =? 255)); exact Hsent2. }
  intros result' [= <-].
  split; [| split; [| split]].
  - intros db Hstatus Hn Hdb.
    assert ((n =? 255) = false) as Hn255 by lia.
    rewrite bool_decide_eq_true_2 by (by left).
    rewrite Hn255. cbn [negb orb].
    subst h2 should. rewrite (shouldUpdateOptimistically_Success _ _ Hstatus).
    replace (0 <=? n) with true by (symmetry; lia).
    replace (n <=? 99) with true by (symmetry; lia).
    cbn [andb].
    rewrite (applHost_tryGetValueDB_setValue_found (env_nodeId env) id
               (VNumber n) h1 db Hdb).
    cbn [snd valueDBs emitted polls]. subst h1.
    cbn [host_sent valueDBs emitted polls].
    repeat split.
    rewrite length_app, length_fmap.
    pose proof (ValueDB_set_events_length db id (VNumber n)). lia.
  - intros Hstatus.
    destruct result as [r|]; [| discriminate Hstatus].
    injection Hstatus as Hstatus.
    rewrite bool_decide_eq_true_2 by (right; cbn; by rewrite Hstatus).
    cbn [negb orb].
    subst h2 should.
    rewrite shouldUpdateOptimistically_other by (rewrite Hstatus; discriminate).
    cbn [andb].
    destruct (n =? 255); cbn [schedulePoll snd valueDBs emitted polls];
      subst h1; cbn [host_sent valueDBs emitted polls];
      repeat split; by rewrite app_nil_r.
  - intros Hcase.
    assert ((negb (bool_decide (status <$> result = Some Success
                                \/ status <$> result = Some Working))
             || (n =? 255)) = true) as ->.
    { destruct Hcase as [-> | [Hs | [Hs | ->]]];
        [ | rewrite Hs | rewrite Hs | apply orb_true_r ];
        rewrite bool_decide_eq_false_2; try reflexivity;
        intros [[=] | [=]]. }
    unfold schedulePoll. cbn [snd polls]. by rewrite Hpolls2.
  - intros Hstatus Hn.
    assert ((n =? 255) = false) as -> by lia.
    rewrite bool_decide_eq_true_2 by (by left).
    cbn [negb orb]. exact Hpolls2.
Qed.

(** The handler of [SET_VALUE] on a status update of status Success. *)
Lemma onUpdate_Success env version (handler : StatusUpdateHandler)
    (update : SupervisionResult) h :
  status update = Success ->
  onUpdate env version handler update h
  = if env_isSinglecast env
    then applHost_tryGetValueDB_setValue (env_nodeId env)
           (handler_valueId handler) (VNumber (handler_value handler)) h
    else (inr tt, h).
Proof.
  intros Hstatus. unfold onUpdate, tryGetValueDB_setValue.
  rewrite decide_True by exact Hstatus.
  destruct (env_isSinglecast env); reflexivity.
Qed.

Lemma setValue_restorePrevious env version value duration :
  setValue env version (PString "restorePrevious") value duration
  = setValue env version (PString "targetValue") (VNumber 255) duration.
Proof.
  unfold setValue.
  rewrite (decide_True (P := PString "restorePrevious"
                             = PString "restorePrevious")) by reflexivity.
  rewrite (decide_False (P := PString "targetValue"
                              = PString "restorePrevious")) by discriminate.
  reflexivity.
Qed.

(** C9: [setValue("restorePrevious", true)] is [setValue("targetValue", 255)]
    (whatever value is passed, on every endpoint).  On a singlecast endpoint
    setting 255 hands over the Set without a status-update handler, leaves
    the value DB and its events untouched, and, once the send has resolved,
    schedules one poll of currentValue without an expected value (none when
    the send failed); and no target value outside 0..99 updates the value DB
    during the call. *)
Theorem setValue_255_polls_without_update env version duration h :
  let poll :=
    {| poll_property := PString "currentValue";
       poll_expectedValue := None;
       poll_duration := duration |} in
  let run := setValue env version (PString "targetValue") (VNumber 255)
               duration h in
  (forall value,
     setValue env version (PString "restorePrevious") value duration h = run)
  /\ setValue env version (PString "restorePrevious") (VBoolean true)
       duration h = run
  /\ (env_isSinglecast env = true ->
      sent run.2
      = sent h ++ [{| sent_cc := MultilevelSwitchCCSet 255 duration;
                      sent_onUpdate := None |}]
      /\ valueDBs run.2 = valueDBs h
      /\ emitted run.2 = emitted h
      /\ (forall result, run.1 = inr result -> polls run.2 = polls h ++ [poll])
      /\ (forall e, run.1 = inl e -> polls run.2 = polls h)
      /\ (forall n : Z,
            ~ 0 <= n <= 99 ->
            let run_n := setValue env version (PString "targetValue")
                           (VNumber n) duration h in
            valueDBs run_n.2 = valueDBs h /\ emitted run_n.2 = emitted h)).
Proof.
  cbv zeta.
  split; [intros value; by rewrite setValue_restorePrevious|].
  split; [by rewrite setValue_restorePrevious|].
  intros Hsingle.
  rewrite (setValue_targetValue_singlecast env version 255 duration h Hsingle).
  cbv zeta. unfold Set_command. change (255 =? 255) with true. cbn [negb].
  set (cmd := {| sent_cc := _; sent_onUpdate := _ |}).
  split; [| split; [| split; [| split; [| split]]]].
  - destruct (send_outcome env version cmd) as [e|result]; [reflexivity|].
    rewrite orb_true_r, <- andb_assoc, (level_out_of_range 255) by lia.
    rewrite andb_false_r. reflexivity.
  - destruct (send_outcome env version cmd) as [e|result]; [reflexivity|].
    rewrite orb_true_r, <- andb_assoc, (level_out_of_range 255) by lia.
    rewrite andb_false_r. reflexivity.
  - destruct (send_outcome env version cmd) as [e|result]; [reflexivity|].
    rewrite orb_true_r, <- andb_assoc, (level_out_of_range 255) by lia.
    rewrite andb_false_r. reflexivity.
  - destruct (send_outcome env version cmd) as [e|result];
      [intros result [=]|].
    intros result' _.
    rewrite orb_true_r, <- andb_assoc, (level_out_of_range 255) by lia.
    rewrite andb_false_r. reflexivity.
  - destruct (send_outcome env version cmd) as [e|result];
      [intros e' _; reflexivity | intros e [=]].
  - intros n Hn.
    rewrite (setValue_targetValue_singlecast env version n duration h Hsingle).
    cbv zeta.
    destruct (send_outcome env version _) as [e|result];
      [split; reflexivity|].
    rewrite <- andb_assoc, (level_out_of_range n Hn), andb_false_r.
    cbn [snd]. destruct (negb _ || (n =? 255)); split; reflexivity.
Qed.

End SetValueTheorems.

(** ** [switchTypeProperties] *)

Section StringFacts.

Lemma String_indexOf_ge (c : ascii) (s : string) : -1 <= String_indexOf c s.
Proof.
  induction s as [|a rest IH]; cbn [String_indexOf]; [lia|].
  destruct (Ascii.eqb a c); [lia|].
  destruct (Z.eqb_spec (String_indexOf c rest) (-1)); lia.
Qed.

Lemma String_split_nonempty (c : ascii) (s : string) :
  (1 <= length (String_split c s))%nat.
Proof.
  induction s as [|a rest IH]; cbn [String_split]; [cbn; lia|].
  destruct (Ascii.eqb a c); [cbn; lia|].
  destruct (String_split c rest); cbn; lia.
Qed.

(** A string that contains the separator splits into at least two pieces. *)
Lemma String_split_two (c : ascii) (s : string) :
  String_indexOf c s ≠ -1 -> (2 <= length (String_split c s))%nat.
Proof.
  induction s as [|a rest IH]; cbn [String_indexOf String_split]; [done|].
  destruct (Ascii.eqb a c).
  - intros _. pose proof (String_split_nonempty c rest). cbn. lia.
  - destruct (Z.eqb_spec (String_indexOf c rest) (-1)) as [|Hrest]; [done|].
    intros _. specialize (IH Hrest).
    destruct (String_split c rest); cbn in *; lia.
Qed.

Lemma Array_indexOf_ge (x : string) (l : list string) : -1 <= Array_indexOf x l.
Proof.
  induction l as [|y rest IH]; cbn [Array_indexOf]; [lia|].
  destruct (String.eqb y x); [lia|].
  destruct (Z.eqb_spec (Array_indexOf x rest) (-1)); lia.
Qed.

(** [indexOf] returns a position that holds the element. *)
Lemma Array_indexOf_found (x : string) (l : list string) :
  Array_indexOf x l ≠ -1 ->
  exists j : nat, l !! j = Some x /\ Array_indexOf x l = Z.of_nat j.
Proof.
  induction l as [|y rest IH]; cbn [Array_indexOf]; [done|].
  destruct (String.eqb_spec y x) as [->|Hyx].
  - intros _. exists 0%nat. done.
  - destruct (Z.eqb_spec (Array_indexOf x rest) (-1)) as [|Hrest]; [done|].
    intros _. destruct (IH Hrest) as (j & Hj & Hidx).
    exists (S j). split; [exact Hj | lia].
Qed.

(** In an array without repetitions, [indexOf] returns the position of the
    element. *)
Lemma Array_indexOf_lookup (l : list string) (j : nat) (x : string) :
  NoDup l -> l !! j = Some x -> Array_indexOf x l = Z.of_nat j.
Proof.
  intros Hnodup. revert j.
  induction Hnodup as [|y rest Hy Hrest IH]; intros j Hj; [done|].
  cbn [Array_indexOf]. destruct j as [|j]; cbn in Hj.
  - injection Hj as ->. by rewrite String.eqb_refl.
  - destruct (String.eqb_spec y x) as [->|Hyx].
    + exfalso. apply Hy. eapply list_elem_of_lookup_2, Hj.
    + rewrite (IH j Hj).
      destruct (Z.eqb_spec (Z.of_nat j) (-1)); lia.
Qed.

Lemma Array_indexOf_lookup_found (l : list string) (j : nat) (x : string) :
  l !! j = Some x -> Array_indexOf x l ≠ -1.
Proof.
  revert j. induction l as [|y rest IH]; intros j Hj; [done|].
  cbn [Array_indexOf]. destruct (String.eqb_spec y x) as [->|Hyx]; [done|].
  destruct j as [|j]; cbn in Hj; [congruence|].
  specialize (IH j Hj). pose proof (Array_indexOf_ge x rest).
  destruct (Z.eqb_spec (Array_indexOf x rest) (-1)); lia.
Qed.

Lemma Array_includes_lookup (l : list string) (j : nat) (x : string) :
  l !! j = Some x -> Array_includes x l = true.
Proof.
  intros Hj. unfold Array_includes.
  apply negb_true_iff, Z.eqb_neq. eapply Array_indexOf_lookup_found, Hj.
Qed.

(** [j % 2] for a position [j]. *)
Lemma rem_2_of_nat (j : nat) :
  Z.rem (Z.of_nat j) 2 = if Nat.even j then 0 else 1.
Proof.
  rewrite Z.rem_mod_nonneg by lia. destruct (Nat.even j) eqn:Hj.
  - apply Nat.even_spec in Hj as [k ->].
    rewrite Nat2Z.inj_mul, Z.mul_comm. apply Z_mod_mult.
  - rewrite <- Nat.negb_odd in Hj. apply negb_false_iff in Hj.
    apply Nat.odd_spec in Hj as [k ->].
    rewrite Nat2Z.inj_add, Nat2Z.inj_mul, Z.add_comm, Z.mul_comm.
    rewrite Z_mod_plus_full. reflexivity.
Qed.

Lemma foldl_app_concat (ls : list (list string)) (acc : list string) :
  foldl (fun acc cur => acc ++ cur) acc ls = acc ++ concat ls.
Proof.
  revert acc. induction ls as [|l ls IH]; intros acc; cbn.
  - by rewrite app_nil_r.
  - rewrite IH. by rewrite app_assoc.
Qed.

(** Flattening pairs: pair [i] lands on the positions [2i] and [2i+1]. *)
Lemma concat_pairs_lookup (ls : list (list string)) (i : nat) :
  Forall (fun l => length l = 2%nat) ls ->
  concat ls !! (2 * i)%nat = ls !! i ≫= (fun l => l !! 0%nat)
  /\ concat ls !! (2 * i + 1)%nat = ls !! i ≫= (fun l => l !! 1%nat).
Proof.
  intros Hls. revert i. induction Hls as [|l ls Hl Hls IH]; intros i.
  - done.
  - destruct l as [|d [|u [|]]]; try discriminate Hl.
    destruct i as [|i]; [done|].
    replace (2 * S i)%nat with (S (S (2 * i))) by lia.
    cbn [concat app lookup list_lookup Nat.add]. apply IH.
Qed.

Lemma concat_pairs_length (ls : list (list string)) :
  Forall (fun l => length l = 2%nat) ls ->
  length (concat ls) = (2 * length ls)%nat.
Proof.
  induction 1 as [|l ls Hl Hls IH]; [done|].
  cbn [concat]. rewrite length_app, Hl, IH. cbn [length]. lia.
Qed.

End StringFacts.

Section SwitchTypeFacts.
Context `{SwitchTypeEnum}.

Lemma switchTypeToActions_pair (key : string) :
  -1 < String_indexOf "/" key ->
  exists down up, switchTypeToActions key = [down; up].
Proof.
  intros Hkey. unfold switchTypeToActions, String_includes.
  replace (String_indexOf "/" key =? -1) with false by (symmetry; lia).
  cbn [negb]. unfold String_split_limit.
  pose proof (String_split_two "/" key) as Hlen.
  destruct (String_split "/" key) as [|down [|up rest]];
    [cbn in Hlen; lia.. |].
  exists down, up. reflexivity.
Qed.

Lemma switchTypeKeys_slash (key : string) :
  key ∈ switchTypeKeys -> -1 < String_indexOf "/" key.
Proof. unfold switchTypeKeys. rewrite list_elem_of_filter. tauto. Qed.

Lemma actions_are_pairs :
  Forall (fun l => length l = 2%nat) (switchTypeToActions <$> switchTypeKeys).
Proof.
  apply Forall_fmap, Forall_forall. intros key Hkey. cbn.
  destruct (switchTypeToActions_pair key (switchTypeKeys_slash key Hkey))
    as (down & up & ->).
  reflexivity.
Qed.

Lemma switchTypeProperties_concat :
  switchTypeProperties = concat (switchTypeToActions <$> switchTypeKeys).
Proof. unfold switchTypeProperties. apply (foldl_app_concat _ []). Qed.

(** The actions of the [i]-th key are the entries [2i] and [2i+1]. *)
Lemma switchTypeProperties_positions (i : nat) (key : string) :
  switchTypeKeys !! i = Some key ->
  exists down up,
    switchTypeToActions key = [down; up]
    /\ switchTypeProperties !! (2 * i)%nat = Some down
    /\ switchTypeProperties !! (2 * i + 1)%nat = Some up.
Proof.
  intros Hi.
  destruct (switchTypeToActions_pair key) as (down & up & Hpair).
  { apply switchTypeKeys_slash. eapply list_elem_of_lookup_2, Hi. }
  exists down, up. split; [exact Hpair|].
  rewrite switchTypeProperties_concat.
  destruct (concat_pairs_lookup _ i actions_are_pairs) as [-> ->].
  rewrite list_lookup_fmap, Hi. cbn. rewrite Hpair. done.
Qed.

(** Every entry of the table is the action of a key, the down action at an
    even position and the up action at an odd one. *)
Lemma switchTypeProperties_entry (j : nat) (name : string) :
  switchTypeProperties !! j = Some name ->
  if Nat.even j then is_down_action name else is_up_action name.
Proof.
  intros Hj.
  assert (j < 2 * length switchTypeKeys)%nat as Hlt.
  { apply lookup_lt_Some in Hj.
    rewrite switchTypeProperties_concat in Hj.
    rewrite (concat_pairs_length _ actions_are_pairs), length_fmap in Hj.
    exact Hj. }
  destruct (Nat.even j) eqn:Hparity.
  - apply Nat.even_spec in Hparity as [i ->].
    destruct (lookup_lt_is_Some_2 switchTypeKeys i) as [key Hkey]; [lia|].
    destruct (switchTypeProperties_positions i key Hkey)
      as (down & up & Hpair & Hdown & _).
    rewrite Hdown in Hj. injection Hj as <-.
    exists key, up. split; [eapply list_elem_of_lookup_2, Hkey | exact Hpair].
  - rewrite <- Nat.negb_odd in Hparity. apply negb_false_iff in Hparity.
    apply Nat.odd_spec in Hparity as [i ->].
    destruct (lookup_lt_is_Some_2 switchTypeKeys i) as [key Hkey]; [lia|].
    destruct (switchTypeProperties_positions i key Hkey)
      as (down & up & Hpair & _ & Hup).
    rewrite Hup in Hj. injection Hj as <-.
    exists key, down. split; [eapply list_elem_of_lookup_2, Hkey | exact Hpair].
Qed.

(** Without repetitions in the table, the first position of a name has the
    parity of every position of the name. *)
Lemma indexOf_parity (name : string) :
  NoDup switchTypeProperties ->
  (Z.rem (Array_indexOf name switchTypeProperties) 2 =? 1) = true
  <-> exists j : nat, switchTypeProperties !! j = Some name
                      /\ Nat.odd j = true.
Proof.
  intros Hnodup. split.
  - intros Hrem.
    destruct (Z.eq_dec (Array_indexOf name switchTypeProperties) (-1))
      as [Hidx|Hidx]; [rewrite Hidx in Hrem; discriminate Hrem|].
    destruct (Array_indexOf_found _ _ Hidx) as (j & Hj & Hidx').
    exists j. split; [exact Hj|].
    rewrite Hidx', rem_2_of_nat in Hrem. rewrite <- Nat.negb_even.
    destruct (Nat.even j); [discriminate Hrem | reflexivity].
  - intros (j & Hj & Hodd).
    rewrite (Array_indexOf_lookup _ j name Hnodup Hj), rem_2_of_nat.
    rewrite <- Nat.negb_even in Hodd. destruct (Nat.even j); done.
Qed.

Lemma indexOf_parity_even (name : string) :
  NoDup switchTypeProperties ->
  (Z.rem (Array_indexOf name switchTypeProperties) 2 =? 0) = true
  <-> exists j : nat, switchTypeProperties !! j = Some name
                      /\ Nat.even j = true.
Proof.
  intros Hnodup. split.
  - intros Hrem.
    destruct (Z.eq_dec (Array_indexOf name switchTypeProperties) (-1))
      as [Hidx|Hidx]; [rewrite Hidx in Hrem; discriminate Hrem|].
    destruct (Array_indexOf_found _ _ Hidx) as (j & Hj & Hidx').
    exists j. split; [exact Hj|].
    rewrite Hidx', rem_2_of_nat in Hrem.
    destruct (Nat.even j); [reflexivity | discriminate Hrem].
  - intros (j & Hj & Heven).
    rewrite (Array_indexOf_lookup _ j name Hnodup Hj), rem_2_of_nat.
    rewrite Heven. reflexivity.
Qed.

End SwitchTypeFacts.

Section LevelChangeTheorems.
Context `{CoreSafe} `{SwitchTypeEnum}.
Implicit Types (env : Env) (h : Host) (duration : option Duration).

Lemma levelChangeUp_is_odd (id : ValueID) :
  NoDup switchTypeProperties ->
  levelChangeUp_is id = true
  <-> exists (name : string) (j : nat),
        property id = PString name
        /\ switchTypeProperties !! j = Some name /\ Nat.odd j = true.
Proof.
  intros Hnodup. unfold levelChangeUp_is. destruct (property id) as [name|n].
  - rewrite (indexOf_parity name Hnodup). split.
    + intros (j & Hj & Hodd). eauto.
    + intros (name' & j & [= <-] & Hj & Hodd). eauto.
  - split; [discriminate | intros (name & j & [=] & _)].
Qed.

Lemma levelChangeDown_is_even (id : ValueID) :
  NoDup switchTypeProperties ->
  levelChangeDown_is id = true
  <-> exists (name : string) (j : nat),
        property id = PString name
        /\ switchTypeProperties !! j = Some name /\ Nat.even j = true.
Proof.
  intros Hnodup. unfold levelChangeDown_is. destruct (property id) as [name|n].
  - rewrite (indexOf_parity_even name Hnodup). split.
    + intros (j & Hj & Heven). eauto.
    + intros (name' & j & [= <-] & Hj & Heven). eauto.
  - split; [discriminate | intros (name & j & [=] & _)].
Qed.

(** [startLevelChange] with [ignoreStartLevel: true]: a start level that is
    a number is sent, a missing one is sent as 0, and anything else fails
    the argument check before a command is created. *)
Lemma startLevelChange_ignoring env version (direction : LevelChangeDirection)
    (startLevel : option JSValue) duration h :
  startLevelChange env version direction true startLevel duration h
  = match startLevel with
    | Some (VNumber n) =>
        sendCommand env version
          (MultilevelSwitchCCStartLevelChange duration n true direction)
          None h
    | None | Some VUndefined =>
        sendCommand env version
          (MultilevelSwitchCCStartLevelChange duration 0 true direction)
          None h
    | Some (VBoolean _) | Some (VString _) => (inl Argument_Invalid, h)
    end.
Proof. destruct startLevel as [[]|]; reflexivity. Qed.

(** [setValue(name, true)] for the table entry at position [j]. *)
Lemma setValue_levelChange env version (name : string) (j : nat) duration h :
  NoDup switchTypeProperties ->
  "targetValue"%string ∉ switchTypeProperties ->
  "restorePrevious"%string ∉ switchTypeProperties ->
  switchTypeProperties !! j = Some name ->
  setValue env version (PString name) (VBoolean true) duration h
  = startLevelChange env version (if Nat.even j then down else up) true
      (stored_value env h (currentValue_endpoint (env_endpointIndex env)))
      duration h.
Proof.
  intros Hnodup Htarget Hrestore Hj.
  assert (name ∈ switchTypeProperties) as Hin
    by (eapply list_elem_of_lookup_2, Hj).
  unfold setValue.
  rewrite decide_False by (intros [= ->]; contradiction).
  rewrite decide_False by (intros [= ->]; contradiction).
  rewrite (Array_includes_lookup _ j name Hj).
  rewrite (Array_indexOf_lookup _ j name Hnodup Hj), rem_2_of_nat.
  run_api. unfold tryGetValueDB_getValue at 1. cbn beta iota.
  destruct (Nat.even j); reflexivity.
Qed.

Lemma setValue_levelChange_stop env version (name : string) (j : nat)
    duration h :
  "targetValue"%string ∉ switchTypeProperties ->
  "restorePrevious"%string ∉ switchTypeProperties ->
  switchTypeProperties !! j = Some name ->
  setValue env version (PString name) (VBoolean false) duration h
  = stopLevelChange env version h.
Proof.
  intros Htarget Hrestore Hj.
  assert (name ∈ switchTypeProperties) as Hin
    by (eapply list_elem_of_lookup_2, Hj).
  unfold setValue.
  rewrite decide_False by (intros [= ->]; contradiction).
  rewrite decide_False by (intros [= ->]; contradiction).
  rewrite (Array_includes_lookup _ j name Hj). reflexivity.
Qed.

(** C8: every enum key with a '/' yields a pair of actions, the down action
    at an even position of [switchTypeProperties] and the up action at the
    following odd position, and every entry of the table arises this way.
    Provided the table has no repeated name (and does not contain the static
    property names targetValue and restorePrevious), [levelChangeUp] accepts
    exactly the names at odd positions, [levelChangeDown] exactly those at
    even positions, and [setValue(name, true)] hands over a StartLevelChange
    whose direction is down for a name at an even position and up for one at
    an odd position, with the stored current value as start level (0 without
    one); only when the value DB holds a boolean or a string as current
    value does the argument check of [startLevelChange] reject the call, and
    then no command is handed over.  [setValue(name, false)] hands
    over a StopLevelChange. *)
Theorem switchTypeProperties_parity env version duration h :
  NoDup switchTypeProperties ->
  "targetValue"%string ∉ switchTypeProperties ->
  "restorePrevious"%string ∉ switchTypeProperties ->
  (forall (i : nat) (key : string),
     switchTypeKeys !! i = Some key ->
     exists down up,
       switchTypeToActions key = [down; up]
       /\ switchTypeProperties !! (2 * i)%nat = Some down
       /\ switchTypeProperties !! (2 * i + 1)%nat = Some up)
  /\ (forall (j : nat) (name : string),
        switchTypeProperties !! j = Some name ->
        if Nat.even j then is_down_action name else is_up_action name)
  /\ (forall id : ValueID,
        levelChangeUp_is id = true
        <-> exists (name : string) (j : nat),
              property id = PString name
              /\ switchTypeProperties !! j = Some name /\ Nat.odd j = true)
  /\ (forall id : ValueID,
        levelChangeDown_is id = true
        <-> exists (name : string) (j : nat),
              property id = PString name
              /\ switchTypeProperties !! j = Some name /\ Nat.even j = true)
  /\ (forall (j : nat) (name : string),
        switchTypeProperties !! j = Some name ->
        let start startLevel :=
          {| sent_cc :=
               MultilevelSwitchCCStartLevelChange duration startLevel true
                 (if Nat.even j then down else up);
             sent_onUpdate := None |} in
        let stop :=
          {| sent_cc := MultilevelSwitchCCStopLevelChange [];
             sent_onUpdate := None |} in
        let run := setValue env version (PString name) (VBoolean true)
                     duration h in
        match stored_value env h
                {| commandClass := 38; endpoint := env_endpointIndex env;
                   property := PString "currentValue";
                   propertyKey := None |} with
        | Some (VNumber n) => sent run.2 = sent h ++ [start n]
        | None | Some VUndefined => sent run.2 = sent h ++ [start 0]
        | Some (VBoolean _) | Some (VString _) =>
            run = (inl Argument_Invalid, h)
        end
        /\ sent (setValue env version (PString name) (VBoolean false)
                   duration h).2
            = sent h ++ [stop]).
Proof.
  intros Hnodup Htarget Hrestore.
  split; [exact switchTypeProperties_positions|].
  split; [exact switchTypeProperties_entry|].
  split; [intros id; apply levelChangeUp_is_odd, Hnodup|].
  split; [intros id; apply levelChangeDown_is_even, Hnodup|].
  intros j name Hj. cbv zeta.
  change {| commandClass := 38; endpoint := env_endpointIndex env;
            property := PString "currentValue"; propertyKey := None |}
    with (currentValue_endpoint (env_endpointIndex env)).
  split.
  - rewrite (setValue_levelChange env version name j duration h
               Hnodup Htarget Hrestore Hj).
    rewrite startLevelChange_ignoring.
    destruct (stored_value env h _) as [[]|]; reflexivity.
  - rewrite (setValue_levelChange_stop env version name j duration h
               Htarget Hrestore Hj).
    reflexivity.
Qed.

End LevelChangeTheorems.

(** ** The API on concrete inputs *)

Section APIExamples.
#[local] Existing Instance ZWaveDuration.core.
#[local] Existing Instance ZWaveSwitchType.

Example switchTypeProperties_table :
  switchTypeProperties
  = ["Off"; "On"; "Down"; "Up"; "Close"; "Open"; "CCW"; "CW"; "Left";
     "Right"; "Reverse"; "Forward"; "Pull"; "Push"]%string.
Proof. reflexivity. Qed.

Lemma switchTypeProperties_NoDup : NoDup switchTypeProperties.
Proof.
  apply (bool_decide_unpack (NoDup switchTypeProperties)).
  vm_compute. exact I.
Defined.

Lemma switchTypeProperties_no_targetValue :
  "targetValue"%string ∉ switchTypeProperties.
Proof.
  apply (bool_decide_unpack ("targetValue"%string ∉ switchTypeProperties)).
  vm_compute. exact I.
Defined.

Lemma switchTypeProperties_no_restorePrevious :
  "restorePrevious"%string ∉ switchTypeProperties.
Proof.
  apply (bool_decide_unpack ("restorePrevious"%string ∉ switchTypeProperties)).
  vm_compute. exact I.
Defined.

Lemma stored_value_fresh_host :
  stored_value supervised_env fresh_host
    {| commandClass := 38; endpoint := env_endpointIndex supervised_env;
       property := PString "currentValue"; propertyKey := None |} = None.
Proof.
  unfold stored_value. cbn [env_isSinglecast supervised_env env_nodeId
                              valueDBs fresh_host].
  rewrite lookup_singleton_eq. cbn. apply lookup_empty.
Defined.

Lemma stored_value_unknown_level_host :
  stored_value supervised_env unknown_level_host
    {| commandClass := 38; endpoint := env_endpointIndex supervised_env;
       property := PString "currentValue"; propertyKey := None |}
  = Some (VString "unknown").
Proof.
  unfold stored_value. cbn [env_isSinglecast supervised_env env_nodeId
                              valueDBs unknown_level_host env_endpointIndex].
  rewrite lookup_singleton_eq. cbn [mbind option_bind].
  unfold ValueDB.get. apply lookup_singleton_eq.
Defined.

(** Witness of C8: on the Z-Wave switch types, "Open" (position 5) is
    accepted by levelChangeUp and rejected by levelChangeDown, and setting
    "Close" (position 4) to true starts a level change downwards; when the
    value DB holds the string "unknown" as current value, the call is
    rejected instead. *)
Lemma switchTypeProperties_parity_witness :
  let open := {| commandClass := CommandClasses_Multilevel_Switch;
                 endpoint := 0; property := PString "Open";
                 propertyKey := None |} in
  (NoDup switchTypeProperties
   /\ ("targetValue"%string ∉ switchTypeProperties)
   /\ ("restorePrevious"%string ∉ switchTypeProperties))
  /\ levelChangeUp_is open = true
  /\ levelChangeDown_is open = false
  /\ sent (setValue supervised_env 4 (PString "Close") (VBoolean true) None
             fresh_host).2
      = [{| sent_cc := MultilevelSwitchCCStartLevelChange None 0 true down;
            sent_onUpdate := None |}]
  /\ setValue supervised_env 4 (PString "Close") (VBoolean true) None
       unknown_level_host
     = (inl Argument_Invalid, unknown_level_host).
Proof.
  cbv zeta.
  pose proof (switchTypeProperties_parity supervised_env 4 None fresh_host
                switchTypeProperties_NoDup
                switchTypeProperties_no_targetValue
                switchTypeProperties_no_restorePrevious)
    as (_ & _ & Hup & Hdown & Hset).
  pose proof (switchTypeProperties_parity supervised_env 4 None
                unknown_level_host
                switchTypeProperties_NoDup
                switchTypeProperties_no_targetValue
                switchTypeProperties_no_restorePrevious)
    as (_ & _ & _ & _ & Hunknown).
  split; [| split; [| split; [| split]]].
  - split; [exact switchTypeProperties_NoDup|].
    split; [exact switchTypeProperties_no_targetValue
           | exact switchTypeProperties_no_restorePrevious].
  - apply Hup. exists "Open"%string, 5%nat. repeat split.
  - apply not_true_is_false. intros Hd. apply Hdown in Hd.
    destruct Hd as (name & j & [= <-] & Hj & Heven).
    do 14 (destruct j as [|j]; [try discriminate Hj; discriminate Heven|]).
    discriminate Hj.
  - destruct (Hset 4%nat "Close"%string eq_refl) as [Hstart _].
    rewrite stored_value_fresh_host in Hstart. exact Hstart.
  - destruct (Hunknown 4%nat "Close"%string eq_refl) as [Hstart _].
    rewrite stored_value_unknown_level_host in Hstart. exact Hstart.
Defined.

(** C4 as stated fails: a supervised Set of 80 that is answered with status
    Working is not supervised-and-successful, yet no verification poll is
    scheduled (and the value DB is not written): the final status is left to
    the status-update handler. *)
Lemma setValue_Working_schedules_no_poll :
  let run := setValue working_env 4 (PString "targetValue") (VNumber 80) None
               fresh_host in
  run.1 = inr (Some {| status := Working |})
  /\ valueDBs run.2 = valueDBs fresh_host
  /\ polls run.2 = []
  /\ ~ polls_unless_supervised_success working_env 4 80 None fresh_host.
Proof.
  cbv zeta.
  assert (setValue working_env 4 (PString "targetValue") (VNumber 80) None
            fresh_host
          = (inr (Some {| status := Working |}),
             host_sent fresh_host
               (Set_command (currentValue_endpoint 0) 80 None))) as Hrun
    by reflexivity.
  unfold polls_unless_supervised_success. rewrite Hrun. cbn [fst snd].
  split; [reflexivity|]. split; [reflexivity|]. split; [reflexivity|].
  intros Hclaim.
  destruct (Hclaim (Some {| status := Working |}) eq_refl)
    as [poll Hpoll]; [left; discriminate|].
  discriminate Hpoll.
Qed.

(** Witness of C4: a supervised, successful Set of 80 on a singlecast
    endpoint stores 80 as currentValue, emits one change event and schedules
    no poll. *)
Lemma setValue_supervised_success_witness :
  let id := currentValue_endpoint 0 in
  let run := setValue supervised_env 4 (PString "targetValue") (VNumber 80)
               None fresh_host in
  env_isSinglecast supervised_env = true
  /\ run.1 = inr (Some {| status := Success |})
  /\ (valueDBs run.2 !! 5 ≫= fun db => ValueDB.get db id)
      = Some (VNumber 80)
  /\ emitted run.2 = [(5, ValueDB.ValueUpdated id None (VNumber 80))]
  /\ polls run.2 = [].
Proof.
  cbv zeta.
  destruct (setValue_supervised_success_or_poll supervised_env 4 80 None
              fresh_host eq_refl)
    as (_ & Hout & Hreturned & _).
  cbv zeta in Hout, Hreturned.
  destruct (Hreturned (Some {| status := Success |}) Hout) as [Hsuccess _].
  destruct (Hsuccess ∅ eq_refl ltac:(lia) (lookup_singleton_eq _ _))
    as (Hdb & Hevents & _ & Hpolls).
  split; [reflexivity|].
  split; [exact Hout|].
  split; [| split; [| exact Hpolls]].
  - rewrite Hdb. change (env_nodeId supervised_env) with 5.
    rewrite lookup_insert_eq. cbn. apply lookup_insert_eq.
  - rewrite Hevents. rewrite ValueDB_set_changed by (by rewrite lookup_empty).
    rewrite lookup_empty. reflexivity.
Defined.

(** Witness of C9: restoring the previous value on a singlecast endpoint
    leaves the value DB alone and schedules a poll of currentValue without
    an expected value, even though the Set was supervised and succeeded. *)
Lemma setValue_255_witness :
  let run := setValue supervised_env 4 (PString "restorePrevious")
               (VBoolean true) None fresh_host in
  env_isSinglecast supervised_env = true
  /\ valueDBs run.2 = valueDBs fresh_host
  /\ emitted run.2 = []
  /\ polls run.2 = [{| poll_property := PString "currentValue";
                       poll_expectedValue := None;
                       poll_duration := None |}].
Proof.
  cbv zeta.
  destruct (setValue_255_polls_without_update supervised_env 4 None
              fresh_host)
    as (_ & Hrestore & Hsingle).
  cbv zeta in Hrestore, Hsingle.
  destruct (Hsingle eq_refl) as (_ & Hdb & Hevents & Hpolls & _).
  rewrite Hrestore.
  split; [reflexivity|].
  split; [exact Hdb|].
  split; [exact Hevents|].
  exact (Hpolls (Some {| status := Success |}) eq_refl).
Defined.

End APIExamples.

(** * Further properties *)

(** ** The codec beyond the round trip *)

Section CodecTheorems2.
Context `{CoreSafe}.

Lemma length_check_passes (n : Z) (payload : list Z)
    (k : Outcome MultilevelSwitchCC) :
  n <= payload_length payload ->
  (validatePayload (n <=? payload_length payload);; k) = k.
Proof.
  intros Hn. replace (n <=? payload_length payload) with true
    by (symmetry; lia).
  reflexivity.
Qed.

Lemma payload_length_2 (a b : Z) (rest : list Z) :
  payload_length (a :: b :: rest) = 2 + payload_length rest.
Proof. rewrite !payload_length_cons. lia. Qed.

Lemma payload_length_3 (a b c : Z) (rest : list Z) :
  payload_length (a :: b :: c :: rest) = 3 + payload_length rest.
Proof. rewrite !payload_length_cons. lia. Qed.

Lemma Set_from_cons2 (a b : Z) (rest : list Z) :
  MultilevelSwitchCCSet_from (a :: b :: rest)
  = inr (MultilevelSwitchCCSet a (Duration_parseReport b)).
Proof.
  pose proof (payload_length_nonneg rest) as Hrest.
  unfold MultilevelSwitchCCSet_from.
  rewrite length_check_passes by (rewrite payload_length_2; lia).
  replace (2 <=? payload_length (a :: b :: rest)) with true
    by (rewrite payload_length_2; symmetry; lia).
  reflexivity.
Qed.

Lemma StartLevelChange_from_cons3 (a b c : Z) (rest : list Z) :
  MultilevelSwitchCCStartLevelChange_from (a :: b :: c :: rest)
  = inr (MultilevelSwitchCCStartLevelChange (Duration_parseSet c) b
           (negb (Z.shiftr (Z.land a 32) 5 =? 0))
           (if Z.shiftr (Z.land a 64) 6 =? 0 then up else down)).
Proof.
  pose proof (payload_length_nonneg rest) as Hrest.
  unfold MultilevelSwitchCCStartLevelChange_from.
  rewrite length_check_passes by (rewrite payload_length_3; lia).
  replace (3 <=? payload_length (a :: b :: c :: rest)) with true
    by (rewrite payload_length_3; symmetry; lia).
  reflexivity.
Qed.

Lemma StartLevelChange_from_cons2 (a b : Z) (rest : list Z) :
  exists duration,
    MultilevelSwitchCCStartLevelChange_from (a :: b :: rest)
    = inr (MultilevelSwitchCCStartLevelChange duration b
             (negb (Z.shiftr (Z.land a 32) 5 =? 0))
             (if Z.shiftr (Z.land a 64) 6 =? 0 then up else down))
    /\ duration = match rest with
                  | [] => None
                  | c :: _ => Duration_parseSet c
                  end.
Proof.
  destruct rest as [|c rest].
  - eexists. split; [apply StartLevelChange_from_two | reflexivity].
  - eexists. split; [apply StartLevelChange_from_cons3 | reflexivity].
Qed.

Lemma control_bits_masked (a : Z) :
  Z.land (Z.land a 96) 32 = Z.land a 32
  /\ Z.land (Z.land a 96) 64 = Z.land a 64.
Proof. rewrite <- !Z.land_assoc. split; reflexivity. Qed.

(** X2: what the deserialising constructors read.  A Set reads its first two
    bytes and a StartLevelChange its first three; whatever follows is
    ignored.  Of the control byte of a StartLevelChange only bits 5 and 6
    are read.  A Report below version 4, or with fewer than three bytes,
    carries no target value and no duration, whatever its second byte is. *)
Theorem deserialize_reads_prefix (version a b c : Z) (rest : list Z) :
  deserialize Cmd_Set version (a :: b :: rest)
  = deserialize Cmd_Set version [a; b]
  /\ deserialize Cmd_StartLevelChange version (a :: b :: c :: rest)
     = deserialize Cmd_StartLevelChange version [a; b; c]
  /\ deserialize Cmd_StartLevelChange version (Z.land a 96 :: b :: rest)
     = deserialize Cmd_StartLevelChange version (a :: b :: rest)
  /\ (version < 4 \/ payload_length rest < 2 ->
      deserialize Cmd_Report version (a :: rest)
      = inr (MultilevelSwitchCCReport (a :: rest) (parseMaybeNumber a)
               None None)).
Proof.
  split; [| split; [| split]]; cbn [deserialize].
  - rewrite Set_from_cons2. symmetry. apply Set_from_two.
  - rewrite StartLevelChange_from_cons3. symmetry.
    apply StartLevelChange_from_three.
  - destruct (StartLevelChange_from_cons2 (Z.land a 96) b rest)
      as (d1 & -> & ->).
    destruct (StartLevelChange_from_cons2 a b rest) as (d2 & -> & ->).
    destruct (control_bits_masked a) as [-> ->]. reflexivity.
  - intros Hcase. pose proof (payload_length_nonneg rest) as Hrest.
    unfold MultilevelSwitchCCReport_from.
    rewrite length_check_passes by (rewrite payload_length_cons; lia).
    replace ((4 <=? version) && (3 <=? payload_length (a :: rest)))
      with false; [reflexivity|].
    rewrite payload_length_cons. symmetry. apply andb_false_iff.
    destruct Hcase; [left | right]; lia.
Qed.

Lemma land_255_is_byte (x : Z) : is_byte (Z.land x 255).
Proof.
  unfold is_byte. change 255 with (Z.ones 8). rewrite Z.land_ones by lia.
  apply Z.mod_pos_bound. lia.
Qed.

Lemma durationBytes_tail (version : Z) (duration : option Duration)
    (tail : list Z) :
  durationBytes version duration = inr tail ->
  tail = [] \/ (2 <= version /\ exists b, tail = [b]).
Proof.
  pose proof (durationBytes_cases version duration) as Hd.
  destruct duration as [d|].
  - destruct (Z.leb_spec 2 version) as [Hv|Hv].
    + destruct (Duration_serializeSet d) as [e|b]; rewrite Hd; intros [= <-].
      right. eauto.
    + rewrite Hd. intros [= <-]. by left.
  - rewrite Hd. intros [= <-]. by left.
Qed.

Lemma serialize_Set_inv (version targetValue : Z) (duration : option Duration)
    (payload : list Z) :
  serialize version (MultilevelSwitchCCSet targetValue duration) = inr payload ->
  exists tail, durationBytes version duration = inr tail
               /\ payload = Buffer_from (targetValue :: tail).
Proof.
  cbn [serialize]. destruct (durationBytes version duration) as [e|tail];
    run_outcome; intros [= <-]. eauto.
Qed.

Lemma serialize_StartLevelChange_inv (version startLevel : Z)
    (duration : option Duration) (ignoreStartLevel : bool)
    (direction : LevelChangeDirection) (payload : list Z) :
  serialize version
    (MultilevelSwitchCCStartLevelChange duration startLevel ignoreStartLevel
       direction) = inr payload ->
  exists tail,
    durationBytes version duration = inr tail
    /\ payload = controlByte direction ignoreStartLevel
                 :: Buffer_from (startLevel :: tail).
Proof.
  cbn [serialize]. destruct (durationBytes version duration) as [e|tail];
    run_outcome; intros [= <-].
  exists tail. split; [reflexivity|].
  cbn [Buffer_from fmap list_fmap app]. by rewrite controlByte_is_byte.
Qed.

(** X3: whatever instance is serialised, the payload written is well formed:
    every element is a byte, a Set has one or two bytes and a
    StartLevelChange two or three, and below version 2 never a duration
    byte.  The constructor of the same command accepts the payload and gives
    back the target value or start level modulo 256 and, for a
    StartLevelChange, the direction and ignoreStartLevel flags unchanged. *)
Theorem serialize_is_parseable (version : Z) :
  (forall targetValue duration payload,
     serialize version (MultilevelSwitchCCSet targetValue duration)
     = inr payload ->
     Forall is_byte payload
     /\ 1 <= payload_length payload <= 2
     /\ (version < 2 -> payload = [Z.land targetValue 255])
     /\ exists duration',
          deserialize Cmd_Set version payload
          = inr (MultilevelSwitchCCSet (Z.land targetValue 255) duration'))
  /\ (forall duration startLevel ignoreStartLevel direction payload,
        serialize version
          (MultilevelSwitchCCStartLevelChange duration startLevel
             ignoreStartLevel direction) = inr payload ->
        Forall is_byte payload
        /\ 2 <= payload_length payload <= 3
        /\ (version < 2 ->
            payload = [controlByte direction ignoreStartLevel;
                       Z.land startLevel 255])
        /\ exists duration',
             deserialize Cmd_StartLevelChange version payload
             = inr (MultilevelSwitchCCStartLevelChange duration'
                      (Z.land startLevel 255) ignoreStartLevel direction)).
Proof.
  split.
  - intros targetValue duration payload Hs.
    destruct (serialize_Set_inv _ _ _ _ Hs) as (tail & Htail & ->).
    destruct (durationBytes_tail _ _ _ Htail) as [-> | (Hv & b & ->)];
      cbn [Buffer_from fmap list_fmap].
    + split; [repeat (apply Forall_cons_2; [apply land_255_is_byte|]);
             apply Forall_nil_2|].
      split; [unfold payload_length; cbn [length]; lia|]. split; [reflexivity|].
      eexists. apply Set_from_one.
    + split; [repeat (apply Forall_cons_2; [apply land_255_is_byte|]);
             apply Forall_nil_2|].
      split; [unfold payload_length; cbn [length]; lia|]. split; [intros Hv'; lia|].
      eexists. apply Set_from_two.
  - intros duration startLevel ignoreStartLevel direction payload Hs.
    destruct (serialize_StartLevelChange_inv _ _ _ _ _ _ Hs)
      as (tail & Htail & ->).
    destruct (controlByte_read direction ignoreStartLevel) as [Hig Hdir].
    cbv zeta in Hig, Hdir. rewrite controlByte_is_byte in Hig, Hdir.
    assert (is_byte (controlByte direction ignoreStartLevel)) as Hc
      by (rewrite <- controlByte_is_byte; apply land_255_is_byte).
    destruct (durationBytes_tail _ _ _ Htail) as [-> | (Hv & b & ->)];
      cbn [Buffer_from fmap list_fmap].
    + split; [repeat (apply Forall_cons_2;
               [first [exact Hc | apply land_255_is_byte]|]);
             apply Forall_nil_2|].
      split; [unfold payload_length; cbn [length]; lia|]. split; [reflexivity|].
      eexists. cbn [deserialize].
      rewrite StartLevelChange_from_two, Hig, Hdir. reflexivity.
    + split; [repeat (apply Forall_cons_2;
               [first [exact Hc | apply land_255_is_byte]|]);
             apply Forall_nil_2|].
      split; [unfold payload_length; cbn [length]; lia|]. split; [intros Hv'; lia|].
      eexists. cbn [deserialize].
      rewrite StartLevelChange_from_three, Hig, Hdir. reflexivity.
Qed.

Lemma land_bit (a k : Z) :
  0 <= k -> Z.land a (2 ^ k) = if Z.testbit a k then 2 ^ k else 0.
Proof.
  intros Hk. apply Z.bits_inj'. intros n Hn. rewrite Z.land_spec.
  destruct (Z.testbit a k) eqn:Hbit.
  - rewrite Z.pow2_bits_eqb by exact Hk.
    destruct (Z.eqb_spec k n) as [<-|Hkn].
    + by rewrite Hbit.
    + apply andb_false_r.
  - rewrite Z.bits_0, Z.pow2_bits_eqb by exact Hk.
    destruct (Z.eqb_spec k n) as [<-|Hkn].
    + by rewrite Hbit.
    + apply andb_false_r.
Qed.

(** The control byte rebuilt from the two flags a constructor read is the
    received control byte with every other bit cleared. *)
Lemma controlByte_of_read (a : Z) :
  controlByte (if Z.shiftr (Z.land a 64) 6 =? 0 then up else down)
    (negb (Z.shiftr (Z.land a 32) 5 =? 0))
  = Z.land a 96.
Proof.
  change 96 with (Z.lor 64 32). rewrite Z.land_lor_distr_r.
  change 64 with (2 ^ 6). change 32 with (2 ^ 5).
  rewrite !land_bit by lia.
  destruct (Z.testbit a 6), (Z.testbit a 5); reflexivity.
Qed.

(** X4: re-encoding a received command.  A received one-byte Set is written
    back unchanged; a received two-byte StartLevelChange is written back
    with every bit of the control byte cleared except bits 5 and 6; Get,
    StopLevelChange and SupportedGet, which read nothing of the payload, are
    written back with the payload that was received, whatever it is. *)
Theorem reserialize_received (version a b : Z) :
  is_byte a -> is_byte b ->
  (deserialize Cmd_Set version [a] ≫= serialize version) = inr [a]
  /\ (deserialize Cmd_StartLevelChange version [a; b] ≫= serialize version)
     = inr [Z.land a 96; b]
  /\ (forall payload,
        (deserialize Cmd_Get version payload ≫= serialize version)
        = inr payload
        /\ (deserialize Cmd_StopLevelChange version payload
              ≫= serialize version) = inr payload
        /\ (deserialize Cmd_SupportedGet version payload
              ≫= serialize version) = inr payload).
Proof.
  intros Ha Hb. apply land_255_byte in Ha, Hb.
  split; [| split].
  - cbn [deserialize]. rewrite Set_from_one. run_outcome.
    cbn [serialize durationBytes]. run_outcome.
    cbn [Buffer_from fmap list_fmap app]. by rewrite Ha.
  - cbn [deserialize]. rewrite StartLevelChange_from_two. run_outcome.
    cbn [serialize durationBytes]. run_outcome.
    cbn [Buffer_from fmap list_fmap app].
    rewrite controlByte_is_byte, controlByte_of_read, Hb. reflexivity.
  - intros payload. repeat split.
Qed.

End CodecTheorems2.

Section CodecExamples2.
#[local] Existing Instance ZWaveDuration.core.

(** Witness of X4: a received StartLevelChange with control byte 0xFF is
    written back with control byte 0x60, and a received Get with a payload
    of three bytes is written back with these bytes. *)
Lemma reserialize_received_witness :
  (is_byte 255 /\ is_byte 17)
  /\ (deserialize Cmd_StartLevelChange 2 [255; 17] ≫= serialize 2)
     = inr [96; 17]
  /\ (deserialize Cmd_Get 2 [1; 2; 3] ≫= serialize 2) = inr [1; 2; 3].
Proof.
  assert (is_byte 255) as Ha by (unfold is_byte; lia).
  assert (is_byte 17) as Hb by (unfold is_byte; lia).
  split; [split; assumption|].
  destruct (reserialize_received 2 255 17 Ha Hb) as (_ & Hstart & Hrest).
  split; [exact Hstart | exact (proj1 (Hrest [1; 2; 3]))].
Defined.

End CodecExamples2.

(** ** [SET_VALUE] beyond the singlecast target value *)

Section SetValueTheorems2.
Context `{CoreSafe} `{SwitchTypeEnum}.
Implicit Types (env : Env) (h : Host) (duration : option Duration).

(** The loop over the affected nodes of a multicast. *)
Lemma affected_nodes_updated (nodes : list (Z * bool)) id value h :
  let run :=
    foldr (fun node rest =>
             applHost_tryGetValueDB_setValue node.1 id value;; rest)
      (mret tt) nodes h in
  run.1 = inr tt
  /\ sent run.2 = sent h
  /\ polls run.2 = polls h
  /\ (exists events, emitted run.2 = emitted h ++ events)
  /\ forall k : Z,
       valueDBs run.2 !! k
       = if decide (k ∈ nodes.*1) then <[id := value]> <$> valueDBs h !! k
         else valueDBs h !! k.
Proof.
  cbv zeta. revert h. induction nodes as [|node nodes IH]; intros h.
  - cbn. do 3 (split; [reflexivity|]).
    split; [exists []; by rewrite app_nil_r|].
    intros k. rewrite decide_False by apply not_elem_of_nil. reflexivity.
  - cbn [foldr]. run_api.
    destruct (applHost_tryGetValueDB_setValue_spec node.1 id value h)
      as (Hret & Hsent & Hpolls & (ev1 & Hev) & Hdb).
    cbv zeta in Hret, Hsent, Hpolls, Hev, Hdb.
    destruct (applHost_tryGetValueDB_setValue node.1 id value h) as [r h1].
    cbn [fst snd] in *. subst r.
    destruct (IH h1) as (Hret' & Hsent' & Hpolls' & (ev2 & Hev') & Hdb').
    split; [exact Hret'|].
    split; [congruence|]. split; [congruence|].
    split; [exists (ev1 ++ ev2); rewrite Hev', Hev; by rewrite app_assoc|].
    intros k. rewrite Hdb', Hdb. cbn [fmap list_fmap].
    destruct (decide (k = node.1)) as [->|Hk].
    + rewrite (decide_True (P := node.1 ∈ node.1 :: nodes.*1))
        by apply list_elem_of_here.
      destruct (decide (node.1 ∈ nodes.*1)); [|reflexivity].
      destruct (valueDBs h !! node.1) as [db|]; [|reflexivity].
      cbn. by rewrite insert_insert_eq.
    + destruct (decide (k ∈ nodes.*1)) as [Hin|Hin].
      * rewrite decide_True by (by apply list_elem_of_further). reflexivity.
      * rewrite decide_False; [reflexivity|].
        rewrite elem_of_cons. tauto.
Qed.

(** The host after [setValue("targetValue", n)] on an endpoint that is not
    singlecast. *)
Lemma setValue_targetValue_not_singlecast env version (n : Z) duration h :
  env_isSinglecast env = false ->
  let id := currentValue_endpoint (env_endpointIndex env) in
  let cmd := Set_command id n duration in
  let affectedNodes :=
    filter (fun node => node.2 = true) (env_physicalNodes env) in
  setValue env version (PString "targetValue") (VNumber n) duration h
  = match send_outcome env version cmd with
    | inl e => (inl e, host_sent h cmd)
    | inr result =>
        let shouldUpdateOptimistically :=
          (negb (env_disableOptimisticValueUpdate env)
             && bool_decide (result = None))
          || (isSupervisionResult result
                && bool_decide (status <$> result = Some Success)) in
        (inr result,
         if env_isMulticast env then
           if shouldUpdateOptimistically && (0 <=? n) && (n <=? 99)
           then (foldr (fun node rest =>
                          applHost_tryGetValueDB_setValue node.1 id
                            (VNumber n);; rest)
                   (mret tt) affectedNodes (host_sent h cmd)).2
           else if n =? 255
                then (schedulePoll (PString "currentValue") None duration
                        (host_sent h cmd)).2
                else host_sent h cmd
         else host_sent h cmd)
    end.
Proof.
  intros Hsingle. cbv zeta.
  pose proof (affected_nodes_updated
                (filter (fun node => node.2 = true) (env_physicalNodes env))
                (currentValue_endpoint (env_endpointIndex env))
                (VNumber n)
                (host_sent h
                   (Set_command
                      (currentValue_endpoint (env_endpointIndex env)) n
                      duration))) as (Hret & _).
  cbv zeta in Hret. unfold setValue.
  rewrite decide_False by discriminate.
  rewrite decide_True by reflexivity.
  rewrite Hsingle. unfold set, assertSupportsCommand, supportsCommand.
  run_api. unfold sendCommand at 1.
  fold (Set_command (currentValue_endpoint (env_endpointIndex env)) n
          duration).
  set (cmd := Set_command _ n duration) in *.
  destruct (send_outcome env version cmd) as [e|result]; [reflexivity|].
  destruct (env_isMulticast env); [| reflexivity].
  destruct (_ && (0 <=? n) && (n <=? 99)).
  - match type of Hret with
    | (?fold).1 = _ => destruct fold as [r h2]
    end.
    cbn [fst] in Hret. subst r. reflexivity.
  - destruct (n =? 255); reflexivity.
Qed.

(** [setValue("targetValue", n)] hands over one Set, on every endpoint and
    however the send ends. *)
Lemma setValue_targetValue_sent env version (n : Z) duration h :
  sent (setValue env version (PString "targetValue") (VNumber n) duration h).2
  = sent h
    ++ [Set_command (currentValue_endpoint (env_endpointIndex env)) n
          duration].
Proof.
  destruct (env_isSinglecast env) eqn:Hsingle.
  - rewrite (setValue_targetValue_singlecast env version n duration h Hsingle).
    cbv zeta.
    set (cmd := Set_command _ n duration).
    destruct (send_outcome env version cmd) as [e|result]; [reflexivity|].
    destruct (applHost_tryGetValueDB_setValue_spec (env_nodeId env)
                (currentValue_endpoint (env_endpointIndex env)) (VNumber n)
                (host_sent h cmd)) as (_ & Hsent & _).
    cbv zeta in Hsent. cbn [snd].
    destruct (_ && (0 <=? n) && (n <=? 99));
      destruct (negb _ || (n =? 255)); cbn [schedulePoll snd sent];
      first [exact Hsent | reflexivity].
  - rewrite (setValue_targetValue_not_singlecast env version n duration h
               Hsingle).
    cbv zeta.
    set (cmd := Set_command _ n duration).
    destruct (send_outcome env version cmd) as [e|result]; [reflexivity|].
    cbn [snd].
    destruct (env_isMulticast env); [| reflexivity].
    destruct (_ && (0 <=? n) && (n <=? 99)).
    + destruct (affected_nodes_updated
                  (filter (fun node => node.2 = true) (env_physicalNodes env))
                  (currentValue_endpoint (env_endpointIndex env)) (VNumber n)
                  (host_sent h cmd)) as (_ & Hsent & _).
      exact Hsent.
    + destruct (n =? 255); reflexivity.
Qed.

(** [setValue("targetValue", n)] ends the way the send of its Set ends. *)
Lemma setValue_targetValue_outcome env version (n : Z) duration h :
  (setValue env version (PString "targetValue") (VNumber n) duration h).1
  = send_outcome env version
      (Set_command (currentValue_endpoint (env_endpointIndex env)) n
         duration).
Proof.
  destruct (env_isSinglecast env) eqn:Hsingle.
  - rewrite (setValue_targetValue_singlecast env version n duration h Hsingle).
    cbv zeta. destruct (send_outcome env version _); reflexivity.
  - rewrite (setValue_targetValue_not_singlecast env version n duration h
               Hsingle).
    cbv zeta. destruct (send_outcome env version _); reflexivity.
Qed.

(** X5: [setValue("targetValue", n)] on a multicast endpoint hands over one
    Set and ends the way the send did.  When the send failed, no value DB
    is written and no poll scheduled.  Otherwise it schedules a poll exactly
    when [n] is 255, and then one of currentValue without an expected value;
    and it writes [n] as currentValue into the value DB of each physical
    node whose endpoint supports the command class, provided the optimistic
    update applies ([n] within 0..99 and the command either unsupervised
    with optimistic updates enabled, or supervised with status Success);
    every other value DB, and every DB otherwise, is left as it was. *)
Theorem setValue_multicast env version (n : Z) duration h :
  env_isSinglecast env = false ->
  env_isMulticast env = true ->
  let id := {| commandClass := 38; endpoint := env_endpointIndex env;
               property := PString "currentValue"; propertyKey := None |} in
  let cmd :=
    {| sent_cc := MultilevelSwitchCCSet n duration;
       sent_onUpdate :=
         if negb (n =? 255)
         then Some {| handler_valueId := id; handler_value := n |}
         else None |} in
  let affectedNodes :=
    filter (fun node => node.2 = true) (env_physicalNodes env) in
  let run := setValue env version (PString "targetValue") (VNumber n)
               duration h in
  run.1 = send_outcome env version cmd
  /\ sent run.2 = sent h ++ [cmd]
  /\ (forall e,
        run.1 = inl e ->
        valueDBs run.2 = valueDBs h /\ polls run.2 = polls h)
  /\ (forall result,
        run.1 = inr result ->
        let shouldUpdateOptimistically :=
          (negb (env_disableOptimisticValueUpdate env)
             && bool_decide (result = None))
          || (isSupervisionResult result
                && bool_decide (status <$> result = Some Success)) in
        polls run.2
        = polls h ++ (if n =? 255
                      then [{| poll_property := PString "currentValue";
                               poll_expectedValue := None;
                               poll_duration := duration |}]
                      else [])
        /\ forall k : Z,
             valueDBs run.2 !! k
             = if shouldUpdateOptimistically && (0 <=? n) && (n <=? 99)
                  && bool_decide (k ∈ affectedNodes.*1)
               then <[id := VNumber n]> <$> valueDBs h !! k
               else valueDBs h !! k).
Proof.
  intros Hsingle Hmulti. cbv zeta.
  change {| commandClass := 38; endpoint := env_endpointIndex env;
            property := PString "currentValue"; propertyKey := None |}
    with (currentValue_endpoint (env_endpointIndex env)).
  fold (Set_command (currentValue_endpoint (env_endpointIndex env)) n
          duration).
  split; [apply setValue_targetValue_outcome|].
  split; [apply setValue_targetValue_sent|].
  rewrite (setValue_targetValue_not_singlecast env version n duration h
             Hsingle).
  cbv zeta. rewrite Hmulti.
  set (id := currentValue_endpoint (env_endpointIndex env)).
  set (cmd := Set_command id n duration).
  set (affected := filter _ (env_physicalNodes env)).
  destruct (send_outcome env version cmd) as [e|result]; cbn [fst snd].
  { split; [intros e' _; split; reflexivity | intros result [=]]. }
  split; [intros e [=]|]. intros result' [= <-].
  set (should := (negb (env_disableOptimisticValueUpdate env) && _ || _)).
  destruct (should && (0 <=? n) && (n <=? 99)) eqn:Hupdate.
  - destruct (affected_nodes_updated affected id (VNumber n)
                (host_sent h cmd)) as (_ & Hsent & Hpolls & _ & Hdb).
    cbv zeta in Hsent, Hpolls, Hdb.
    assert ((n =? 255) = false) as -> by lia.
    split; [rewrite Hpolls; cbn; by rewrite app_nil_r|].
    intros k. rewrite Hdb. cbn [andb valueDBs host_sent].
    destruct (decide (k ∈ affected.*1)) as [Hin|Hin].
    + by rewrite bool_decide_eq_true_2.
    + by rewrite bool_decide_eq_false_2.
  - cbn [andb]. destruct (n =? 255).
    + repeat split.
    + repeat split. cbn. by rewrite app_nil_r.
Qed.

(** *** The frame of [setValue] *)

Lemma db_frame_lookup (own : ValueID) (value : JSValue)
    (dbs dbs' : gmap Z ValueDB.t) :
  (forall k : Z, dbs' !! k = dbs !! k
                 \/ dbs' !! k = <[own := value]> <$> dbs !! k) ->
  db_frame own dbs dbs'.
Proof.
  intros Hlookup nodeId. destruct (Hlookup nodeId) as [-> | ->].
  - split; [reflexivity | intros id _; reflexivity].
  - split; [apply fmap_is_Some|].
    intros id Hid. destruct (dbs !! nodeId) as [db|]; [|reflexivity].
    cbn. unfold ValueDB.get. by rewrite lookup_insert_ne.
Qed.

Lemma within_frame_thrown {A} env h (run : Outcome A * Host) (e : ZWaveError) :
  run = (inl e, h) -> within_frame env h run.
Proof.
  intros ->. unfold within_frame. cbn [fst snd].
  split; [exists []; split; [by rewrite app_nil_r | cbn; lia]|].
  split; [exists []; split; [by rewrite app_nil_r | split; [cbn; lia|]];
          apply Forall_nil_2|].
  split; [exists []; by rewrite app_nil_r|].
  split; [apply (db_frame_lookup _ VUndefined); auto|].
  split; [reflexivity|]. intros _ _. repeat split.
Qed.

(** A call that only handed over one command stays within the frame,
    however the send ended. *)
Lemma within_frame_sent {A} env h (run : Outcome A * Host) (out : Outcome A)
    (cmd : SentCommand) :
  run = (out, host_sent h cmd) -> within_frame env h run.
Proof.
  intros ->. unfold within_frame. cbn [fst snd host_sent sent polls emitted
                                       valueDBs].
  split; [exists [cmd]; split; [reflexivity | cbn; lia]|].
  split; [exists []; split; [by rewrite app_nil_r | split; [cbn; lia|]];
          apply Forall_nil_2|].
  split; [exists []; by rewrite app_nil_r|].
  split; [apply (db_frame_lookup _ VUndefined); auto|].
  split; [reflexivity|]. intros _ _. repeat split.
Qed.

Lemma setValue_targetValue_within_frame env version (n : Z) duration h :
  within_frame env h
    (setValue env version (PString "targetValue") (VNumber n) duration h).
Proof.
  set (id := currentValue_endpoint (env_endpointIndex env)).
  destruct (env_isSinglecast env) eqn:Hsingle.
  - rewrite (setValue_targetValue_singlecast env version n duration h Hsingle).
    cbv zeta. fold id.
    set (cmd := Set_command id n duration).
    destruct (send_outcome env version cmd) as [e|result];
      [by eapply within_frame_sent|].
    destruct (applHost_tryGetValueDB_setValue_spec (env_nodeId env) id
                (VNumber n) (host_sent h cmd))
      as (_ & Hsent & Hpolls & (ev & Hev) & Hdb).
    cbv zeta in Hsent, Hpolls, Hev, Hdb.
    set (h2 := if _ && (0 <=? n) && (n <=? 99) then _ else host_sent h cmd).
    assert (sent h2 = sent h ++ [cmd] /\ polls h2 = polls h
            /\ (exists events, emitted h2 = emitted h ++ events)
            /\ forall k, valueDBs h2 !! k = valueDBs h !! k
                          \/ (k = env_nodeId env
                              /\ valueDBs h2 !! k
                                 = <[id := VNumber n]> <$> valueDBs h !! k))
      as (Hsent2 & Hpolls2 & (ev2 & Hev2) & Hdb2).
    { subst h2. destruct (_ && (0 <=? n) && (n <=? 99)).
      - split; [exact Hsent|]. split; [exact Hpolls|]. split; [eauto|].
        intros k. rewrite Hdb.
        destruct (decide (k = env_nodeId env)); [right | left]; done.
      - split; [reflexivity|]. split; [reflexivity|].
        split; [exists []; cbn; by rewrite app_nil_r | by left]. }
    assert (forall h3 ps,
              sent h3 = sent h2 -> emitted h3 = emitted h2 ->
              valueDBs h3 = valueDBs h2 -> polls h3 = polls h2 ++ ps ->
              (length ps <= 1)%nat ->
              Forall (fun p => poll_property p = PString "currentValue") ps ->
              within_frame env h (inr result, h3)) as Hframe.
    { intros h3 ps Hs3 He3 Hd3 Hp3 Hlen Hps. unfold within_frame.
      cbn [fst snd]. rewrite Hs3, He3, Hd3, Hp3, Hsent2, Hpolls2, Hev2.
      split; [exists [cmd]; split; [reflexivity | cbn; lia]|].
      split; [eauto|]. split; [eauto|].
      split; [apply (db_frame_lookup _ (VNumber n)); intros k;
              destruct (Hdb2 k) as [?|[_ ?]]; auto|].
      split; [|intros e [=]].
      intros _ k Hk. destruct (Hdb2 k) as [?|[? _]]; done. }
    destruct (negb _ || (n =? 255)).
    + eapply (Hframe _ [_]);
        first [ reflexivity | cbn; lia
              | apply Forall_cons_2; [reflexivity | apply Forall_nil_2] ].
    + eapply (Hframe _ []);
        first [ reflexivity | by rewrite app_nil_r | cbn; lia
              | apply Forall_nil_2 ].
  - rewrite (setValue_targetValue_not_singlecast env version n duration h
               Hsingle).
    cbv zeta. fold id.
    set (cmd := Set_command id n duration).
    destruct (send_outcome env version cmd) as [e|result];
      [by eapply within_frame_sent|].
    destruct (env_isMulticast env);
      [| by eapply within_frame_sent].
    destruct (_ && (0 <=? n) && (n <=? 99)).
    + destruct (affected_nodes_updated
                  (filter (fun node => node.2 = true) (env_physicalNodes env))
                  id (VNumber n) (host_sent h cmd))
        as (_ & Hsent & Hpolls & (ev & Hev) & Hdb).
      cbv zeta in Hsent, Hpolls, Hev, Hdb.
      unfold within_frame. cbn [fst snd].
      rewrite Hsent, Hpolls, Hev.
      split; [exists [cmd]; split; [reflexivity | cbn; lia]|].
      split; [exists []; split; [by rewrite app_nil_r | split; [cbn; lia|]];
              apply Forall_nil_2|].
      split; [eauto|].
      split; [apply (db_frame_lookup _ (VNumber n)); intros k; rewrite Hdb;
              destruct (decide _); auto|].
      split; [intros Ht; rewrite Hsingle in Ht; discriminate Ht | intros e [=]].
    + destruct (n =? 255); [| by eapply within_frame_sent].
      unfold within_frame.
      cbn [fst snd schedulePoll host_sent sent polls emitted valueDBs].
      split; [exists [cmd]; split; [reflexivity | cbn; lia]|].
      split; [eexists [_]; split; [reflexivity | split; [cbn; lia|]];
              apply Forall_cons_2; [reflexivity | apply Forall_nil_2]|].
      split; [exists []; by rewrite app_nil_r|].
      split; [apply (db_frame_lookup _ VUndefined); auto|].
      split; [intros Ht; rewrite Hsingle in Ht; discriminate Ht | intros e [=]].
Qed.

(** X6: whatever property and value it is called with, and however the send
    ends, [setValue] hands over at most one command and schedules at most
    one poll, which is a poll of currentValue; it creates and removes no
    value DB and writes no entry other than currentValue of its endpoint; on
    a singlecast endpoint it leaves the value DBs of all other nodes alone;
    and when it throws, it has written no value DB, emitted no event and
    scheduled no poll. *)
Theorem setValue_within_frame env version (property : Property)
    (value : JSValue) duration h :
  within_frame env h (setValue env version property value duration h).
Proof.
  destruct (decide (property = PString "restorePrevious")) as [->|Hrestore].
  { rewrite setValue_restorePrevious.
    apply setValue_targetValue_within_frame. }
  destruct (decide (property = PString "targetValue")) as [->|Htarget].
  { destruct value as [n|b|s|].
    - apply setValue_targetValue_within_frame.
    - eapply within_frame_thrown. unfold setValue.
      rewrite decide_False by discriminate.
      rewrite decide_True by reflexivity. reflexivity.
    - eapply within_frame_thrown. unfold setValue.
      rewrite decide_False by discriminate.
      rewrite decide_True by reflexivity. reflexivity.
    - eapply within_frame_thrown. unfold setValue.
      rewrite decide_False by discriminate.
      rewrite decide_True by reflexivity. reflexivity. }
  unfold setValue. rewrite !decide_False by assumption.
  destruct property as [name|k];
    [| eapply within_frame_thrown; reflexivity].
  destruct (Array_includes name switchTypeProperties);
    [| eapply within_frame_thrown; reflexivity].
  destruct value as [n|[|]|s|];
    [ eapply within_frame_thrown; reflexivity
    |
    | eapply within_frame_sent; reflexivity
    | eapply within_frame_thrown; reflexivity
    | eapply within_frame_thrown; reflexivity ].
  run_api. unfold tryGetValueDB_getValue at 1. cbn beta iota.
  rewrite startLevelChange_ignoring.
  destruct (stored_value env h _) as [[]|];
    first [ eapply within_frame_thrown; reflexivity
          | eapply within_frame_sent; reflexivity ].
Qed.

(** X7: which calls [setValue] rejects.  A target value that is not a
    number throws a wrong-value-type error naming targetValue and the type
    received, before anything is done.  restorePrevious is never rejected
    for the value passed: it throws only when the send of its Set fails,
    as it does for an unknown duration from version 2 on.  A level-change
    property (an entry of [switchTypeProperties]) with a value that is not a
    boolean throws a wrong-value-type error (which reports "number" as the
    expected type), and with the value true it throws an invalid-argument
    error when the value DB holds a boolean or a string as current value;
    both before anything is done.  Any other property, a read-only one like
    currentValue or duration included, throws an unsupported-property
    error. *)
Theorem setValue_rejects env version duration h :
  (forall value,
     (forall n, value ≠ VNumber n) ->
     setValue env version (PString "targetValue") value duration h
     = (inl (WrongValueType (PString "targetValue") "number" (typeof value)),
        h))
  /\ (forall value,
        (setValue env version (PString "restorePrevious") value duration h).1
        = send_outcome env version
            {| sent_cc := MultilevelSwitchCCSet 255 duration;
               sent_onUpdate := None |}
        /\ forall e d,
             2 <= version -> duration = Some d ->
             Duration_serializeSet d = inl e ->
             (setValue env version (PString "restorePrevious") value duration
                h).1 = inl e)
  /\ (forall (name : string) value,
        PString name ≠ PString "targetValue" ->
        PString name ≠ PString "restorePrevious" ->
        Array_includes name switchTypeProperties = true ->
        ((forall b, value ≠ VBoolean b) ->
         setValue env version (PString name) value duration h
         = (inl (WrongValueType (PString name) "number" (typeof value)), h))
        /\ (forall stored,
              stored_value env h
                {| commandClass := 38; endpoint := env_endpointIndex env;
                   property := PString "currentValue";
                   propertyKey := None |}
              = Some stored ->
              typeof stored = "boolean"%string
              \/ typeof stored = "string"%string ->
              setValue env version (PString name) (VBoolean true) duration h
              = (inl Argument_Invalid, h)))
  /\ (forall property value,
        property ≠ PString "targetValue" ->
        property ≠ PString "restorePrevious" ->
        (forall name, property = PString name ->
                      Array_includes name switchTypeProperties = false) ->
        setValue env version property value duration h
        = (inl (UnsupportedProperty property), h)).
Proof.
  change {| commandClass := 38; endpoint := env_endpointIndex env;
            property := PString "currentValue"; propertyKey := None |}
    with (currentValue_endpoint (env_endpointIndex env)).
  split; [| split; [| split]].
  - intros value Hvalue. unfold setValue.
    rewrite decide_False by discriminate.
    rewrite decide_True by reflexivity.
    destruct value as [n| | |]; [by destruct (Hvalue n) | done..].
  - intros value. rewrite setValue_restorePrevious.
    rewrite setValue_targetValue_outcome. split; [reflexivity|].
    intros e d Hv -> Hd. unfold send_outcome, Set_command.
    cbn [sent_cc serialize durationBytes].
    replace (2 <=? version) with true by (symmetry; lia).
    rewrite Hd. reflexivity.
  - intros name value Htarget Hrestore Hin. split.
    + intros Hvalue. unfold setValue.
      rewrite (decide_False (P := PString name = PString "restorePrevious"))
        by assumption.
      rewrite (decide_False (P := PString name = PString "targetValue"))
        by assumption.
      rewrite Hin.
      destruct value as [|b| |]; [done | by destruct (Hvalue b) | done..].
    + intros stored Hstored Htype. unfold setValue.
      rewrite (decide_False (P := PString name = PString "restorePrevious"))
        by assumption.
      rewrite (decide_False (P := PString name = PString "targetValue"))
        by assumption.
      rewrite Hin. run_api. unfold tryGetValueDB_getValue at 1.
      cbn beta iota. rewrite startLevelChange_ignoring, Hstored.
      destruct stored; destruct Htype as [Ht|Ht];
        first [discriminate Ht | reflexivity].
  - intros property value Htarget Hrestore Hnotin. unfold setValue.
    rewrite (decide_False (P := property = PString "restorePrevious"))
      by assumption.
    rewrite (decide_False (P := property = PString "targetValue"))
      by assumption.
    destruct property as [name|k]; [| reflexivity].
    by rewrite (Hnotin name eq_refl).
Qed.

(** X8: [setValue("targetValue", n)] itself writes no value DB and emits no
    event when the command was unsupervised and optimistic updates are
    disabled, or when it was supervised with a status other than Success
    (Working, Fail, NoSupport), or when the send failed, or when [n] is not
    a level within 0..99; this holds for singlecast, multicast and any other
    endpoint. *)
Theorem setValue_updates_only_when_confirmed env version (n : Z) duration h :
  let id := currentValue_endpoint (env_endpointIndex env) in
  let cmd :=
    {| sent_cc := MultilevelSwitchCCSet n duration;
       sent_onUpdate :=
         if negb (n =? 255)
         then Some {| handler_valueId := id; handler_value := n |}
         else None |} in
  let outcome := send_outcome env version cmd in
  let run := setValue env version (PString "targetValue") (VNumber n)
               duration h in
  (outcome = inr None /\ env_disableOptimisticValueUpdate env = true)
  \/ (exists r, outcome = inr (Some r) /\ status r ≠ Success)
  \/ (exists e, outcome = inl e)
  \/ ~ 0 <= n <= 99 ->
  valueDBs run.2 = valueDBs h /\ emitted run.2 = emitted h.
Proof.
  cbv zeta. intros Hcase.
  fold (Set_command (currentValue_endpoint (env_endpointIndex env)) n
          duration) in Hcase.
  set (cmd := Set_command _ n duration) in Hcase.
  assert (forall result,
            send_outcome env version cmd = inr result ->
            (((negb (env_disableOptimisticValueUpdate env)
                 && bool_decide (result = None))
              || (isSupervisionResult result
                    && bool_decide (status <$> result = Some Success)))
             && (0 <=? n) && (n <=? 99)) = false) as Hno.
  { intros result Hout.
    destruct Hcase as [[Hres Hdis] | [(r & Hres & Hstatus) | [[e He] | Hn]]].
    - rewrite Hout in Hres. injection Hres as ->. rewrite Hdis. reflexivity.
    - rewrite Hout in Hres. injection Hres as ->.
      by rewrite shouldUpdateOptimistically_other.
    - rewrite Hout in He. discriminate He.
    - rewrite <- andb_assoc. apply andb_false_iff. right.
      by apply level_out_of_range. }
  destruct (env_isSinglecast env) eqn:Hsingle.
  - rewrite (setValue_targetValue_singlecast env version n duration h Hsingle).
    cbv zeta. fold cmd.
    destruct (send_outcome env version cmd) as [e|result];
      [split; reflexivity|].
    rewrite (Hno result eq_refl). cbn [snd].
    destruct (negb _ || (n =? 255)); split; reflexivity.
  - rewrite (setValue_targetValue_not_singlecast env version n duration h
               Hsingle).
    cbv zeta. fold cmd.
    destruct (send_outcome env version cmd) as [e|result];
      [split; reflexivity|].
    rewrite (Hno result eq_refl). cbn [snd].
    destruct (env_isMulticast env), (n =? 255); split; reflexivity.
Qed.

(** X1: the status-update handler of [SET_VALUE].  [setValue("targetValue",
    n)] hands over its Set together with a handler unless [n] is 255.  When a
    status update with status Success arrives, that handler stores [n] as
    the currentValue of its endpoint through one [setValue] call of the
    value DB of its node, and touches neither the commands handed over nor
    the polls; it does so on a singlecast endpoint whose node has a value
    DB, and does nothing on any other endpoint or without a value DB.  An
    update with status Working or NoSupport changes nothing. *)
Theorem onUpdate_success_stores_value env version (n : Z) duration h
    (update : SupervisionResult) (h' : Host) :
  let id := {| commandClass := 38; endpoint := env_endpointIndex env;
               property := PString "currentValue"; propertyKey := None |} in
  let handler := {| handler_valueId := id; handler_value := n |} in
  let run := setValue env version (PString "targetValue") (VNumber n)
               duration h in
  sent run.2
  = sent h ++ [{| sent_cc := MultilevelSwitchCCSet n duration;
                  sent_onUpdate := if n =? 255 then None else Some handler |}]
  /\ (status update = Success ->
      onUpdate env version handler update h'
      = (inr tt,
         match valueDBs h' !! env_nodeId env with
         | Some db =>
             if env_isSinglecast env
             then {| valueDBs :=
                       <[env_nodeId env := <[id := VNumber n]> db]>
                         (valueDBs h');
                     emitted :=
                       emitted h'
                       ++ ((fun e => (env_nodeId env, e))
                             <$> (ValueDB.set db id (VNumber n)).2);
                     sent := sent h';
                     polls := polls h' |}
             else h'
         | None => h'
         end))
  /\ (status update = Working \/ status update = NoSupport ->
      onUpdate env version handler update h' = (inr tt, h')).
Proof.
  cbv zeta. split; [| split].
  - rewrite setValue_targetValue_sent.
    unfold Set_command, currentValue_endpoint,
      CommandClasses_Multilevel_Switch.
    destruct (n =? 255); reflexivity.
  - intros Hstatus. rewrite (onUpdate_Success _ _ _ _ _ Hstatus).
    cbn [handler_valueId handler_value].
    destruct (valueDBs h' !! env_nodeId env) as [db|] eqn:Hdb.
    + destruct (env_isSinglecast env); [| reflexivity].
      by apply applHost_tryGetValueDB_setValue_found.
    + destruct (env_isSinglecast env); [| reflexivity].
      by apply applHost_tryGetValueDB_setValue_missing.
  - unfold onUpdate.
    intros [-> | ->]; rewrite !decide_False by discriminate; reflexivity.
Qed.

End SetValueTheorems2.

Section APIExamples2.
#[local] Existing Instance ZWaveDuration.core.
#[local] Existing Instance ZWaveSwitchType.

(** Witness of X5: an unsupervised multicast Set of 50 stores 50 for node 2,
    leaves node 3 (which does not support the command class) alone, creates
    no DB for node 4, and schedules no poll. *)
Lemma setValue_multicast_witness :
  let id := currentValue_endpoint 0 in
  let run := setValue multicast_env 4 (PString "targetValue") (VNumber 50)
               None two_node_host in
  (env_isSinglecast multicast_env = false
   /\ env_isMulticast multicast_env = true)
  /\ valueDBs run.2 !! 2 = Some {[ id := VNumber 50 ]}
  /\ valueDBs run.2 !! 3 = Some ∅
  /\ valueDBs run.2 !! 4 = None
  /\ polls run.2 = [].
Proof.
  cbv zeta.
  destruct (setValue_multicast multicast_env 4 50 None two_node_host
              eq_refl eq_refl) as (Hout & _ & _ & Hreturned).
  cbv zeta in Hout, Hreturned.
  destruct (Hreturned None Hout) as (Hpolls & Hdb).
  split; [split; reflexivity|].
  rewrite (Hdb 2), (Hdb 3), (Hdb 4), Hpolls.
  repeat split.
Defined.

(** Witness of X8: with optimistic updates disabled, an unsupervised Set of
    80 leaves the value DB and the events as they were. *)
Lemma setValue_updates_only_when_confirmed_witness :
  let run := setValue cautious_env 4 (PString "targetValue") (VNumber 80)
               None fresh_host in
  env_disableOptimisticValueUpdate cautious_env = true
  /\ valueDBs run.2 = valueDBs fresh_host
  /\ emitted run.2 = [].
Proof.
  cbv zeta. split; [reflexivity|].
  exact (setValue_updates_only_when_confirmed cautious_env 4 80 None
           fresh_host (or_introl (conj eq_refl eq_refl))).
Defined.

(** On concrete inputs: the Set of 80 carries the handler, and a later
    Success update stores 80. *)
Example onUpdate_success_stores_80 :
  let id := currentValue_endpoint 0 in
  let handler := {| handler_valueId := id; handler_value := 80 |} in
  sent (setValue working_env 4 (PString "targetValue") (VNumber 80) None
          fresh_host).2
  = [{| sent_cc := MultilevelSwitchCCSet 80 None;
        sent_onUpdate := Some handler |}]
  /\ (valueDBs (onUpdate working_env 4 handler {| status := Success |}
                  fresh_host).2 !! 5 ≫= fun db => ValueDB.get db id)
      = Some (VNumber 80).
Proof. cbv zeta. split; [reflexivity | vm_compute; reflexivity]. Qed.

(** On concrete inputs: restoring the previous value with an unknown
    transition duration throws at version 2, where the duration is
    serialised, and not at version 1. *)
Example restorePrevious_unknown_duration :
  (setValue supervised_env 2 (PString "restorePrevious") (VBoolean true)
     (Some unknown_duration) fresh_host).1 = inl CC_Invalid
  /\ (setValue supervised_env 1 (PString "restorePrevious") (VBoolean true)
        (Some unknown_duration) fresh_host).1
     = inr (Some {| status := Success |}).
Proof. split; reflexivity. Qed.

(** On concrete inputs: a Set whose send fails with a node timeout was
    handed over all the same, and nothing else happened. *)
Example setValue_unreachable :
  setValue unreachable_env 4 (PString "targetValue") (VNumber 80) None
    fresh_host
  = (inl NodeTimeout,
     host_sent fresh_host (Set_command (currentValue_endpoint 0) 80 None)).
Proof. reflexivity. Qed.

End APIExamples2.

(** ** The level-change table and its predicates, continued *)

Section SwitchTypeFacts2.
Context `{SwitchTypeEnum}.

Lemma Array_indexOf_elem (x : string) (l : list string) :
  Array_indexOf x l ≠ -1 <-> x ∈ l.
Proof.
  split.
  - intros Hidx. destruct (Array_indexOf_found x l Hidx) as (j & Hj & _).
    eapply list_elem_of_lookup_2, Hj.
  - intros Hin. apply list_elem_of_lookup_1 in Hin as [j Hj].
    eapply Array_indexOf_lookup_found, Hj.
Qed.

Lemma Array_includes_elem (x : string) (l : list string) :
  Array_includes x l = true <-> x ∈ l.
Proof.
  unfold Array_includes. rewrite negb_true_iff, Z.eqb_neq.
  apply Array_indexOf_elem.
Qed.

(** [indexOf(x) % 2] is -1 for a missing element and 0 or 1 otherwise. *)
Lemma indexOf_rem_2 (x : string) (l : list string) :
  (Array_indexOf x l = -1 /\ Z.rem (Array_indexOf x l) 2 = -1)
  \/ (Array_indexOf x l ≠ -1
      /\ (Z.rem (Array_indexOf x l) 2 = 0 \/ Z.rem (Array_indexOf x l) 2 = 1)).
Proof.
  destruct (Z.eq_dec (Array_indexOf x l) (-1)) as [Hidx|Hidx].
  - left. rewrite Hidx. split; reflexivity.
  - right. split; [exact Hidx|].
    destruct (Array_indexOf_found x l Hidx) as (j & _ & ->).
    rewrite rem_2_of_nat. destruct (Nat.even j); auto.
Qed.

(** X9: no value id is accepted by both [levelChangeUp] and
    [levelChangeDown]; a value id is accepted by one of them exactly when
    its property is a string that occurs in [switchTypeProperties]; and these
    are exactly the property names that [setValue] treats as level-change
    actions ([switchTypeProperties.includes]). *)
Theorem levelChange_predicates_partition (id : ValueID) :
  levelChangeUp_is id && levelChangeDown_is id = false
  /\ (levelChangeUp_is id || levelChangeDown_is id = true
      <-> exists name : string,
            property id = PString name /\ name ∈ switchTypeProperties)
  /\ (forall name : string,
        property id = PString name ->
        Array_includes name switchTypeProperties
        = levelChangeUp_is id || levelChangeDown_is id).
Proof.
  unfold levelChangeUp_is, levelChangeDown_is.
  destruct (property id) as [name|k].
  - pose proof (Array_includes_elem name switchTypeProperties) as Hinc.
    assert ((Array_includes name switchTypeProperties = false
             /\ (Z.rem (Array_indexOf name switchTypeProperties) 2 =? 1) = false
             /\ (Z.rem (Array_indexOf name switchTypeProperties) 2 =? 0) = false)
            \/ (Array_includes name switchTypeProperties = true
                /\ (Z.rem (Array_indexOf name switchTypeProperties) 2 =? 1)
                   = negb (Z.rem (Array_indexOf name switchTypeProperties) 2
                           =? 0)))
      as [(Hno & -> & ->) | (Hyes & ->)].
    { unfold Array_includes.
      destruct (indexOf_rem_2 name switchTypeProperties)
        as [[Hidx Hrem] | [Hidx [Hrem|Hrem]]]; rewrite Hrem.
      - left. rewrite Hidx. repeat split.
      - right. apply Z.eqb_neq in Hidx. rewrite Hidx. split; reflexivity.
      - right. apply Z.eqb_neq in Hidx. rewrite Hidx. split; reflexivity. }
    + split; [reflexivity|]. split.
      * split; [discriminate|]. intros (name' & [= <-] & Hin).
        apply Hinc in Hin. congruence.
      * intros name' [= <-]. exact Hno.
    + split; [apply andb_negb_l|]. split.
      * rewrite orb_negb_l. split; [|reflexivity]. intros _. exists name.
        split; [reflexivity | by apply Hinc].
      * intros name' [= <-]. by rewrite orb_negb_l.
  - split; [reflexivity|]. split.
    + split; [discriminate | intros (name & [=] & _)].
    + intros name [=].
Qed.

(** *** [switchTypeToActions] *)

Lemma String_split_pieces (c : ascii) (s : string) :
  Forall (fun piece => String_indexOf c piece = -1) (String_split c s).
Proof.
  induction s as [|a rest IH]; cbn [String_split].
  - apply Forall_cons_2; [reflexivity | apply Forall_nil_2].
  - destruct (Ascii.eqb a c) eqn:Hac.
    + apply Forall_cons_2; [reflexivity | exact IH].
    + destruct (String_split c rest) as [|piece pieces].
      * apply Forall_cons_2; [| apply Forall_nil_2].
        cbn [String_indexOf]. by rewrite Hac.
      * apply Forall_cons_1 in IH as [Hpiece Hpieces].
        apply Forall_cons_2; [| exact Hpieces].
        cbn [String_indexOf]. by rewrite Hac, Hpiece.
Qed.

Lemma String_split_single (c : ascii) (s piece : string) :
  String_split c s = [piece] -> s = piece /\ String_indexOf c s = -1.
Proof.
  revert piece. induction s as [|a rest IH]; intros piece;
    cbn [String_split String_indexOf].
  - intros [= <-]. done.
  - destruct (Ascii.eqb a c).
    + pose proof (String_split_nonempty c rest) as Hlen.
      destruct (String_split c rest); [cbn in Hlen; lia | discriminate].
    + destruct (String_split c rest) as [|piece' [|]] eqn:Hrest;
        intros [= <-].
      * pose proof (String_split_nonempty c rest) as Hlen.
        rewrite Hrest in Hlen. cbn in Hlen. lia.
      * destruct (IH piece' eq_refl) as [-> ->]. done.
Qed.

Lemma String_split_unsplit (c : ascii) (s : string) :
  String_indexOf c s = -1 -> String_split c s = [s].
Proof.
  induction s as [|a rest IH]; cbn [String_split String_indexOf]; [done|].
  destruct (Ascii.eqb a c); [done|].
  destruct (Z.eqb_spec (String_indexOf c rest) (-1)) as [Hrest|Hrest].
  - intros _. by rewrite (IH Hrest).
  - pose proof (String_indexOf_ge c rest). lia.
Qed.

(** A string that splits into two pieces is the first piece, the separator
    and the second piece. *)
Lemma String_split_pair (c : ascii) (s first second : string) :
  String_split c s = [first; second] ->
  s = (first +:+ String c second)%string /\ String_indexOf c s ≠ -1.
Proof.
  revert first. induction s as [|a rest IH]; intros first;
    cbn [String_split String_indexOf]; [discriminate|].
  destruct (Ascii.eqb_spec a c) as [->|Hac].
  - intros [= <- Hrest]. apply String_split_single in Hrest as [-> _]. done.
  - destruct (String_split c rest) as [|piece pieces] eqn:Hrest;
      [discriminate|].
    intros [= <- ->]. destruct (IH piece eq_refl) as [-> Hidx].
    split; [reflexivity|].
    pose proof (String_indexOf_ge c (piece +:+ String c second)).
    destruct (Z.eqb_spec (String_indexOf c (piece +:+ String c second)) (-1));
      lia.
Qed.

(** A name without '/' gets the actions of [SwitchType[0x02]]. *)
Lemma switchTypeToActions_fallback (switchType : string) :
  String_includes "/" switchType = false ->
  switchTypeToActions switchType = switchTypeToActions SwitchType_0x02.
Proof.
  intros Hno. unfold switchTypeToActions. rewrite Hno. cbn [negb].
  destruct (negb (String_includes "/" SwitchType_0x02)); reflexivity.
Qed.

(** X10: [switchTypeToActions] returns at most two names, none of which
    contains a '/'.  For a name that splits at '/' into exactly two pieces it
    returns these pieces, and the name is the first piece, '/', the second
    piece.  A name without '/' (an unknown switch type) gets the actions of
    [SwitchType[0x02]].  Consequently no entry of [switchTypeProperties]
    contains a '/', and the table has two entries per enum key with a
    '/'. *)
Theorem switchTypeToActions_actions :
  (forall switchType,
     (length (switchTypeToActions switchType) <= 2)%nat
     /\ Forall (fun action => String_includes "/" action = false)
          (switchTypeToActions switchType))
  /\ (forall key down up,
        String_split "/" key = [down; up] ->
        switchTypeToActions key = [down; up]
        /\ key = (down +:+ "/" +:+ up)%string)
  /\ (forall switchType,
        String_includes "/" switchType = false ->
        switchTypeToActions switchType = switchTypeToActions SwitchType_0x02)
  /\ Forall (fun name => String_includes "/" name = false)
       switchTypeProperties
  /\ length switchTypeProperties = (2 * length switchTypeKeys)%nat.
Proof.
  assert (forall s, Forall (fun action => String_includes "/" action = false)
                      (String_split_limit "/" 2 s)) as Hpieces.
  { intros s. unfold String_split_limit. apply Forall_take.
    eapply Forall_impl; [apply String_split_pieces|].
    intros piece Hpiece. cbn in Hpiece. unfold String_includes.
    by rewrite Hpiece. }
  split; [| split; [| split; [| split]]].
  - intros switchType. unfold switchTypeToActions. split; [| apply Hpieces].
    unfold String_split_limit. rewrite length_take. lia.
  - intros key down up Hsplit.
    destruct (String_split_pair _ _ _ _ Hsplit) as [Hkey Hidx].
    split; [| exact Hkey].
    unfold switchTypeToActions, String_includes.
    apply Z.eqb_neq in Hidx. rewrite Hidx. cbn [negb].
    unfold String_split_limit. by rewrite Hsplit.
  - exact switchTypeToActions_fallback.
  - rewrite switchTypeProperties_concat. apply Forall_concat, Forall_fmap.
    apply Forall_forall. intros key _. apply Hpieces.
  - rewrite switchTypeProperties_concat.
    rewrite (concat_pairs_length _ actions_are_pairs). by rewrite length_fmap.
Qed.

End SwitchTypeFacts2.

(** ** The dynamic values recognise the names they create *)

Section DynamicValueTheorems.
Context `{SwitchTypeEnum}.
Variable getEnumMemberName : Z -> string.

Lemma switchTypeKeys_elem (key : string) :
  key ∈ switchTypeKeys
  <-> key ∈ SwitchType_keys /\ String_includes "/" key = true.
Proof.
  unfold switchTypeKeys, String_includes. rewrite list_elem_of_filter.
  pose proof (String_indexOf_ge "/" key).
  rewrite negb_true_iff, Z.eqb_neq. split; intros [? ?]; split; auto; lia.
Qed.

(** The actions of a key of the table are recognised. *)
Lemma key_actions_recognised (key : string) (index : Z) :
  NoDup switchTypeProperties ->
  key ∈ switchTypeKeys ->
  exists down up upId downId,
    switchTypeToActions key = [down; up]
    /\ dynamic_endpoint (Some up) index = Some upId
    /\ dynamic_endpoint (Some down) index = Some downId
    /\ levelChangeUp_is upId = true /\ levelChangeDown_is upId = false
    /\ levelChangeDown_is downId = true /\ levelChangeUp_is downId = false.
Proof.
  intros Hnodup Hkey. apply list_elem_of_lookup_1 in Hkey as [i Hi].
  destruct (switchTypeProperties_positions i key Hi)
    as (down & up & Hpair & Hdown & Hup).
  exists down, up. do 2 eexists.
  split; [exact Hpair|]. split; [reflexivity|]. split; [reflexivity|].
  assert (Nat.even (2 * i) = true) as Heven
    by (apply Nat.even_spec; by exists i).
  assert (Nat.odd (2 * i + 1) = true) as Hodd
    by (apply Nat.odd_spec; by exists i).
  unfold levelChangeUp_is, levelChangeDown_is. cbn [property].
  rewrite (Array_indexOf_lookup _ _ _ Hnodup Hup),
          (Array_indexOf_lookup _ _ _ Hnodup Hdown), !rem_2_of_nat.
  rewrite Heven. rewrite <- Nat.negb_even in Hodd.
  destruct (Nat.even (2 * i + 1)); [discriminate Hodd|]. repeat split.
Qed.

(** The value ids of the two dynamic values are defined and recognised. *)
Lemma dynamic_ids_recognised (switchType index : Z) :
  NoDup switchTypeProperties ->
  SwitchType_0x02 ∈ switchTypeKeys ->
  (forall t, getEnumMemberName t ∈ SwitchType_keys
             \/ String_includes "/" (getEnumMemberName t) = false) ->
  exists upId downId,
    levelChangeUp_endpoint getEnumMemberName switchType index = Some upId
    /\ levelChangeDown_endpoint getEnumMemberName switchType index
       = Some downId
    /\ levelChangeUp_is upId = true /\ levelChangeDown_is upId = false
    /\ levelChangeDown_is downId = true /\ levelChangeUp_is downId = false.
Proof.
  intros Hnodup Hdefault Hnames.
  unfold levelChangeUp_endpoint, levelChangeDown_endpoint,
    levelChangeUp_property, levelChangeDown_property.
  assert (exists key, key ∈ switchTypeKeys
                      /\ switchTypeToActions (getEnumMemberName switchType)
                         = switchTypeToActions key) as (key & Hkey & ->).
  { destruct (String_includes "/" (getEnumMemberName switchType)) eqn:Hinc.
    - exists (getEnumMemberName switchType). split; [|reflexivity].
      apply switchTypeKeys_elem. split; [|exact Hinc].
      destruct (Hnames switchType) as [Hin|Hno]; [exact Hin | congruence].
    - exists SwitchType_0x02.
      split; [exact Hdefault | by apply switchTypeToActions_fallback]. }
  destruct (key_actions_recognised key index Hnodup Hkey)
    as (down & up & upId & downId & -> & Hup & Hdown & Hrest).
  exists upId, downId. cbn [lookup list_lookup].
  split; [exact Hup|]. split; [exact Hdown | exact Hrest].
Qed.

(** X11: provided the table has no repeated name, [SwitchType[0x02]] is an
    enum key with a '/', and every switch type name is an enum key or has no
    '/', the value ids of [levelChangeUp(switchType)] and
    [levelChangeDown(switchType)] are defined for every switch type, the
    first is accepted by the predicate of [levelChangeUp] and rejected by
    that of [levelChangeDown], and the second the other way round; for a
    switch type whose name has no '/' they are the value ids of switch type
    0x02. *)
Theorem dynamic_values_recognise_their_ids (switchType index : Z) :
  NoDup switchTypeProperties ->
  SwitchType_0x02 ∈ switchTypeKeys ->
  (forall t, getEnumMemberName t ∈ SwitchType_keys
             \/ String_includes "/" (getEnumMemberName t) = false) ->
  getEnumMemberName 2 = SwitchType_0x02 ->
  (exists upId downId,
     levelChangeUp_endpoint getEnumMemberName switchType index = Some upId
     /\ levelChangeDown_endpoint getEnumMemberName switchType index
        = Some downId
     /\ levelChangeUp_is upId = true /\ levelChangeDown_is upId = false
     /\ levelChangeDown_is downId = true /\ levelChangeUp_is downId = false)
  /\ (String_includes "/" (getEnumMemberName switchType) = false ->
      levelChangeUp_endpoint getEnumMemberName switchType index
      = levelChangeUp_endpoint getEnumMemberName 2 index
      /\ levelChangeDown_endpoint getEnumMemberName switchType index
         = levelChangeDown_endpoint getEnumMemberName 2 index).
Proof.
  intros Hnodup Hdefault Hnames Hname2.
  split; [by apply dynamic_ids_recognised|].
  intros Hno.
  unfold levelChangeUp_endpoint, levelChangeDown_endpoint,
    levelChangeUp_property, levelChangeDown_property.
  rewrite Hname2, (switchTypeToActions_fallback _ Hno). split; reflexivity.
Qed.

End DynamicValueTheorems.

Section DynamicValueExamples.
#[local] Existing Instance ZWaveSwitchType.

Lemma ZWave_names_are_keys (t : Z) :
  ZWave_getEnumMemberName t ∈ SwitchType_keys
  \/ String_includes "/" (ZWave_getEnumMemberName t) = false.
Proof.
  unfold ZWave_getEnumMemberName.
  repeat (destruct (_ =? _);
          [left; apply (bool_decide_unpack _); vm_compute; exact I|]).
  right. reflexivity.
Defined.

Lemma ZWave_default_is_key : SwitchType_0x02 ∈ switchTypeKeys.
Proof. apply (bool_decide_unpack _). vm_compute. exact I. Defined.

(** Witness of X11: for switch type 3 (Close/Open) the ids are those of
    "Open" and "Close"; the unknown switch type 31 gets those of Down/Up. *)
Lemma dynamic_values_recognise_their_ids_witness :
  (NoDup switchTypeProperties /\ SwitchType_0x02 ∈ switchTypeKeys)
  /\ levelChangeUp_property ZWave_getEnumMemberName 3 = Some "Open"%string
  /\ levelChangeDown_property ZWave_getEnumMemberName 3 = Some "Close"%string
  /\ (exists upId downId,
        levelChangeUp_endpoint ZWave_getEnumMemberName 31 0 = Some upId
        /\ levelChangeDown_endpoint ZWave_getEnumMemberName 31 0 = Some downId
        /\ levelChangeUp_is upId = true /\ levelChangeDown_is upId = false
        /\ levelChangeDown_is downId = true
        /\ levelChangeUp_is downId = false).
Proof.
  split; [split; [exact switchTypeProperties_NoDup
                 | exact ZWave_default_is_key]|].
  split; [reflexivity|]. split; [reflexivity|].
  exact (proj1 (dynamic_values_recognise_their_ids ZWave_getEnumMemberName
                  31 0 switchTypeProperties_NoDup ZWave_default_is_key
                  ZWave_names_are_keys eq_refl)).
Defined.

End DynamicValueExamples.

(** ** Polling and the interview of the command class *)

Section PollTheorems.
Context `{CoreSafe} `{SwitchTypeEnum}.
Implicit Types (env : Env) (h : Host).

(** [get()] throws on an endpoint that is not singlecast, before anything
    is handed over; on a singlecast endpoint it hands over one Get and
    returns the report, unless the send fails. *)
Lemma get_values_cases env version (response : option ReportValues) h :
  let cmd := {| sent_cc := MultilevelSwitchCCGet []; sent_onUpdate := None |} in
  get_values env version response h
  = if env_isSinglecast env
    then (match send_outcome env version cmd with
          | inl e => inl e
          | inr _ => inr response
          end, host_sent h cmd)
    else (inl CC_NotSupported, h).
Proof.
  cbv zeta. unfold get_values, assertSupportsCommand, supportsCommand.
  destruct (env_isSinglecast env); [| reflexivity].
  run_api. unfold sendCommand.
  destruct (send_outcome env version _); reflexivity.
Qed.

(** X12: [pollValue] supports exactly the properties currentValue,
    targetValue and duration.  For any other property (restorePrevious and
    the level-change actions included) it throws an unsupported-property
    error without handing over a command.  For the three, on an endpoint
    that is not singlecast it throws a not-supported error, again without a
    command; on a singlecast endpoint it hands over exactly one Get and
    changes nothing else, throws what the send threw when the send failed,
    and otherwise returns the field of the report that was asked for, or
    undefined when no report arrived. *)
Theorem pollValue_sends_one_Get env version (property : Property)
    (response : option ReportValues) h :
  let run := pollValue env version property response h in
  let get := {| sent_cc := MultilevelSwitchCCGet [];
                sent_onUpdate := None |} in
  let readable :=
    property = PString "currentValue" \/ property = PString "targetValue"
    \/ property = PString "duration" in
  (~ readable -> run = (inl (UnsupportedProperty property), h))
  /\ (readable -> env_isSinglecast env = false ->
      run = (inl CC_NotSupported, h))
  /\ (readable -> env_isSinglecast env = true ->
      run.2 = host_sent h get
      /\ (forall e, send_outcome env version get = inl e -> run.1 = inl e)
      /\ (forall result,
            send_outcome env version get = inr result ->
            (response = None -> run.1 = inr None)
            /\ (forall r, response = Some r ->
                  run.1
                  = inr (Some
                           (if decide (property = PString "currentValue")
                            then Polled_currentValue (report_currentValue r)
                            else if decide (property = PString "targetValue")
                                 then Polled_targetValue
                                        (report_targetValue r)
                                 else Polled_duration
                                        (report_duration r)))))).
Proof.
  cbv zeta. unfold pollValue.
  pose proof (get_values_cases env version response h) as Hget.
  cbv zeta in Hget.
  split; [| split].
  - intros Hnot. rewrite !decide_False by tauto. reflexivity.
  - intros Hreadable Hsingle. rewrite Hsingle in Hget.
    destruct (decide (property = PString "currentValue"));
      [| destruct (decide (property = PString "targetValue"));
         [| destruct (decide (property = PString "duration")); [| tauto]]];
      run_api; rewrite Hget; reflexivity.
  - intros Hreadable Hsingle. rewrite Hsingle in Hget.
    destruct (decide (property = PString "currentValue")) as [Hc|Hc];
      [| destruct (decide (property = PString "targetValue")) as [Ht|Ht];
         [| destruct (decide (property = PString "duration")) as [Hd|Hd];
            [| tauto]]];
      run_api; rewrite Hget;
      destruct (send_outcome env version _) as [e|result];
      cbn [fst snd];
      (split; [reflexivity|]);
      (split; [intros e' [=]; congruence | intros result' [=]]);
      try (split; [intros -> | intros r ->]; reflexivity).
Qed.

End PollTheorems.

Section CCInterviewTheorems.
Context `{CoreSafe} `{SwitchTypeEnum}.
Variable getEnumMemberName : Z -> string.
Variable ensureMetadata : option ValueID -> API unit.
Variable setInterviewComplete : bool -> API unit.
Variable super_persistValues : API bool.
Implicit Types (env : Env) (h : Host).

Lemma getSupported_cases env version (response : option Z) h :
  let cmd := {| sent_cc := MultilevelSwitchCCSupportedGet [];
                sent_onUpdate := None |} in
  getSupported env version response h
  = if (3 <=? version) && env_isSinglecast env
    then (match send_outcome env version cmd with
          | inl e => inl e
          | inr _ => inr response
          end, host_sent h cmd)
    else (inl CC_NotSupported, h).
Proof.
  cbv zeta. unfold getSupported, assertSupportsCommand, supportsCommand.
  destruct ((3 <=? version) && env_isSinglecast env); [| reflexivity].
  run_api. unfold sendCommand.
  destruct (send_outcome env version _); reflexivity.
Qed.

(** The interview from [refreshValues] on, in a host [prepared] by what
    came before. *)
Lemma refreshValues_then_complete env version
    (report : option ReportValues) (prepared : Host) :
  let get := {| sent_cc := MultilevelSwitchCCGet []; sent_onUpdate := None |} in
  (refreshValues env version report;; setInterviewComplete true) prepared
  = if env_isSinglecast env
    then match send_outcome env version get with
         | inl e => (inl e, host_sent prepared get)
         | inr _ => setInterviewComplete true (host_sent prepared get)
         end
    else (inl CC_NotSupported, prepared).
Proof.
  cbv zeta. unfold refreshValues. run_api.
  rewrite get_values_cases. cbv zeta.
  destruct (env_isSinglecast env); [| reflexivity].
  destruct (send_outcome env version _); reflexivity.
Qed.

(** X13: the interview of the command class.  From version 3 on it first
    hands over a SupportedGet; below version 3 it first ensures the metadata
    of the up and the down action of switch type 0x02 (Down/Up), and throws
    what that throws.  Then it hands over a Get, and only when that has
    resolved does it call [setInterviewComplete(true)], as the last thing it
    does: the interview ends the way this call ends.  When a send fails, the
    interview throws what the send threw, hands over nothing further and
    does not call [setInterviewComplete].  On an endpoint that is not
    singlecast it throws a not-supported error without handing over a
    command and without calling [setInterviewComplete]. *)
Theorem CC_interview_flow env version (supported : option Z)
    (report : option ReportValues) h :
  let run := CC_interview getEnumMemberName ensureMetadata
               setInterviewComplete env version supported report h in
  let supportedGet :=
    {| sent_cc := MultilevelSwitchCCSupportedGet []; sent_onUpdate := None |} in
  let get := {| sent_cc := MultilevelSwitchCCGet []; sent_onUpdate := None |} in
  let metadata :=
    createMetadataForLevelChangeActions getEnumMemberName ensureMetadata env 2
      h in
  let then_refresh (prepared : Host) :=
    (forall e,
       send_outcome env version get = inl e ->
       run = (inl e, host_sent prepared get))
    /\ (forall result,
          send_outcome env version get = inr result ->
          run = setInterviewComplete true (host_sent prepared get)) in
  (3 <= version ->
   (env_isSinglecast env = false -> run = (inl CC_NotSupported, h))
   /\ (env_isSinglecast env = true ->
       (forall e,
          send_outcome env version supportedGet = inl e ->
          run = (inl e, host_sent h supportedGet))
       /\ (forall result,
             send_outcome env version supportedGet = inr result ->
             then_refresh (host_sent h supportedGet))))
  /\ (version < 3 ->
      (forall e, metadata.1 = inl e -> run = (inl e, metadata.2))
      /\ (metadata.1 = inr tt ->
          (env_isSinglecast env = false ->
           run = (inl CC_NotSupported, metadata.2))
          /\ (env_isSinglecast env = true -> then_refresh metadata.2))).
Proof.
  cbv zeta. unfold CC_interview, SwitchType_Down_Up.
  pose proof (getSupported_cases env version supported h) as Hsup.
  cbv zeta in Hsup.
  pose proof (refreshValues_then_complete env version report) as Hrest.
  cbv zeta in Hrest.
  split.
  - intros Hv. replace (3 <=? version) with true in * by (symmetry; lia).
    cbn [andb] in Hsup.
    change (((getSupported env version supported;; mret tt);;
             refreshValues env version report;; setInterviewComplete true) h)
      with (match (getSupported env version supported;; mret tt) h with
            | (inl e, h') => (inl e, h')
            | (inr a, h') =>
                (refreshValues env version report;;
                 setInterviewComplete true) h'
            end).
    run_api. rewrite Hsup.
    destruct (env_isSinglecast env) eqn:Hsingle.
    + split; [discriminate|]. intros _. split.
      * intros e ->. reflexivity.
      * intros result ->. rewrite Hrest. split; intros ? ->; reflexivity.
    + split; [intros _; reflexivity | discriminate].
  - intros Hv. replace (3 <=? version) with false by (symmetry; lia).
    change ((createMetadataForLevelChangeActions getEnumMemberName
               ensureMetadata env 2;;
             refreshValues env version report;; setInterviewComplete true) h)
      with (match createMetadataForLevelChangeActions getEnumMemberName
                    ensureMetadata env 2 h with
            | (inl e, h') => (inl e, h')
            | (inr a, h') =>
                (refreshValues env version report;;
                 setInterviewComplete true) h'
            end).
    destruct (createMetadataForLevelChangeActions getEnumMemberName
                ensureMetadata env 2 h) as [[e|[]] hm]; cbn [fst snd].
    + split; [intros e' [= <-]; reflexivity | discriminate].
    + split; [discriminate|]. intros _. rewrite Hrest.
      destruct (env_isSinglecast env).
      * split; [discriminate|]. intros _. split; intros ? ->; reflexivity.
      * split; [intros _; reflexivity | discriminate].
Qed.

(** X14: persisting a SupportedReport starts with [super.persistValues] and
    throws what that throws.  When [super.persistValues] returns false,
    nothing more is done and false is returned.  Otherwise (and provided the
    table has no repeated name, [SwitchType[0x02]] is an enum key with a '/'
    and every switch type name is an enum key or has no '/')
    [ensureMetadata] is called for two value ids of the command class at the
    endpoint, first for one that the predicate of [levelChangeUp] accepts
    and then for one that the predicate of [levelChangeDown] accepts, and
    true is returned unless one of these calls throws. *)
Theorem persistValues_creates_recognised_metadata env (switchType : Z) h :
  NoDup switchTypeProperties ->
  SwitchType_0x02 ∈ switchTypeKeys ->
  (forall t, getEnumMemberName t ∈ SwitchType_keys
             \/ String_includes "/" (getEnumMemberName t) = false) ->
  let run := SupportedReport_persistValues getEnumMemberName ensureMetadata
               super_persistValues env switchType h in
  let super := super_persistValues h in
  (forall e, super.1 = inl e -> run = (inl e, super.2))
  /\ (super.1 = inr false -> run = (inr false, super.2))
  /\ (super.1 = inr true ->
      exists upId downId,
        run = (ensureMetadata (Some upId);;
               ensureMetadata (Some downId);;
               mret true) super.2
        /\ commandClass upId = 38 /\ commandClass downId = 38
        /\ endpoint upId = env_endpointIndex env
        /\ endpoint downId = env_endpointIndex env
        /\ levelChangeUp_is upId = true /\ levelChangeDown_is upId = false
        /\ levelChangeDown_is downId = true
        /\ levelChangeUp_is downId = false).
Proof.
  intros Hnodup Hdefault Hnames. cbv zeta.
  unfold SupportedReport_persistValues.
  change ((persisted ← super_persistValues;
           (if negb persisted then mret false
            else createMetadataForLevelChangeActions getEnumMemberName
                   ensureMetadata env switchType;; mret true)) h)
    with (match super_persistValues h with
          | (inl e, h') => (inl e, h')
          | (inr persisted, h') =>
              (if negb persisted then mret false
               else createMetadataForLevelChangeActions getEnumMemberName
                      ensureMetadata env switchType;; mret true) h'
          end).
  destruct (super_persistValues h) as [[e|[|]] h1]; cbn [negb fst snd].
  - split; [intros e' [= <-]; reflexivity | split; discriminate].
  - split; [intros e' [=] | split; [discriminate|]]. intros _.
    destruct (dynamic_ids_recognised getEnumMemberName switchType
                (env_endpointIndex env) Hnodup Hdefault Hnames)
      as (upId & downId & Hup & Hdown & Hrest).
    exists upId, downId.
    unfold createMetadataForLevelChangeActions. rewrite Hup, Hdown.
    split.
    { run_api. destruct (ensureMetadata (Some upId) h1) as [[e1|[]] h2];
        [reflexivity|].
      destruct (ensureMetadata (Some downId) h2) as [[e2|[]] h3];
        reflexivity. }
    unfold levelChangeUp_endpoint, levelChangeDown_endpoint, dynamic_endpoint
      in Hup, Hdown.
    destruct (levelChangeUp_property _ _); [|discriminate Hup].
    destruct (levelChangeDown_property _ _); [|discriminate Hdown].
    injection Hup as <-. injection Hdown as <-.
    do 4 (split; [reflexivity|]). exact Hrest.
  - split; [intros e' [=] | split; [reflexivity | discriminate]].
Qed.

End CCInterviewTheorems.

Section CCInterviewExamples.
#[local] Existing Instance ZWaveDuration.core.
#[local] Existing Instance ZWaveSwitchType.

(** Witness of X14: on the Z-Wave switch types, persisting a report of
    switch type 3 (Close/Open) at endpoint 0 ensures the metadata of "Open"
    and then of "Close". *)
Lemma persistValues_creates_recognised_metadata_witness :
  let id name := {| commandClass := CommandClasses_Multilevel_Switch;
                    endpoint := 0; property := PString name;
                    propertyKey := None |} in
  (NoDup switchTypeProperties /\ SwitchType_0x02 ∈ switchTypeKeys)
  /\ levelChangeUp_endpoint ZWave_getEnumMemberName 3 0
     = Some (id "Open"%string)
  /\ levelChangeDown_endpoint ZWave_getEnumMemberName 3 0
     = Some (id "Close"%string)
  /\ exists upId downId,
       SupportedReport_persistValues ZWave_getEnumMemberName
         ensureMetadata_skip super_persistValues_skip supervised_env 3
         fresh_host
       = (ensureMetadata_skip (Some upId);;
          ensureMetadata_skip (Some downId);;
          mret true) fresh_host
       /\ levelChangeUp_is upId = true /\ levelChangeDown_is downId = true.
Proof.
  cbv zeta.
  split; [split; [exact switchTypeProperties_NoDup
                 | exact ZWave_default_is_key]|].
  split; [reflexivity|]. split; [reflexivity|].
  destruct (persistValues_creates_recognised_metadata ZWave_getEnumMemberName
              ensureMetadata_skip super_persistValues_skip
              supervised_env 3 fresh_host
              switchTypeProperties_NoDup ZWave_default_is_key
              ZWave_names_are_keys)
    as (_ & _ & Hcreated).
  destruct (Hcreated eq_refl)
    as (upId & downId & Hrun & _ & _ & _ & _ & Hup & _ & Hdown & _).
  exists upId, downId. split; [exact Hrun|]. split; [exact Hup | exact Hdown].
Defined.

(** The interview on concrete inputs: at version 4 a node that does not
    answer the SupportedGet ends the interview after that one command; a
    node that answers is asked for its state next. *)
Example CC_interview_unreachable :
  CC_interview ZWave_getEnumMemberName ensureMetadata_skip
    setInterviewComplete_skip unreachable_env 4 None None fresh_host
  = (inl NodeTimeout,
     host_sent fresh_host
       {| sent_cc := MultilevelSwitchCCSupportedGet [];
          sent_onUpdate := None |})
  /\ sent (CC_interview ZWave_getEnumMemberName ensureMetadata_skip
             setInterviewComplete_skip supervised_env 4 (Some 3) None
             fresh_host).2
     = [{| sent_cc := MultilevelSwitchCCSupportedGet [];
           sent_onUpdate := None |};
        {| sent_cc := MultilevelSwitchCCGet []; sent_onUpdate := None |}].
Proof. split; reflexivity. Qed.

End CCInterviewExamples.

(** ** From [setValue] to the bytes sent *)

Section WireTheorems.
Context `{CoreSafe} `{SwitchTypeEnum}.
Implicit Types (env : Env) (h : Host) (duration : option Duration).


(** X16: a status update with status Fail makes the handler of [setValue]
    request the current state: on a singlecast endpoint it sends one Get; on
    any other endpoint [get()] throws, the error is swallowed and nothing is
    sent.  Either way the handler returns and writes no value DB, emits no
    event and schedules no poll. *)
Theorem onUpdate_fail_requests_refresh env version
    (handler : StatusUpdateHandler) (update : SupervisionResult) h :
  status update = Fail ->
  onUpdate env version handler update h
  = (inr tt,
     if env_isSinglecast env
     then host_sent h {| sent_cc := MultilevelSwitchCCGet [];
                         sent_onUpdate := None |}
     else h).
Proof.
  intros Hfail. unfold onUpdate. rewrite Hfail.
  rewrite decide_False by discriminate.
  rewrite decide_True by reflexivity.
  unfold API_catch, get, assertSupportsCommand, supportsCommand.
  run_api. destruct (env_isSinglecast env); [| reflexivity].
  unfold sendCommand. destruct (send_outcome env version _); reflexivity.
Qed.

End WireTheorems.

Section WireExamples.
#[local] Existing Instance ZWaveDuration.core.
#[local] Existing Instance ZWaveSwitchType.


(** Witness of X16: on the multicast endpoint a failed transition sends
    nothing. *)
Lemma onUpdate_fail_requests_refresh_witness :
  let handler := {| handler_valueId := currentValue_endpoint 0;
                    handler_value := 50 |} in
  status {| status := Fail |} = Fail
  /\ onUpdate multicast_env 4 handler {| status := Fail |} two_node_host
     = (inr tt, two_node_host)
  /\ sent (onUpdate supervised_env 4 handler {| status := Fail |}
             fresh_host).2
     = [{| sent_cc := MultilevelSwitchCCGet []; sent_onUpdate := None |}].
Proof.
  cbv zeta. split; [reflexivity|]. split.
  - exact (onUpdate_fail_requests_refresh multicast_env 4 _
             {| status := Fail |} two_node_host eq_refl).
  - rewrite (onUpdate_fail_requests_refresh supervised_env 4 _
               {| status := Fail |} fresh_host eq_refl).
    reflexivity.
Defined.

End WireExamples.
